(** * generate_playlists.py: a shallow embedding and its properties

    The development follows [src/generate_playlists.py] top to bottom:
    Python values and the builtins the script calls, the exception and
    effect monad, [fetch_url], [write_m3u_file], [format_extinf] and
    [generate_lgchannels_m3u], then the theorems.

    Conventions of the model.
    - A Python [str] is a [string] that holds the UTF-8 bytes of its code
      points (a lone surrogate as the three bytes that the same scheme
      gives it).  The order of the bytes is then the order of the code
      points, which is the order that [<] compares strings in; searching
      and replacing an ASCII text in the bytes is searching and
      replacing it in the characters.  [lower], [upper], [isdigit],
      [int] and [repr] read the code points and follow CPython 3.11 with
      the tables of Unicode 14.0.0, which are part of this file.
    - A parsed JSON document is a [pyval].  A JSON number is an integer
      of at most 4300 digits: [json.loads] returns no other integer, and
      [str] converts no other; the float type is not modelled.  Lists
      and objects are nested as deep as [json.loads] reads them, which
      is no deeper than [str] writes them.
    - A Python [dict] is an association list in insertion order, read
      with [dict_get] and written with [dict_set].
    - The network, the gzip, UTF-8 and JSON codecs and the file system
      are an environment [env] of oracles; exceptions are values of
      [exn]; log lines are collected in order.  The failures of the
      file system are those of [os.makedirs] and of [open]: a file that
      [open] has opened takes the whole text, which is taken to hold no
      lone surrogate (the utf-8 codec of the file refuses one, the file
      already emptied). *)

From Stdlib Require Import List String Ascii ZArith NArith Bool Lia Permutation
  Sorted DecimalString DecimalPos OrdersEx RelationClasses.
From Stdlib.Strings Require Import Byte.
Import ListNotations.

#[local] Set Warnings "-register-all".
Local Open Scope Z_scope.
Local Open Scope nat_scope.
Local Open Scope list_scope.
Local Open Scope string_scope.

Set Implicit Arguments.

(** Characters that a string literal cannot hold. *)
Definition dquote : ascii := Eval cbv in ascii_of_nat 34.
Definition newline : ascii := Eval cbv in ascii_of_nat 10.
Definition nl : string := String newline EmptyString.

(** ** Integers *)

(* str(z) *)
Definition str_of_Z (z : Z) : string :=
  NilZero.string_of_int (Z.to_int z).

(* sys.int_info.default_max_str_digits: the most digits that str() writes
   and int() reads *)
Definition max_str_digits : nat := 4300.

Definition fits (z : Z) : bool :=
  (String.length (str_of_Z (Z.abs z)) <=? max_str_digits)%nat.

(* an integer of a JSON document *)
Record jint : Type := mkint {
  jz : Z;
  jok : fits jz = true
}.

(** ** Python values *)

Inductive pyval : Type :=
| PNone
| PBool (b : bool)
| PInt (z : jint)
| PStr (s : string)
| PList (l : list pyval)
| PDict (d : list (string * pyval)).

(* the value of an integer literal *)
Abbreviation pint z := (PInt (@mkint z eq_refl)) (only parsing).

Inductive exn : Type :=
| NameError
| TypeError
| AttributeError
| ValueError
| KeyError
| OSError
| RequestException
| JSONDecodeError
| UnicodeDecodeError
| UnicodeEncodeError
| BadGzipFile
| EOFError
| ZlibError.

(* except IOError: IOError is OSError, and the exception classes of
   requests and of gzip.BadGzipFile are under it *)
Definition caught (e : exn) : bool :=
  match e with
  | OSError | RequestException | BadGzipFile => true
  | _ => false
  end.

(** ** Strings *)

Module Str.

Definition is_upper (c : ascii) : bool :=
  let n := nat_of_ascii c in (65 <=? n)%nat && (n <=? 90)%nat.

Definition is_lower (c : ascii) : bool :=
  let n := nat_of_ascii c in (97 <=? n)%nat && (n <=? 122)%nat.

Definition is_digit (c : ascii) : bool :=
  let n := nat_of_ascii c in (48 <=? n)%nat && (n <=? 57)%nat.

(* Py_ISSPACE: blank, \t, \n, \v, \f, \r *)
Definition is_space (c : ascii) : bool :=
  let n := nat_of_ascii c in
  (n =? 32)%nat || ((9 <=? n)%nat && (n <=? 13)%nat).

Definition lower_char (c : ascii) : ascii :=
  if is_upper c then ascii_of_nat (nat_of_ascii c + 32) else c.

Definition upper_char (c : ascii) : ascii :=
  if is_lower c then ascii_of_nat (nat_of_ascii c - 32) else c.

Fixpoint map_chars (f : ascii -> ascii) (s : string) : string :=
  match s with
  | EmptyString => EmptyString
  | String c s' => String (f c) (map_chars f s')
  end.

Fixpoint all_chars (p : ascii -> bool) (s : string) : bool :=
  match s with
  | EmptyString => true
  | String c s' => p c && all_chars p s'
  end.

(* s.isascii() *)
Definition is_ascii_char (c : ascii) : bool := (nat_of_ascii c <? 128)%nat.
Definition is_ascii (s : string) : bool := all_chars is_ascii_char s.

(** *** Code points *)

(* a byte that is not part of the encoding of a code point is kept as a
   number above the code points *)
Definition stray : N := 1114112.

Definition is_cont (n : N) : bool := (128 <=? n)%N && (n <=? 191)%N.

(* the code points of a str *)
Fixpoint decode (s : string) : list N :=
  match s with
  | EmptyString => []
  | String b0 r0 =>
      let n0 := N_of_ascii b0 in
      if (n0 <? 128)%N then n0 :: decode r0
      else
        let bad := (stray + n0)%N :: decode r0 in
        match r0 with
        | EmptyString => bad
        | String b1 r1 =>
            let n1 := N_of_ascii b1 in
            if negb (is_cont n1) then bad
            else if (194 <=? n0)%N && (n0 <=? 223)%N then
              ((n0 - 192) * 64 + (n1 - 128))%N :: decode r1
            else
              match r1 with
              | EmptyString => bad
              | String b2 r2 =>
                  let n2 := N_of_ascii b2 in
                  let c3 :=
                    ((n0 - 224) * 4096 + (n1 - 128) * 64 + (n2 - 128))%N in
                  if negb (is_cont n2) then bad
                  else if (224 <=? n0)%N && (n0 <=? 239)%N then
                    if (2048 <=? c3)%N then c3 :: decode r2 else bad
                  else
                    match r2 with
                    | EmptyString => bad
                    | String b3 r3 =>
                        let n3 := N_of_ascii b3 in
                        let c4 :=
                          ((n0 - 240) * 262144 + (n1 - 128) * 4096
                           + (n2 - 128) * 64 + (n3 - 128))%N in
                        if is_cont n3 && (240 <=? n0)%N && (n0 <=? 244)%N
                           && (65536 <=? c4)%N && (c4 <? stray)%N
                        then c4 :: decode r3
                        else bad
                    end
              end
        end
  end.

Definition byte (n : N) : ascii := ascii_of_N (n mod 256).

(* the bytes of a code point *)
Definition encode_cp (c : N) : string :=
  if (c <? 128)%N then String (byte c) EmptyString
  else if (c <? 2048)%N then
    String (byte (192 + c / 64))
      (String (byte (128 + c mod 64)) EmptyString)
  else if (c <? 65536)%N then
    String (byte (224 + c / 4096))
      (String (byte (128 + (c / 64) mod 64))
         (String (byte (128 + c mod 64)) EmptyString))
  else if (c <? stray)%N then
    String (byte (240 + c / 262144))
      (String (byte (128 + (c / 4096) mod 64))
         (String (byte (128 + (c / 64) mod 64))
            (String (byte (128 + c mod 64)) EmptyString)))
  else String (byte (c - stray)) EmptyString.

Fixpoint encode (l : list N) : string :=
  match l with
  | [] => EmptyString
  | c :: l' => encode_cp c ++ encode l'
  end.

(** *** The Unicode character database, version 14.0.0 *)

(* Numeric_Type is Decimal or Digit: the characters of isdigit *)
Definition digit_ranges : list (N * N) :=
  [(48, 57); (178, 179); (185, 185); (1632, 1641); (1776, 1785); (1984,
   1993); (2406, 2415); (2534, 2543); (2662, 2671); (2790, 2799); (2918,
   2927); (3046, 3055); (3174, 3183); (3302, 3311); (3430, 3439); (3558,
   3567); (3664, 3673); (3792, 3801); (3872, 3881); (4160, 4169); (4240,
   4249); (4969, 4977); (6112, 6121); (6160, 6169); (6470, 6479); (6608,
   6618); (6784, 6793); (6800, 6809); (6992, 7001); (7088, 7097); (7232,
   7241); (7248, 7257); (8304, 8304); (8308, 8313); (8320, 8329); (9312,
   9320); (9332, 9340); (9352, 9360); (9450, 9450); (9461, 9469); (9471,
   9471); (10102, 10110); (10112, 10120); (10122, 10130); (42528, 42537);
   (43216, 43225); (43264, 43273); (43472, 43481); (43504, 43513); (43600,
   43609); (44016, 44025); (65296, 65305); (66720, 66729); (68160, 68163);
   (68912, 68921); (69216, 69224); (69714, 69722); (69734, 69743); (69872,
   69881); (69942, 69951); (70096, 70105); (70384, 70393); (70736, 70745);
   (70864, 70873); (71248, 71257); (71360, 71369); (71472, 71481); (71904,
   71913); (72016, 72025); (72784, 72793); (73040, 73049); (73120, 73129);
   (92768, 92777); (92864, 92873); (93008, 93017); (120782, 120831); (123200,
   123209); (123632, 123641); (125264, 125273); (127232, 127242); (130032,
   130041)]%N.

(* Numeric_Type is Decimal; the value of a character is its place in
   the range, modulo ten *)
Definition decimal_ranges : list (N * N) :=
  [(48, 57); (1632, 1641); (1776, 1785); (1984, 1993); (2406, 2415); (2534,
   2543); (2662, 2671); (2790, 2799); (2918, 2927); (3046, 3055); (3174,
   3183); (3302, 3311); (3430, 3439); (3558, 3567); (3664, 3673); (3792,
   3801); (3872, 3881); (4160, 4169); (4240, 4249); (6112, 6121); (6160,
   6169); (6470, 6479); (6608, 6617); (6784, 6793); (6800, 6809); (6992,
   7001); (7088, 7097); (7232, 7241); (7248, 7257); (42528, 42537); (43216,
   43225); (43264, 43273); (43472, 43481); (43504, 43513); (43600, 43609);
   (44016, 44025); (65296, 65305); (66720, 66729); (68912, 68921); (69734,
   69743); (69872, 69881); (69942, 69951); (70096, 70105); (70384, 70393);
   (70736, 70745); (70864, 70873); (71248, 71257); (71360, 71369); (71472,
   71481); (71904, 71913); (72016, 72025); (72784, 72793); (73040, 73049);
   (73120, 73129); (92768, 92777); (92864, 92873); (93008, 93017); (120782,
   120831); (123200, 123209); (123632, 123641); (125264, 125273); (130032,
   130041)]%N.

(* the white space outside ASCII *)
Definition space_ranges : list (N * N) :=
  [(133, 133); (160, 160); (5760, 5760); (8192, 8202); (8232, 8233); (8239,
   8239); (8287, 8287); (12288, 12288)]%N.

(* the characters outside ASCII that repr escapes *)
Definition nonprintable_ranges : list (N * N) :=
  [(128, 160); (173, 173); (888, 889); (896, 899); (907, 907); (909, 909);
   (930, 930); (1328, 1328); (1367, 1368); (1419, 1420); (1424, 1424); (1480,
   1487); (1515, 1518); (1525, 1541); (1564, 1564); (1757, 1757); (1806,
   1807); (1867, 1868); (1970, 1983); (2043, 2044); (2094, 2095); (2111,
   2111); (2140, 2141); (2143, 2143); (2155, 2159); (2191, 2199); (2274,
   2274); (2436, 2436); (2445, 2446); (2449, 2450); (2473, 2473); (2481,
   2481); (2483, 2485); (2490, 2491); (2501, 2502); (2505, 2506); (2511,
   2518); (2520, 2523); (2526, 2526); (2532, 2533); (2559, 2560); (2564,
   2564); (2571, 2574); (2577, 2578); (2601, 2601); (2609, 2609); (2612,
   2612); (2615, 2615); (2618, 2619); (2621, 2621); (2627, 2630); (2633,
   2634); (2638, 2640); (2642, 2648); (2653, 2653); (2655, 2661); (2679,
   2688); (2692, 2692); (2702, 2702); (2706, 2706); (2729, 2729); (2737,
   2737); (2740, 2740); (2746, 2747); (2758, 2758); (2762, 2762); (2766,
   2767); (2769, 2783); (2788, 2789); (2802, 2808); (2816, 2816); (2820,
   2820); (2829, 2830); (2833, 2834); (2857, 2857); (2865, 2865); (2868,
   2868); (2874, 2875); (2885, 2886); (2889, 2890); (2894, 2900); (2904,
   2907); (2910, 2910); (2916, 2917); (2936, 2945); (2948, 2948); (2955,
   2957); (2961, 2961); (2966, 2968); (2971, 2971); (2973, 2973); (2976,
   2978); (2981, 2983); (2987, 2989); (3002, 3005); (3011, 3013); (3017,
   3017); (3022, 3023); (3025, 3030); (3032, 3045); (3067, 3071); (3085,
   3085); (3089, 3089); (3113, 3113); (3130, 3131); (3141, 3141); (3145,
   3145); (3150, 3156); (3159, 3159); (3163, 3164); (3166, 3167); (3172,
   3173); (3184, 3190); (3213, 3213); (3217, 3217); (3241, 3241); (3252,
   3252); (3258, 3259); (3269, 3269); (3273, 3273); (3278, 3284); (3287,
   3292); (3295, 3295); (3300, 3301); (3312, 3312); (3315, 3327); (3341,
   3341); (3345, 3345); (3397, 3397); (3401, 3401); (3408, 3411); (3428,
   3429); (3456, 3456); (3460, 3460); (3479, 3481); (3506, 3506); (3516,
   3516); (3518, 3519); (3527, 3529); (3531, 3534); (3541, 3541); (3543,
   3543); (3552, 3557); (3568, 3569); (3573, 3584); (3643, 3646); (3676,
   3712); (3715, 3715); (3717, 3717); (3723, 3723); (3748, 3748); (3750,
   3750); (3774, 3775); (3781, 3781); (3783, 3783); (3790, 3791); (3802,
   3803); (3808, 3839); (3912, 3912); (3949, 3952); (3992, 3992); (4029,
   4029); (4045, 4045); (4059, 4095); (4294, 4294); (4296, 4300); (4302,
   4303); (4681, 4681); (4686, 4687); (4695, 4695); (4697, 4697); (4702,
   4703); (4745, 4745); (4750, 4751); (4785, 4785); (4790, 4791); (4799,
   4799); (4801, 4801); (4806, 4807); (4823, 4823); (4881, 4881); (4886,
   4887); (4955, 4956); (4989, 4991); (5018, 5023); (5110, 5111); (5118,
   5119); (5760, 5760); (5789, 5791); (5881, 5887); (5910, 5918); (5943,
   5951); (5972, 5983); (5997, 5997); (6001, 6001); (6004, 6015); (6110,
   6111); (6122, 6127); (6138, 6143); (6158, 6158); (6170, 6175); (6265,
   6271); (6315, 6319); (6390, 6399); (6431, 6431); (6444, 6447); (6460,
   6463); (6465, 6467); (6510, 6511); (6517, 6527); (6572, 6575); (6602,
   6607); (6619, 6621); (6684, 6685); (6751, 6751); (6781, 6782); (6794,
   6799); (6810, 6815); (6830, 6831); (6863, 6911); (6989, 6991); (7039,
   7039); (7156, 7163); (7224, 7226); (7242, 7244); (7305, 7311); (7355,
   7356); (7368, 7375); (7419, 7423); (7958, 7959); (7966, 7967); (8006,
   8007); (8014, 8015); (8024, 8024); (8026, 8026); (8028, 8028); (8030,
   8030); (8062, 8063); (8117, 8117); (8133, 8133); (8148, 8149); (8156,
   8156); (8176, 8177); (8181, 8181); (8191, 8207); (8232, 8239); (8287,
   8303); (8306, 8307); (8335, 8335); (8349, 8351); (8385, 8399); (8433,
   8447); (8588, 8591); (9255, 9279); (9291, 9311); (11124, 11125); (11158,
   11158); (11508, 11512); (11558, 11558); (11560, 11564); (11566, 11567);
   (11624, 11630); (11633, 11646); (11671, 11679); (11687, 11687); (11695,
   11695); (11703, 11703); (11711, 11711); (11719, 11719); (11727, 11727);
   (11735, 11735); (11743, 11743); (11870, 11903); (11930, 11930); (12020,
   12031); (12246, 12271); (12284, 12288); (12352, 12352); (12439, 12440);
   (12544, 12548); (12592, 12592); (12687, 12687); (12772, 12783); (12831,
   12831); (42125, 42127); (42183, 42191); (42540, 42559); (42744, 42751);
   (42955, 42959); (42962, 42962); (42964, 42964); (42970, 42993); (43053,
   43055); (43066, 43071); (43128, 43135); (43206, 43213); (43226, 43231);
   (43348, 43358); (43389, 43391); (43470, 43470); (43482, 43485); (43519,
   43519); (43575, 43583); (43598, 43599); (43610, 43611); (43715, 43738);
   (43767, 43776); (43783, 43784); (43791, 43792); (43799, 43807); (43815,
   43815); (43823, 43823); (43884, 43887); (44014, 44015); (44026, 44031);
   (55204, 55215); (55239, 55242); (55292, 63743); (64110, 64111); (64218,
   64255); (64263, 64274); (64280, 64284); (64311, 64311); (64317, 64317);
   (64319, 64319); (64322, 64322); (64325, 64325); (64451, 64466); (64912,
   64913); (64968, 64974); (64976, 65007); (65050, 65055); (65107, 65107);
   (65127, 65127); (65132, 65135); (65141, 65141); (65277, 65280); (65471,
   65473); (65480, 65481); (65488, 65489); (65496, 65497); (65501, 65503);
   (65511, 65511); (65519, 65531); (65534, 65535); (65548, 65548); (65575,
   65575); (65595, 65595); (65598, 65598); (65614, 65615); (65630, 65663);
   (65787, 65791); (65795, 65798); (65844, 65846); (65935, 65935); (65949,
   65951); (65953, 65999); (66046, 66175); (66205, 66207); (66257, 66271);
   (66300, 66303); (66340, 66348); (66379, 66383); (66427, 66431); (66462,
   66462); (66500, 66503); (66518, 66559); (66718, 66719); (66730, 66735);
   (66772, 66775); (66812, 66815); (66856, 66863); (66916, 66926); (66939,
   66939); (66955, 66955); (66963, 66963); (66966, 66966); (66978, 66978);
   (66994, 66994); (67002, 67002); (67005, 67071); (67383, 67391); (67414,
   67423); (67432, 67455); (67462, 67462); (67505, 67505); (67515, 67583);
   (67590, 67591); (67593, 67593); (67638, 67638); (67641, 67643); (67645,
   67646); (67670, 67670); (67743, 67750); (67760, 67807); (67827, 67827);
   (67830, 67834); (67868, 67870); (67898, 67902); (67904, 67967); (68024,
   68027); (68048, 68049); (68100, 68100); (68103, 68107); (68116, 68116);
   (68120, 68120); (68150, 68151); (68155, 68158); (68169, 68175); (68185,
   68191); (68256, 68287); (68327, 68330); (68343, 68351); (68406, 68408);
   (68438, 68439); (68467, 68471); (68498, 68504); (68509, 68520); (68528,
   68607); (68681, 68735); (68787, 68799); (68851, 68857); (68904, 68911);
   (68922, 69215); (69247, 69247); (69290, 69290); (69294, 69295); (69298,
   69375); (69416, 69423); (69466, 69487); (69514, 69551); (69580, 69599);
   (69623, 69631); (69710, 69713); (69750, 69758); (69821, 69821); (69827,
   69839); (69865, 69871); (69882, 69887); (69941, 69941); (69960, 69967);
   (70007, 70015); (70112, 70112); (70133, 70143); (70162, 70162); (70207,
   70271); (70279, 70279); (70281, 70281); (70286, 70286); (70302, 70302);
   (70314, 70319); (70379, 70383); (70394, 70399); (70404, 70404); (70413,
   70414); (70417, 70418); (70441, 70441); (70449, 70449); (70452, 70452);
   (70458, 70458); (70469, 70470); (70473, 70474); (70478, 70479); (70481,
   70486); (70488, 70492); (70500, 70501); (70509, 70511); (70517, 70655);
   (70748, 70748); (70754, 70783); (70856, 70863); (70874, 71039); (71094,
   71095); (71134, 71167); (71237, 71247); (71258, 71263); (71277, 71295);
   (71354, 71359); (71370, 71423); (71451, 71452); (71468, 71471); (71495,
   71679); (71740, 71839); (71923, 71934); (71943, 71944); (71946, 71947);
   (71956, 71956); (71959, 71959); (71990, 71990); (71993, 71994); (72007,
   72015); (72026, 72095); (72104, 72105); (72152, 72153); (72165, 72191);
   (72264, 72271); (72355, 72367); (72441, 72703); (72713, 72713); (72759,
   72759); (72774, 72783); (72813, 72815); (72848, 72849); (72872, 72872);
   (72887, 72959); (72967, 72967); (72970, 72970); (73015, 73017); (73019,
   73019); (73022, 73022); (73032, 73039); (73050, 73055); (73062, 73062);
   (73065, 73065); (73103, 73103); (73106, 73106); (73113, 73119); (73130,
   73439); (73465, 73647); (73649, 73663); (73714, 73726); (74650, 74751);
   (74863, 74863); (74869, 74879); (75076, 77711); (77811, 77823); (78895,
   82943); (83527, 92159); (92729, 92735); (92767, 92767); (92778, 92781);
   (92863, 92863); (92874, 92879); (92910, 92911); (92918, 92927); (92998,
   93007); (93018, 93018); (93026, 93026); (93048, 93052); (93072, 93759);
   (93851, 93951); (94027, 94030); (94088, 94094); (94112, 94175); (94181,
   94191); (94194, 94207); (100344, 100351); (101590, 101631); (101641,
   110575); (110580, 110580); (110588, 110588); (110591, 110591); (110883,
   110927); (110931, 110947); (110952, 110959); (111356, 113663); (113771,
   113775); (113789, 113791); (113801, 113807); (113818, 113819); (113824,
   118527); (118574, 118575); (118599, 118607); (118724, 118783); (119030,
   119039); (119079, 119080); (119155, 119162); (119275, 119295); (119366,
   119519); (119540, 119551); (119639, 119647); (119673, 119807); (119893,
   119893); (119965, 119965); (119968, 119969); (119971, 119972); (119975,
   119976); (119981, 119981); (119994, 119994); (119996, 119996); (120004,
   120004); (120070, 120070); (120075, 120076); (120085, 120085); (120093,
   120093); (120122, 120122); (120127, 120127); (120133, 120133); (120135,
   120137); (120145, 120145); (120486, 120487); (120780, 120781); (121484,
   121498); (121504, 121504); (121520, 122623); (122655, 122879); (122887,
   122887); (122905, 122906); (122914, 122914); (122917, 122917); (122923,
   123135); (123181, 123183); (123198, 123199); (123210, 123213); (123216,
   123535); (123567, 123583); (123642, 123646); (123648, 124895); (124903,
   124903); (124908, 124908); (124911, 124911); (124927, 124927); (125125,
   125126); (125143, 125183); (125260, 125263); (125274, 125277); (125280,
   126064); (126133, 126208); (126270, 126463); (126468, 126468); (126496,
   126496); (126499, 126499); (126501, 126502); (126504, 126504); (126515,
   126515); (126520, 126520); (126522, 126522); (126524, 126529); (126531,
   126534); (126536, 126536); (126538, 126538); (126540, 126540); (126544,
   126544); (126547, 126547); (126549, 126550); (126552, 126552); (126554,
   126554); (126556, 126556); (126558, 126558); (126560, 126560); (126563,
   126563); (126565, 126566); (126571, 126571); (126579, 126579); (126584,
   126584); (126589, 126589); (126591, 126591); (126602, 126602); (126620,
   126624); (126628, 126628); (126634, 126634); (126652, 126703); (126706,
   126975); (127020, 127023); (127124, 127135); (127151, 127152); (127168,
   127168); (127184, 127184); (127222, 127231); (127406, 127461); (127491,
   127503); (127548, 127551); (127561, 127567); (127570, 127583); (127590,
   127743); (128728, 128732); (128749, 128751); (128765, 128767); (128884,
   128895); (128985, 128991); (129004, 129007); (129009, 129023); (129036,
   129039); (129096, 129103); (129114, 129119); (129160, 129167); (129198,
   129199); (129202, 129279); (129620, 129631); (129646, 129647); (129653,
   129655); (129661, 129663); (129671, 129679); (129709, 129711); (129723,
   129727); (129734, 129743); (129754, 129759); (129768, 129775); (129783,
   129791); (129939, 129939); (129995, 130031); (130042, 131071); (173792,
   173823); (177977, 177983); (178206, 178207); (183970, 183983); (191457,
   194559); (195102, 196607); (201547, 917759); (918000, 1114111)]%N.

(* Cased and not Case_Ignorable *)
Definition cased_ranges : list (N * N) :=
  [(65, 90); (97, 122); (170, 170); (181, 181); (186, 186); (192, 214); (216,
   246); (248, 442); (444, 447); (452, 659); (661, 687); (880, 883); (886,
   887); (891, 893); (895, 895); (902, 902); (904, 906); (908, 908); (910,
   929); (931, 1013); (1015, 1153); (1162, 1327); (1329, 1366); (1376, 1416);
   (4256, 4293); (4295, 4295); (4301, 4301); (4304, 4346); (4349, 4351);
   (5024, 5109); (5112, 5117); (7296, 7304); (7312, 7354); (7357, 7359);
   (7424, 7467); (7531, 7543); (7545, 7578); (7680, 7957); (7960, 7965);
   (7968, 8005); (8008, 8013); (8016, 8023); (8025, 8025); (8027, 8027);
   (8029, 8029); (8031, 8061); (8064, 8116); (8118, 8124); (8126, 8126);
   (8130, 8132); (8134, 8140); (8144, 8147); (8150, 8155); (8160, 8172);
   (8178, 8180); (8182, 8188); (8450, 8450); (8455, 8455); (8458, 8467);
   (8469, 8469); (8473, 8477); (8484, 8484); (8486, 8486); (8488, 8488);
   (8490, 8493); (8495, 8500); (8505, 8505); (8508, 8511); (8517, 8521);
   (8526, 8526); (8544, 8575); (8579, 8580); (9398, 9449); (11264, 11387);
   (11390, 11492); (11499, 11502); (11506, 11507); (11520, 11557); (11559,
   11559); (11565, 11565); (42560, 42605); (42624, 42651); (42786, 42863);
   (42865, 42887); (42891, 42894); (42896, 42954); (42960, 42961); (42963,
   42963); (42965, 42969); (42997, 42998); (43002, 43002); (43824, 43866);
   (43872, 43880); (43888, 43967); (64256, 64262); (64275, 64279); (65313,
   65338); (65345, 65370); (66560, 66639); (66736, 66771); (66776, 66811);
   (66928, 66938); (66940, 66954); (66956, 66962); (66964, 66965); (66967,
   66977); (66979, 66993); (66995, 67001); (67003, 67004); (68736, 68786);
   (68800, 68850); (71840, 71903); (93760, 93823); (119808, 119892); (119894,
   119964); (119966, 119967); (119970, 119970); (119973, 119974); (119977,
   119980); (119982, 119993); (119995, 119995); (119997, 120003); (120005,
   120069); (120071, 120074); (120077, 120084); (120086, 120092); (120094,
   120121); (120123, 120126); (120128, 120132); (120134, 120134); (120138,
   120144); (120146, 120485); (120488, 120512); (120514, 120538); (120540,
   120570); (120572, 120596); (120598, 120628); (120630, 120654); (120656,
   120686); (120688, 120712); (120714, 120744); (120746, 120770); (120772,
   120779); (122624, 122633); (122635, 122654); (125184, 125251); (127280,
   127305); (127312, 127337); (127344, 127369)]%N.

(* Case_Ignorable *)
Definition case_ignorable_ranges : list (N * N) :=
  [(39, 39); (46, 46); (58, 58); (94, 94); (96, 96); (168, 168); (173, 173);
   (175, 175); (180, 180); (183, 184); (688, 879); (884, 885); (890, 890);
   (900, 901); (903, 903); (1155, 1161); (1369, 1369); (1375, 1375); (1425,
   1469); (1471, 1471); (1473, 1474); (1476, 1477); (1479, 1479); (1524,
   1524); (1536, 1541); (1552, 1562); (1564, 1564); (1600, 1600); (1611,
   1631); (1648, 1648); (1750, 1757); (1759, 1768); (1770, 1773); (1807,
   1807); (1809, 1809); (1840, 1866); (1958, 1968); (2027, 2037); (2042,
   2042); (2045, 2045); (2070, 2093); (2137, 2139); (2184, 2184); (2192,
   2193); (2200, 2207); (2249, 2306); (2362, 2362); (2364, 2364); (2369,
   2376); (2381, 2381); (2385, 2391); (2402, 2403); (2417, 2417); (2433,
   2433); (2492, 2492); (2497, 2500); (2509, 2509); (2530, 2531); (2558,
   2558); (2561, 2562); (2620, 2620); (2625, 2626); (2631, 2632); (2635,
   2637); (2641, 2641); (2672, 2673); (2677, 2677); (2689, 2690); (2748,
   2748); (2753, 2757); (2759, 2760); (2765, 2765); (2786, 2787); (2810,
   2815); (2817, 2817); (2876, 2876); (2879, 2879); (2881, 2884); (2893,
   2893); (2901, 2902); (2914, 2915); (2946, 2946); (3008, 3008); (3021,
   3021); (3072, 3072); (3076, 3076); (3132, 3132); (3134, 3136); (3142,
   3144); (3146, 3149); (3157, 3158); (3170, 3171); (3201, 3201); (3260,
   3260); (3263, 3263); (3270, 3270); (3276, 3277); (3298, 3299); (3328,
   3329); (3387, 3388); (3393, 3396); (3405, 3405); (3426, 3427); (3457,
   3457); (3530, 3530); (3538, 3540); (3542, 3542); (3633, 3633); (3636,
   3642); (3654, 3662); (3761, 3761); (3764, 3772); (3782, 3782); (3784,
   3789); (3864, 3865); (3893, 3893); (3895, 3895); (3897, 3897); (3953,
   3966); (3968, 3972); (3974, 3975); (3981, 3991); (3993, 4028); (4038,
   4038); (4141, 4144); (4146, 4151); (4153, 4154); (4157, 4158); (4184,
   4185); (4190, 4192); (4209, 4212); (4226, 4226); (4229, 4230); (4237,
   4237); (4253, 4253); (4348, 4348); (4957, 4959); (5906, 5908); (5938,
   5939); (5970, 5971); (6002, 6003); (6068, 6069); (6071, 6077); (6086,
   6086); (6089, 6099); (6103, 6103); (6109, 6109); (6155, 6159); (6211,
   6211); (6277, 6278); (6313, 6313); (6432, 6434); (6439, 6440); (6450,
   6450); (6457, 6459); (6679, 6680); (6683, 6683); (6742, 6742); (6744,
   6750); (6752, 6752); (6754, 6754); (6757, 6764); (6771, 6780); (6783,
   6783); (6823, 6823); (6832, 6862); (6912, 6915); (6964, 6964); (6966,
   6970); (6972, 6972); (6978, 6978); (7019, 7027); (7040, 7041); (7074,
   7077); (7080, 7081); (7083, 7085); (7142, 7142); (7144, 7145); (7149,
   7149); (7151, 7153); (7212, 7219); (7222, 7223); (7288, 7293); (7376,
   7378); (7380, 7392); (7394, 7400); (7405, 7405); (7412, 7412); (7416,
   7417); (7468, 7530); (7544, 7544); (7579, 7679); (8125, 8125); (8127,
   8129); (8141, 8143); (8157, 8159); (8173, 8175); (8189, 8190); (8203,
   8207); (8216, 8217); (8228, 8228); (8231, 8231); (8234, 8238); (8288,
   8292); (8294, 8303); (8305, 8305); (8319, 8319); (8336, 8348); (8400,
   8432); (11388, 11389); (11503, 11505); (11631, 11631); (11647, 11647);
   (11744, 11775); (11823, 11823); (12293, 12293); (12330, 12333); (12337,
   12341); (12347, 12347); (12441, 12446); (12540, 12542); (40981, 40981);
   (42232, 42237); (42508, 42508); (42607, 42610); (42612, 42621); (42623,
   42623); (42652, 42655); (42736, 42737); (42752, 42785); (42864, 42864);
   (42888, 42890); (42994, 42996); (43000, 43001); (43010, 43010); (43014,
   43014); (43019, 43019); (43045, 43046); (43052, 43052); (43204, 43205);
   (43232, 43249); (43263, 43263); (43302, 43309); (43335, 43345); (43392,
   43394); (43443, 43443); (43446, 43449); (43452, 43453); (43471, 43471);
   (43493, 43494); (43561, 43566); (43569, 43570); (43573, 43574); (43587,
   43587); (43596, 43596); (43632, 43632); (43644, 43644); (43696, 43696);
   (43698, 43700); (43703, 43704); (43710, 43711); (43713, 43713); (43741,
   43741); (43756, 43757); (43763, 43764); (43766, 43766); (43867, 43871);
   (43881, 43883); (44005, 44005); (44008, 44008); (44013, 44013); (64286,
   64286); (64434, 64450); (65024, 65039); (65043, 65043); (65056, 65071);
   (65106, 65106); (65109, 65109); (65279, 65279); (65287, 65287); (65294,
   65294); (65306, 65306); (65342, 65342); (65344, 65344); (65392, 65392);
   (65438, 65439); (65507, 65507); (65529, 65531); (66045, 66045); (66272,
   66272); (66422, 66426); (67456, 67461); (67463, 67504); (67506, 67514);
   (68097, 68099); (68101, 68102); (68108, 68111); (68152, 68154); (68159,
   68159); (68325, 68326); (68900, 68903); (69291, 69292); (69446, 69456);
   (69506, 69509); (69633, 69633); (69688, 69702); (69744, 69744); (69747,
   69748); (69759, 69761); (69811, 69814); (69817, 69818); (69821, 69821);
   (69826, 69826); (69837, 69837); (69888, 69890); (69927, 69931); (69933,
   69940); (70003, 70003); (70016, 70017); (70070, 70078); (70089, 70092);
   (70095, 70095); (70191, 70193); (70196, 70196); (70198, 70199); (70206,
   70206); (70367, 70367); (70371, 70378); (70400, 70401); (70459, 70460);
   (70464, 70464); (70502, 70508); (70512, 70516); (70712, 70719); (70722,
   70724); (70726, 70726); (70750, 70750); (70835, 70840); (70842, 70842);
   (70847, 70848); (70850, 70851); (71090, 71093); (71100, 71101); (71103,
   71104); (71132, 71133); (71219, 71226); (71229, 71229); (71231, 71232);
   (71339, 71339); (71341, 71341); (71344, 71349); (71351, 71351); (71453,
   71455); (71458, 71461); (71463, 71467); (71727, 71735); (71737, 71738);
   (71995, 71996); (71998, 71998); (72003, 72003); (72148, 72151); (72154,
   72155); (72160, 72160); (72193, 72202); (72243, 72248); (72251, 72254);
   (72263, 72263); (72273, 72278); (72281, 72283); (72330, 72342); (72344,
   72345); (72752, 72758); (72760, 72765); (72767, 72767); (72850, 72871);
   (72874, 72880); (72882, 72883); (72885, 72886); (73009, 73014); (73018,
   73018); (73020, 73021); (73023, 73029); (73031, 73031); (73104, 73105);
   (73109, 73109); (73111, 73111); (73459, 73460); (78896, 78904); (92912,
   92916); (92976, 92982); (92992, 92995); (94031, 94031); (94095, 94111);
   (94176, 94177); (94179, 94180); (110576, 110579); (110581, 110587);
   (110589, 110590); (113821, 113822); (113824, 113827); (118528, 118573);
   (118576, 118598); (119143, 119145); (119155, 119170); (119173, 119179);
   (119210, 119213); (119362, 119364); (121344, 121398); (121403, 121452);
   (121461, 121461); (121476, 121476); (121499, 121503); (121505, 121519);
   (122880, 122886); (122888, 122904); (122907, 122913); (122915, 122916);
   (122918, 122922); (123184, 123197); (123566, 123566); (123628, 123631);
   (125136, 125142); (125252, 125259); (127995, 127999); (917505, 917505);
   (917536, 917631); (917760, 917999)]%N.

(* (first, last, step, image of first): the characters with a one-character
   lowercase, mapped at the same distance *)
Definition lower_map : list (N * N * N * N) :=
  [(65, 90, 1, 97); (192, 214, 1, 224); (216, 222, 1, 248); (256, 302, 2,
   257); (306, 310, 2, 307); (313, 327, 2, 314); (330, 374, 2, 331); (376,
   376, 1, 255); (377, 381, 2, 378); (385, 385, 1, 595); (386, 388, 2, 387);
   (390, 390, 1, 596); (391, 391, 1, 392); (393, 394, 1, 598); (395, 395, 1,
   396); (398, 398, 1, 477); (399, 399, 1, 601); (400, 400, 1, 603); (401,
   401, 1, 402); (403, 403, 1, 608); (404, 404, 1, 611); (406, 406, 1, 617);
   (407, 407, 1, 616); (408, 408, 1, 409); (412, 412, 1, 623); (413, 413, 1,
   626); (415, 415, 1, 629); (416, 420, 2, 417); (422, 422, 1, 640); (423,
   423, 1, 424); (425, 425, 1, 643); (428, 428, 1, 429); (430, 430, 1, 648);
   (431, 431, 1, 432); (433, 434, 1, 650); (435, 437, 2, 436); (439, 439, 1,
   658); (440, 440, 1, 441); (444, 444, 1, 445); (452, 452, 1, 454); (453,
   453, 1, 454); (455, 455, 1, 457); (456, 456, 1, 457); (458, 458, 1, 460);
   (459, 475, 2, 460); (478, 494, 2, 479); (497, 497, 1, 499); (498, 500, 2,
   499); (502, 502, 1, 405); (503, 503, 1, 447); (504, 542, 2, 505); (544,
   544, 1, 414); (546, 562, 2, 547); (570, 570, 1, 11365); (571, 571, 1,
   572); (573, 573, 1, 410); (574, 574, 1, 11366); (577, 577, 1, 578); (579,
   579, 1, 384); (580, 580, 1, 649); (581, 581, 1, 652); (582, 590, 2, 583);
   (880, 882, 2, 881); (886, 886, 1, 887); (895, 895, 1, 1011); (902, 902, 1,
   940); (904, 906, 1, 941); (908, 908, 1, 972); (910, 911, 1, 973); (913,
   929, 1, 945); (931, 939, 1, 963); (975, 975, 1, 983); (984, 1006, 2, 985);
   (1012, 1012, 1, 952); (1015, 1015, 1, 1016); (1017, 1017, 1, 1010); (1018,
   1018, 1, 1019); (1021, 1023, 1, 891); (1024, 1039, 1, 1104); (1040, 1071,
   1, 1072); (1120, 1152, 2, 1121); (1162, 1214, 2, 1163); (1216, 1216, 1,
   1231); (1217, 1229, 2, 1218); (1232, 1326, 2, 1233); (1329, 1366, 1,
   1377); (4256, 4293, 1, 11520); (4295, 4295, 1, 11559); (4301, 4301, 1,
   11565); (5024, 5103, 1, 43888); (5104, 5109, 1, 5112); (7312, 7354, 1,
   4304); (7357, 7359, 1, 4349); (7680, 7828, 2, 7681); (7838, 7838, 1, 223);
   (7840, 7934, 2, 7841); (7944, 7951, 1, 7936); (7960, 7965, 1, 7952);
   (7976, 7983, 1, 7968); (7992, 7999, 1, 7984); (8008, 8013, 1, 8000);
   (8025, 8031, 2, 8017); (8040, 8047, 1, 8032); (8072, 8079, 1, 8064);
   (8088, 8095, 1, 8080); (8104, 8111, 1, 8096); (8120, 8121, 1, 8112);
   (8122, 8123, 1, 8048); (8124, 8124, 1, 8115); (8136, 8139, 1, 8050);
   (8140, 8140, 1, 8131); (8152, 8153, 1, 8144); (8154, 8155, 1, 8054);
   (8168, 8169, 1, 8160); (8170, 8171, 1, 8058); (8172, 8172, 1, 8165);
   (8184, 8185, 1, 8056); (8186, 8187, 1, 8060); (8188, 8188, 1, 8179);
   (8486, 8486, 1, 969); (8490, 8490, 1, 107); (8491, 8491, 1, 229); (8498,
   8498, 1, 8526); (8544, 8559, 1, 8560); (8579, 8579, 1, 8580); (9398, 9423,
   1, 9424); (11264, 11311, 1, 11312); (11360, 11360, 1, 11361); (11362,
   11362, 1, 619); (11363, 11363, 1, 7549); (11364, 11364, 1, 637); (11367,
   11371, 2, 11368); (11373, 11373, 1, 593); (11374, 11374, 1, 625); (11375,
   11375, 1, 592); (11376, 11376, 1, 594); (11378, 11378, 1, 11379); (11381,
   11381, 1, 11382); (11390, 11391, 1, 575); (11392, 11490, 2, 11393);
   (11499, 11501, 2, 11500); (11506, 11506, 1, 11507); (42560, 42604, 2,
   42561); (42624, 42650, 2, 42625); (42786, 42798, 2, 42787); (42802, 42862,
   2, 42803); (42873, 42875, 2, 42874); (42877, 42877, 1, 7545); (42878,
   42886, 2, 42879); (42891, 42891, 1, 42892); (42893, 42893, 1, 613);
   (42896, 42898, 2, 42897); (42902, 42920, 2, 42903); (42922, 42922, 1,
   614); (42923, 42923, 1, 604); (42924, 42924, 1, 609); (42925, 42925, 1,
   620); (42926, 42926, 1, 618); (42928, 42928, 1, 670); (42929, 42929, 1,
   647); (42930, 42930, 1, 669); (42931, 42931, 1, 43859); (42932, 42946, 2,
   42933); (42948, 42948, 1, 42900); (42949, 42949, 1, 642); (42950, 42950,
   1, 7566); (42951, 42953, 2, 42952); (42960, 42960, 1, 42961); (42966,
   42968, 2, 42967); (42997, 42997, 1, 42998); (65313, 65338, 1, 65345);
   (66560, 66599, 1, 66600); (66736, 66771, 1, 66776); (66928, 66964, 2,
   66967); (66929, 66937, 2, 66968); (66941, 66953, 2, 66980); (66957, 66961,
   2, 66996); (66965, 66965, 1, 67004); (68736, 68786, 1, 68800); (71840,
   71871, 1, 71872); (93760, 93791, 1, 93792); (125184, 125217, 1, 125218)]%N.

(* lowercase of more than one character *)
Definition lower_special : list (N * list N) :=
  [(304, [105; 775])]%N.

(* (first, last, step, image of first), for the uppercase *)
Definition upper_map : list (N * N * N * N) :=
  [(97, 122, 1, 65); (181, 181, 1, 924); (224, 246, 1, 192); (248, 254, 1,
   216); (255, 255, 1, 376); (257, 303, 2, 256); (305, 305, 1, 73); (307,
   311, 2, 306); (314, 328, 2, 313); (331, 375, 2, 330); (378, 382, 2, 377);
   (383, 383, 1, 83); (384, 384, 1, 579); (387, 389, 2, 386); (392, 392, 1,
   391); (396, 396, 1, 395); (402, 402, 1, 401); (405, 405, 1, 502); (409,
   409, 1, 408); (410, 410, 1, 573); (414, 414, 1, 544); (417, 421, 2, 416);
   (424, 424, 1, 423); (429, 429, 1, 428); (432, 432, 1, 431); (436, 438, 2,
   435); (441, 441, 1, 440); (445, 445, 1, 444); (447, 447, 1, 503); (453,
   453, 1, 452); (454, 454, 1, 452); (456, 456, 1, 455); (457, 457, 1, 455);
   (459, 459, 1, 458); (460, 460, 1, 458); (462, 476, 2, 461); (477, 477, 1,
   398); (479, 495, 2, 478); (498, 498, 1, 497); (499, 499, 1, 497); (501,
   501, 1, 500); (505, 543, 2, 504); (547, 563, 2, 546); (572, 572, 1, 571);
   (575, 576, 1, 11390); (578, 578, 1, 577); (583, 591, 2, 582); (592, 592,
   1, 11375); (593, 593, 1, 11373); (594, 594, 1, 11376); (595, 595, 1, 385);
   (596, 596, 1, 390); (598, 599, 1, 393); (601, 601, 1, 399); (603, 603, 1,
   400); (604, 604, 1, 42923); (608, 608, 1, 403); (609, 609, 1, 42924);
   (611, 611, 1, 404); (613, 613, 1, 42893); (614, 614, 1, 42922); (616, 616,
   1, 407); (617, 617, 1, 406); (618, 618, 1, 42926); (619, 619, 1, 11362);
   (620, 620, 1, 42925); (623, 623, 1, 412); (625, 625, 1, 11374); (626, 626,
   1, 413); (629, 629, 1, 415); (637, 637, 1, 11364); (640, 640, 1, 422);
   (642, 642, 1, 42949); (643, 643, 1, 425); (647, 647, 1, 42929); (648, 648,
   1, 430); (649, 649, 1, 580); (650, 651, 1, 433); (652, 652, 1, 581); (658,
   658, 1, 439); (669, 669, 1, 42930); (670, 670, 1, 42928); (837, 837, 1,
   921); (881, 883, 2, 880); (887, 887, 1, 886); (891, 893, 1, 1021); (940,
   940, 1, 902); (941, 943, 1, 904); (945, 961, 1, 913); (962, 962, 1, 931);
   (963, 971, 1, 931); (972, 972, 1, 908); (973, 974, 1, 910); (976, 976, 1,
   914); (977, 977, 1, 920); (981, 981, 1, 934); (982, 982, 1, 928); (983,
   983, 1, 975); (985, 1007, 2, 984); (1008, 1008, 1, 922); (1009, 1009, 1,
   929); (1010, 1010, 1, 1017); (1011, 1011, 1, 895); (1013, 1013, 1, 917);
   (1016, 1016, 1, 1015); (1019, 1019, 1, 1018); (1072, 1103, 1, 1040);
   (1104, 1119, 1, 1024); (1121, 1153, 2, 1120); (1163, 1215, 2, 1162);
   (1218, 1230, 2, 1217); (1231, 1231, 1, 1216); (1233, 1327, 2, 1232);
   (1377, 1414, 1, 1329); (4304, 4346, 1, 7312); (4349, 4351, 1, 7357);
   (5112, 5117, 1, 5104); (7296, 7296, 1, 1042); (7297, 7297, 1, 1044);
   (7298, 7298, 1, 1054); (7299, 7300, 1, 1057); (7301, 7301, 1, 1058);
   (7302, 7302, 1, 1066); (7303, 7303, 1, 1122); (7304, 7304, 1, 42570);
   (7545, 7545, 1, 42877); (7549, 7549, 1, 11363); (7566, 7566, 1, 42950);
   (7681, 7829, 2, 7680); (7835, 7835, 1, 7776); (7841, 7935, 2, 7840);
   (7936, 7943, 1, 7944); (7952, 7957, 1, 7960); (7968, 7975, 1, 7976);
   (7984, 7991, 1, 7992); (8000, 8005, 1, 8008); (8017, 8023, 2, 8025);
   (8032, 8039, 1, 8040); (8048, 8049, 1, 8122); (8050, 8053, 1, 8136);
   (8054, 8055, 1, 8154); (8056, 8057, 1, 8184); (8058, 8059, 1, 8170);
   (8060, 8061, 1, 8186); (8112, 8113, 1, 8120); (8126, 8126, 1, 921); (8144,
   8145, 1, 8152); (8160, 8161, 1, 8168); (8165, 8165, 1, 8172); (8526, 8526,
   1, 8498); (8560, 8575, 1, 8544); (8580, 8580, 1, 8579); (9424, 9449, 1,
   9398); (11312, 11359, 1, 11264); (11361, 11361, 1, 11360); (11365, 11365,
   1, 570); (11366, 11366, 1, 574); (11368, 11372, 2, 11367); (11379, 11379,
   1, 11378); (11382, 11382, 1, 11381); (11393, 11491, 2, 11392); (11500,
   11502, 2, 11499); (11507, 11507, 1, 11506); (11520, 11557, 1, 4256);
   (11559, 11559, 1, 4295); (11565, 11565, 1, 4301); (42561, 42605, 2,
   42560); (42625, 42651, 2, 42624); (42787, 42799, 2, 42786); (42803, 42863,
   2, 42802); (42874, 42876, 2, 42873); (42879, 42887, 2, 42878); (42892,
   42892, 1, 42891); (42897, 42899, 2, 42896); (42900, 42900, 1, 42948);
   (42903, 42921, 2, 42902); (42933, 42947, 2, 42932); (42952, 42954, 2,
   42951); (42961, 42961, 1, 42960); (42967, 42969, 2, 42966); (42998, 42998,
   1, 42997); (43859, 43859, 1, 42931); (43888, 43967, 1, 5024); (65345,
   65370, 1, 65313); (66600, 66639, 1, 66560); (66776, 66811, 1, 66736);
   (66967, 67003, 2, 66928); (66968, 66976, 2, 66929); (66980, 66992, 2,
   66941); (66996, 67000, 2, 66957); (67004, 67004, 1, 66965); (68800, 68850,
   1, 68736); (71872, 71903, 1, 71840); (93792, 93823, 1, 93760); (125218,
   125251, 1, 125184)]%N.

(* uppercase of more than one character *)
Definition upper_special : list (N * list N) :=
  [(223, [83; 83]); (329, [700; 78]); (496, [74; 780]); (912, [921; 776;
   769]); (944, [933; 776; 769]); (1415, [1333; 1362]); (7830, [72; 817]);
   (7831, [84; 776]); (7832, [87; 778]); (7833, [89; 778]); (7834, [65;
   702]); (8016, [933; 787]); (8018, [933; 787; 768]); (8020, [933; 787;
   769]); (8022, [933; 787; 834]); (8064, [7944; 921]); (8065, [7945; 921]);
   (8066, [7946; 921]); (8067, [7947; 921]); (8068, [7948; 921]); (8069,
   [7949; 921]); (8070, [7950; 921]); (8071, [7951; 921]); (8072, [7944;
   921]); (8073, [7945; 921]); (8074, [7946; 921]); (8075, [7947; 921]);
   (8076, [7948; 921]); (8077, [7949; 921]); (8078, [7950; 921]); (8079,
   [7951; 921]); (8080, [7976; 921]); (8081, [7977; 921]); (8082, [7978;
   921]); (8083, [7979; 921]); (8084, [7980; 921]); (8085, [7981; 921]);
   (8086, [7982; 921]); (8087, [7983; 921]); (8088, [7976; 921]); (8089,
   [7977; 921]); (8090, [7978; 921]); (8091, [7979; 921]); (8092, [7980;
   921]); (8093, [7981; 921]); (8094, [7982; 921]); (8095, [7983; 921]);
   (8096, [8040; 921]); (8097, [8041; 921]); (8098, [8042; 921]); (8099,
   [8043; 921]); (8100, [8044; 921]); (8101, [8045; 921]); (8102, [8046;
   921]); (8103, [8047; 921]); (8104, [8040; 921]); (8105, [8041; 921]);
   (8106, [8042; 921]); (8107, [8043; 921]); (8108, [8044; 921]); (8109,
   [8045; 921]); (8110, [8046; 921]); (8111, [8047; 921]); (8114, [8122;
   921]); (8115, [913; 921]); (8116, [902; 921]); (8118, [913; 834]); (8119,
   [913; 834; 921]); (8124, [913; 921]); (8130, [8138; 921]); (8131, [919;
   921]); (8132, [905; 921]); (8134, [919; 834]); (8135, [919; 834; 921]);
   (8140, [919; 921]); (8146, [921; 776; 768]); (8147, [921; 776; 769]);
   (8150, [921; 834]); (8151, [921; 776; 834]); (8162, [933; 776; 768]);
   (8163, [933; 776; 769]); (8164, [929; 787]); (8166, [933; 834]); (8167,
   [933; 776; 834]); (8178, [8186; 921]); (8179, [937; 921]); (8180, [911;
   921]); (8182, [937; 834]); (8183, [937; 834; 921]); (8188, [937; 921]);
   (64256, [70; 70]); (64257, [70; 73]); (64258, [70; 76]); (64259, [70; 70;
   73]); (64260, [70; 70; 76]); (64261, [83; 84]); (64262, [83; 84]); (64275,
   [1348; 1350]); (64276, [1348; 1333]); (64277, [1348; 1339]); (64278,
   [1358; 1350]); (64279, [1348; 1341])]%N.

Definition in_ranges (t : list (N * N)) (n : N) : bool :=
  existsb (fun r => (fst r <=? n)%N && (n <=? snd r)%N) t.

Fixpoint case_lookup (t : list (N * N * N * N)) (n : N) : option N :=
  match t with
  | [] => None
  | (lo, hi, step, image) :: t' =>
      if (lo <=? n)%N && (n <=? hi)%N && ((n - lo) mod step =? 0)%N
      then Some (n - lo + image)%N
      else case_lookup t' n
  end.

Fixpoint special_lookup (t : list (N * list N)) (n : N) : option (list N) :=
  match t with
  | [] => None
  | (c, l) :: t' => if (c =? n)%N then Some l else special_lookup t' n
  end.

Definition case_cp (special : list (N * list N))
    (map : list (N * N * N * N)) (n : N) : list N :=
  match special_lookup special n with
  | Some l => l
  | None =>
      match case_lookup map n with
      | Some m => [m]
      | None => [n]
      end
  end.

Definition lower_cp : N -> list N := case_cp lower_special lower_map.
Definition upper_cp : N -> list N := case_cp upper_special upper_map.

Fixpoint skip_ignorable (l : list N) : list N :=
  match l with
  | c :: l' => if in_ranges case_ignorable_ranges c then skip_ignorable l' else l
  | [] => []
  end.

(* a capital sigma ends a word: a cased letter stands before it and none
   after it, the characters that case ignores left aside; [before] is
   the text before the sigma, the nearest character first *)
Definition final_sigma (before after : list N) : bool :=
  match skip_ignorable before with
  | c :: _ =>
      in_ranges cased_ranges c &&
      match skip_ignorable after with
      | [] => true
      | d :: _ => negb (in_ranges cased_ranges d)
      end
  | [] => false
  end.

Fixpoint lower_cps (before l : list N) : list N :=
  match l with
  | [] => []
  | c :: r =>
      ((if (c =? 931)%N
        then [if final_sigma before r then 962%N else 963%N]
        else lower_cp c)
       ++ lower_cps (c :: before) r)%list
  end.

(* s.lower() and s.upper(): an ASCII text has its letters changed, as in
   CPython; another text goes through the tables *)
Definition lower (s : string) : string :=
  if is_ascii s then map_chars lower_char s
  else encode (lower_cps [] (decode s)).

Definition upper (s : string) : string :=
  if is_ascii s then map_chars upper_char s
  else encode (flat_map upper_cp (decode s)).

(* s.isdigit(): at least one character, all of them digits *)
Definition isdigit (s : string) : bool :=
  match s with
  | EmptyString => false
  | _ =>
      if is_ascii s then all_chars is_digit s
      else forallb (in_ranges digit_ranges) (decode s)
  end.

(* Py_UNICODE_TODECIMAL *)
Fixpoint decimal_in (t : list (N * N)) (n : N) : option N :=
  match t with
  | [] => None
  | (lo, hi) :: t' =>
      if (lo <=? n)%N && (n <=? hi)%N then Some ((n - lo) mod 10)%N
      else decimal_in t' n
  end.

(* what int() reads of a text that is not ASCII: the decimal digits as
   ASCII digits, the white space as blanks, up to the first character
   that is neither, which is left as a question mark *)
Fixpoint int_buffer (l : list N) : string :=
  match l with
  | [] => EmptyString
  | c :: r =>
      if (c <? 127)%N then String (byte c) (int_buffer r)
      else if in_ranges space_ranges c then String " " (int_buffer r)
      else
        match decimal_in decimal_ranges c with
        | Some d => String (byte (48 + d)) (int_buffer r)
        | None => "?"
        end
  end.

(* s.replace(old, new) for a non-empty [old]: leftmost occurrences, not
   overlapping; [skip] counts the characters of a match still to drop. *)
Fixpoint replace_from (old new : string) (skip : nat) (s : string) : string :=
  match s with
  | EmptyString => EmptyString
  | String c s' =>
      match skip with
      | S k => replace_from old new k s'
      | O =>
          if prefix old s
          then new ++ replace_from old new (String.length old - 1) s'
          else String c (replace_from old new 0 s')
      end
  end.

(* with an empty [old], Python puts [new] before every character and at
   the end *)
Fixpoint intersperse (new : string) (l : list N) : string :=
  match l with
  | [] => new
  | c :: l' => new ++ encode_cp c ++ intersperse new l'
  end.

Definition replace (s old new : string) : string :=
  match old with
  | EmptyString => intersperse new (decode s)
  | _ => replace_from old new 0 s
  end.

(* s.split(sep)[0] for a one-character separator: the text before the
   first separator, all of [s] when there is none *)
Fixpoint split_head (sep : ascii) (s : string) : string :=
  match s with
  | EmptyString => EmptyString
  | String c s' =>
      if Ascii.eqb c sep then EmptyString else String c (split_head sep s')
  end.

(* sub in s *)
Fixpoint contains (sub s : string) : bool :=
  prefix sub s ||
  match s with
  | EmptyString => false
  | String _ s' => contains sub s'
  end.

Fixpoint join (sep : string) (l : list string) : string :=
  match l with
  | [] => EmptyString
  | [x] => x
  | x :: l' => x ++ sep ++ join sep l'
  end.

(* "".join(l) *)
Fixpoint concat_all (l : list string) : string :=
  match l with
  | [] => EmptyString
  | x :: l' => x ++ concat_all l'
  end.

Fixpoint occurs (c : ascii) (s : string) : bool :=
  match s with
  | EmptyString => false
  | String d s' => Ascii.eqb c d || occurs c s'
  end.

End Str.

(** ** Builtins on values *)

Definition hex_digit (n : nat) : ascii :=
  if (n <? 10)%nat then ascii_of_nat (48 + n) else ascii_of_nat (87 + n).

(* the last [k] hexadecimal digits of [n] *)
Fixpoint hex (k : nat) (n : N) : string :=
  match k with
  | O => EmptyString
  | S k' =>
      hex k' (n / 16) ++ String (hex_digit (N.to_nat (n mod 16))) EmptyString
  end.

(* one ASCII character of repr(s), inside the quote [q] *)
Definition repr_char (q c : ascii) : string :=
  let n := nat_of_ascii c in
  if Ascii.eqb c q || Ascii.eqb c "\"%char then String "\" (String c "")
  else if (n =? 9)%nat then "\t"
  else if (n =? 10)%nat then "\n"
  else if (n =? 13)%nat then "\r"
  else if (n <? 32)%nat || (n =? 127)%nat
       then "\x" ++ hex 2 (N.of_nat n)
  else String c "".

(* one character of repr(s) *)
Definition repr_cp (q : ascii) (c : N) : string :=
  if (c <? 128)%N then repr_char q (Str.byte c)
  else if (Str.stray <=? c)%N then "\x" ++ hex 2 (c - Str.stray)
  else if Str.in_ranges Str.nonprintable_ranges c then
    if (c <? 256)%N then "\x" ++ hex 2 c
    else if (c <? 65536)%N then "\u" ++ hex 4 c
    else "\U" ++ hex 8 c
  else Str.encode_cp c.

Fixpoint repr_cps (q : ascii) (l : list N) : string :=
  match l with
  | [] => EmptyString
  | c :: l' => repr_cp q c ++ repr_cps q l'
  end.

(* repr of a str: single quotes, unless the text has a single quote and
   no double quote *)
Definition repr_str (s : string) : string :=
  let q := if Str.occurs "'" s && negb (Str.occurs dquote s)
           then dquote else "'"%char in
  String q (repr_cps q (Str.decode s) ++ String q EmptyString).

Fixpoint py_repr (v : pyval) : string :=
  match v with
  | PNone => "None"
  | PBool true => "True"
  | PBool false => "False"
  | PInt z => str_of_Z (jz z)
  | PStr s => repr_str s
  | PList l =>
      "[" ++ Str.join ", "
               ((fix reprs (l : list pyval) : list string :=
                   match l with
                   | [] => []
                   | x :: l' => py_repr x :: reprs l'
                   end) l) ++ "]"
  | PDict d =>
      "{" ++ Str.join ", "
               ((fix items (d : list (string * pyval)) : list string :=
                   match d with
                   | [] => []
                   | (k, x) :: d' =>
                       (repr_str k ++ ": " ++ py_repr x) :: items d'
                   end) d) ++ "}"
  end.

(* str(v), also what an f-string field renders *)
Definition py_str (v : pyval) : string :=
  match v with
  | PStr s => s
  | _ => py_repr v
  end.

(* bool(v) *)
Definition truthy (v : pyval) : bool :=
  match v with
  | PNone => false
  | PBool b => b
  | PInt z => negb (jz z =? 0)%Z
  | PStr s => negb (s =? "")
  | PList l => match l with [] => false | _ => true end
  | PDict d => match d with [] => false | _ => true end
  end.

(** *** int(v) *)

Fixpoint lstrip (s : string) : string :=
  match s with
  | String c s' => if Str.is_space c then lstrip s' else s
  | EmptyString => EmptyString
  end.

Definition digit_val (c : ascii) : Z := Z.of_nat (nat_of_ascii c - 48).

(* digits with single underscores between them, then blanks to the end;
   [acc] is the value read so far, [after_digit] says whether the
   previous character was a digit *)
Fixpoint int_digits (acc : Z) (after_digit : bool) (s : string) : option Z :=
  match s with
  | EmptyString => if after_digit then Some acc else None
  | String c s' =>
      if Str.is_digit c then int_digits (10 * acc + digit_val c) true s'
      else if Ascii.eqb c "_" then
        if after_digit then int_digits acc false s' else None
      else if Str.is_space c then
        if after_digit && Str.all_chars Str.is_space s' then Some acc
        else None
      else None
  end.

(* an ASCII numeral: blanks, a sign, the digits *)
Definition int_of_ascii (s : string) : option Z :=
  match lstrip s with
  | String "-" s' => option_map Z.opp (int_digits 0 false s')
  | String "+" s' => int_digits 0 false s'
  | s' => int_digits 0 false s'
  end.

Fixpoint count_digits (s : string) : nat :=
  match s with
  | EmptyString => O
  | String c s' => if Str.is_digit c then S (count_digits s') else count_digits s'
  end.

(* int(s): the value of the numeral, unless it has more digits than the
   limit *)
Definition int_of_str (s : string) : option Z :=
  let text := if Str.is_ascii s then s else Str.int_buffer (Str.decode s) in
  match int_of_ascii text with
  | Some z => if (count_digits text <=? max_str_digits)%nat then Some z else None
  | None => None
  end.

Definition py_int (v : pyval) : exn + Z :=
  match v with
  | PInt z => inr (jz z)
  | PBool b => inr (if b then 1 else 0)%Z
  | PStr s =>
      match int_of_str s with
      | Some z => inr z
      | None => inl ValueError
      end
  | PNone | PList _ | PDict _ => inl TypeError
  end.

(** ** Dictionaries *)

Definition dict (V : Type) : Type := list (string * V).
Definition pydict : Type := dict pyval.

Fixpoint dict_get {V} (d : dict V) (k : string) : option V :=
  match d with
  | [] => None
  | (k', v) :: d' => if k' =? k then Some v else dict_get d' k
  end.

(* d.get(k, default) *)
Definition dict_get_default {V} (d : dict V) (k : string) (dflt : V) : V :=
  match dict_get d k with Some v => v | None => dflt end.

(* d[k] = v: an existing key keeps its place *)
Fixpoint dict_set {V} (d : dict V) (k : string) (v : V) : dict V :=
  match d with
  | [] => [(k, v)]
  | (k', v') :: d' =>
      if k' =? k then (k, v) :: d' else (k', v') :: dict_set d' k v
  end.

Definition dict_keys {V} (d : dict V) : list string := map fst d.

(* {**a, k1: v1, ...}: the items of [b] written over [a] in order *)
Definition dict_update {V} (a b : dict V) : dict V :=
  fold_left (fun acc kv => dict_set acc (fst kv) (snd kv)) b a.

(** ** Exceptions, log lines and the file system *)

Inductive res (A : Type) : Type :=
| Ok (a : A)
| Raise (e : exn).
Arguments Raise {A} e.

Definition res_bind {A B} (r : res A) (f : A -> res B) : res B :=
  match r with
  | Ok a => f a
  | Raise e => Raise e
  end.

Inductive level : Type := INFO | WARNING | ERROR.

(* logging.info / warning / error; where the source formats the caught
   exception into the message, the entry stops before that text *)
Definition log_entry : Type := (level * string)%type.

(* the output directory and the files under it, by path *)
Record fs : Type := mkfs {
  dir_exists : bool;
  files : list (string * string)
}.

Fixpoint file_put (fl : list (string * string)) (path content : string)
  : list (string * string) :=
  match fl with
  | [] => [(path, content)]
  | (p, c) :: fl' =>
      if p =? path then (path, content) :: fl'
      else (p, c) :: file_put fl' path content
  end.

Inductive http_result : Type :=
| RequestFailed
| Response (status : nat) (content : list Byte.byte).

(* what the libraries and the operating system answer *)
Record env : Type := mkenv {
  http_get : string -> option (list (string * string)) -> http_result;
  gunzip : list Byte.byte -> exn + list Byte.byte;
  utf8_decode : list Byte.byte -> option string;
  json_loads : string -> option pyval;
  makedirs_ok : bool;
  (* open(path, 'w'): the exception it raises, the file left as it is *)
  open_error : string -> option exn
}.

(* the file at [path] can be opened for writing *)
Definition writable (E : env) (path : string) : bool :=
  match open_error E path with
  | None => true
  | Some _ => false
  end.

(* a computation: log lines, the file system after it, a value or an
   exception *)
Definition M (A : Type) : Type := fs -> list log_entry * (fs * res A).

Definition ret {A} (a : A) : M A := fun s => ([], (s, Ok a)).
Definition raise {A} (e : exn) : M A := fun s => ([], (s, Raise e)).
Definition lift {A} (r : res A) : M A := fun s => ([], (s, r)).
Definition log (lvl : level) (msg : string) : M unit :=
  fun s => ([(lvl, msg)], (s, Ok tt)).

Definition bind {A B} (m : M A) (f : A -> M B) : M B :=
  fun s =>
    match m s with
    | (l1, (s1, Ok a)) =>
        match f a s1 with
        | (l2, out) => ((l1 ++ l2)%list, out)
        end
    | (l1, (s1, Raise e)) => (l1, (s1, Raise e))
    end.

(* try m except e: h e *)
Definition catch {A} (m : M A) (h : exn -> M A) : M A :=
  fun s =>
    match m s with
    | (l1, (s1, Raise e)) =>
        match h e s1 with
        | (l2, out) => ((l1 ++ l2)%list, out)
        end
    | out => out
    end.

Declare Scope monad_scope.
Delimit Scope monad_scope with monad.
Notation "x <- m ;; k" := (bind m (fun x => k))
  (at level 61, m at next level, right associativity) : monad_scope.
Notation "m ;;; k" := (bind m (fun _ => k))
  (at level 61, right associativity) : monad_scope.
Notation "x <~ r ;; k" := (res_bind r (fun x => k))
  (at level 61, r at next level, right associativity) : monad_scope.
Local Open Scope monad_scope.

Definition logs_of {A} (out : list log_entry * (fs * res A)) := fst out.
Definition fs_of {A} (out : list log_entry * (fs * res A)) := fst (snd out).
Definition result_of {A} (out : list log_entry * (fs * res A)) := snd (snd out).

(** ** Configuration *)

Definition OUTPUT_DIR : string := "playlists".
Definition USER_AGENT : string :=
  "Mozilla/5.0 (X11; Linux x86_64) AppleWebKit/537.36 (KHTML, like Gecko) Chrome/123.0.0.0 Safari/537.36".
Definition REQUEST_TIMEOUT : Z := 30.

(* what a call of fetch_url returns: the response itself when streaming,
   else a value, [PNone] on failure *)
Inductive fetched : Type :=
| Streamed (status : nat) (content : list Byte.byte)
| Value (v : pyval).

(** ** Helper functions *)

Section Program.

Variable E : env.

(* content.decode('utf-8') *)
Definition decode (content : list Byte.byte) : M string :=
  match utf8_decode E content with
  | Some s => ret s
  | None => raise UnicodeDecodeError
  end.

(* gzip.GzipFile(fileobj=BytesIO(content), mode='rb').read() *)
Definition gzip_read (content : list Byte.byte) : M (list Byte.byte) :=
  match gunzip E content with
  | inr raw => ret raw
  | inl e => raise e
  end.

(* json.loads(text) *)
Definition loads (text : string) : M pyval :=
  match json_loads E text with
  | Some v => ret v
  | None => raise JSONDecodeError
  end.

Definition fetch_url (url : string) (is_json is_gzipped : bool)
    (headers : option (list (string * string))) (stream : bool) : M fetched :=
  log INFO ("Fetching URL: " ++ url) ;;;
  catch
    (match http_get E url headers with
     | RequestFailed => raise RequestException
     | Response status content =>
         (* response.raise_for_status() *)
         (if (400 <=? status)%nat && (status <? 600)%nat
          then raise RequestException else ret tt) ;;;
         if stream then
           log INFO "Returning streaming response." ;;;
           ret (Streamed status content)
         else
           text <-
             (if is_gzipped then
                log INFO "Decompressing gzipped content." ;;;
                catch
                  (raw <- gzip_read content ;;
                   decode raw)
                  (fun e =>
                     match e with
                     | BadGzipFile =>
                         log WARNING
                           "Content was not gzipped, trying as plain text." ;;;
                         decode content
                     | _ =>
                         log ERROR "Error decompressing gzip: " ;;;
                         raise e
                     end)
              else decode content) ;;
           if is_json then
             log INFO "Parsing JSON data." ;;;
             v <- loads text ;;
             ret (Value v)
           else
             log INFO "Returning raw text content." ;;;
             ret (Value (PStr text))
     end)
    (fun e =>
       match e with
       | RequestException =>
           log ERROR ("Error fetching " ++ url ++ ": ") ;;;
           ret (Value PNone)
       | JSONDecodeError =>
           log ERROR ("Error decoding JSON from " ++ url ++ ": ") ;;;
           ret (Value PNone)
       | _ =>
           log ERROR ("An unexpected error occurred for " ++ url ++ ": ") ;;;
           ret (Value PNone)
       end).

(* os.path.join(OUTPUT_DIR, filename) *)
Definition path_join (dir filename : string) : string :=
  if prefix "/" filename then filename else dir ++ "/" ++ filename.

(* os.path.exists(OUTPUT_DIR) *)
Definition output_dir_exists : M bool :=
  fun s => ([], (s, Ok (dir_exists s))).

(* os.makedirs(OUTPUT_DIR) *)
Definition makedirs : M unit :=
  fun s =>
    if makedirs_ok E then ([], (mkfs true (files s), Ok tt))
    else ([], (s, Raise OSError)).

(* with open(filepath, 'w', encoding='utf-8') as f: f.write(content) *)
Definition open_write (filepath content : string) : M unit :=
  fun s =>
    match open_error E filepath with
    | Some e => ([], (s, Raise e))
    | None =>
        ([], (mkfs (dir_exists s) (file_put (files s) filepath content),
              Ok tt))
    end.

Definition write_m3u_file (filename content : string) : M unit :=
  there <- output_dir_exists ;;
  (if negb there then
     log INFO ("Creating output directory: " ++ OUTPUT_DIR) ;;;
     makedirs
   else ret tt) ;;;
  let filepath := path_join OUTPUT_DIR filename in
  catch
    (open_write filepath content ;;;
     log INFO ("Successfully wrote playlist to " ++ filepath))
    (fun e =>
       if caught e
       then log ERROR ("Error writing file " ++ filepath ++ ": ")
       else raise e).

(* v.replace(old, new): only a str has the method *)
Definition str_replace (v : pyval) (old new : string) : res string :=
  match v with
  | PStr s => Ok (Str.replace s old new)
  | _ => Raise AttributeError
  end.

Definition q : string := String dquote EmptyString.

(* name="value" followed by [sep] *)
Definition attr (name value sep : string) : string :=
  name ++ "=" ++ q ++ value ++ q ++ sep.

Definition chno_str (tvg_chno : pyval) : string :=
  match tvg_chno with
  | PNone => EmptyString
  | _ => if Str.isdigit (py_str tvg_chno) then py_str tvg_chno else EmptyString
  end.

Definition format_extinf
    (channel_id tvg_id tvg_chno tvg_name tvg_logo group_title display_name
     : pyval) : res string :=
  sanitized_tvg_name <~ str_replace tvg_name q "'" ;;
  sanitized_group_title <~ str_replace group_title q "'" ;;
  sanitized_display_name <~ str_replace display_name "," EmptyString ;;
  Ok ("#EXTINF:-1 "
      ++ attr "channel-id" (py_str channel_id) " "
      ++ attr "tvg-id" (py_str tvg_id) " "
      ++ attr "tvg-chno" (chno_str tvg_chno) " "
      ++ attr "tvg-name" sanitized_tvg_name " "
      ++ attr "tvg-logo" (py_str tvg_logo) " "
      ++ attr "group-title" sanitized_group_title ","
      ++ sanitized_display_name ++ nl).

(** ** Service functions *)

(** *** sorted(iterable, key=...)

    Python's sort is stable and compares keys with [<] alone.  For the
    keys of this program (int, str) the result of a stable sort is
    determined by the input, so an insertion sort stands for it. *)

Section Sorted.

Variables (K A : Type) (ltb : K -> K -> bool).

(* [x] stood before every element of [l] in the input: it goes before
   the first element that is not smaller *)
Fixpoint insert_by (x : K * A) (l : list (K * A)) : list (K * A) :=
  match l with
  | [] => [x]
  | y :: l' =>
      if ltb (fst y) (fst x) then y :: insert_by x l' else x :: y :: l'
  end.

Fixpoint sort_by (l : list (K * A)) : list (K * A) :=
  match l with
  | [] => []
  | x :: l' => insert_by x (sort_by l')
  end.

(* the keys are computed first, one call per element, in order *)
Fixpoint decorate (key : A -> res K) (l : list A) : res (list (K * A)) :=
  match l with
  | [] => Ok []
  | x :: l' =>
      k <~ key x ;;
      rest <~ decorate key l' ;;
      Ok ((k, x) :: rest)
  end.

Definition py_sorted (key : A -> res K) (l : list A) : res (list A) :=
  dl <~ decorate key l ;;
  Ok (map snd (sort_by dl)).

End Sorted.

(** *** generate_lgchannels_m3u *)

Definition LGCHANNELS_URL : string := "https://lgchannels.com/#/".
Definition STREAM_URL_TEMPLATE : string := "https://jmp2.uk/plu-{id}.m3u8".
Definition EPG_URL_TEMPLATE : string :=
  "https://github.com/matthuisman/i.mjh.nz/raw/master/PlutoTV/{region}.xml.gz".

Definition region_name_map : dict string :=
  [("ar", "Argentina"); ("br", "Brazil"); ("ca", "Canada"); ("cl", "Chile");
   ("co", "Colombia"); ("cr", "Costa Rica"); ("de", "Germany");
   ("dk", "Denmark"); ("do", "Dominican Republic"); ("ec", "Ecuador");
   ("es", "Spain"); ("fr", "France"); ("gb", "United Kingdom");
   ("gt", "Guatemala"); ("it", "Italy"); ("mx", "Mexico"); ("no", "Norway");
   ("pe", "Peru"); ("se", "Sweden"); ("us", "United States");
   ("latam", "Latin America")].

(* v.get(k, default): only a dict has the method *)
Definition py_get (v : pyval) (k : string) (dflt : pyval) : res pyval :=
  match v with
  | PDict d => Ok (dict_get_default d k dflt)
  | _ => Raise AttributeError
  end.

(* v.items() *)
Definition py_items (v : pyval) : res pydict :=
  match v with
  | PDict d => Ok d
  | _ => Raise AttributeError
  end.

(* {**v, ...}: [v] has to be a mapping *)
Definition py_unpack (v : pyval) : res pydict :=
  match v with
  | PDict d => Ok d
  | _ => Raise TypeError
  end.

(* 'regions' in data *)
Definition py_contains (data : pyval) (k : string) : res bool :=
  match data with
  | PDict d => Ok (match dict_get d k with Some _ => true | None => false end)
  | PStr s => Ok (Str.contains k s)
  | PList l =>
      Ok (existsb (fun v => match v with PStr s => s =? k | _ => false end) l)
  | PNone | PBool _ | PInt _ => Raise TypeError
  end.

(* the channels of one region added to channels_to_process; [entry_id]
   names the entry and [extra] holds the items written over the channel's
   own *)
Fixpoint add_channels (entry_id : string -> string)
    (extra : string -> pydict) (channels : pydict)
    (channels_to_process : dict pydict) : res (dict pydict) :=
  match channels with
  | [] => Ok channels_to_process
  | (channel_key, channel_info) :: rest =>
      info <~ py_unpack channel_info ;;
      add_channels entry_id extra rest
        (dict_set channels_to_process (entry_id channel_key)
           (dict_update info (extra channel_key)))
  end.

(* lines 125-135: every region of the catalog *)
Fixpoint all_regions_channels (regions : pydict)
    (channels_to_process : dict pydict) : res (dict pydict) :=
  match regions with
  | [] => Ok channels_to_process
  | (region_key, region_data) :: rest =>
      let region_full_name :=
        dict_get_default region_name_map region_key (Str.upper region_key) in
      chans <~ py_get region_data "channels" (PDict []) ;;
      channels <~ py_items chans ;;
      ctp <~ add_channels
               (fun channel_key => channel_key ++ "-" ++ region_key)
               (fun channel_key =>
                  [("region_code", PStr region_key);
                   ("group_title_override", PStr region_full_name);
                   ("original_id", PStr channel_key)])
               channels channels_to_process ;;
      all_regions_channels rest ctp
  end.

(* lines 141-146: the channels of the requested region *)
Definition one_region_channels (region : string) (region_data : pyval)
  : res (dict pydict) :=
  chans <~ py_get region_data "channels" (PDict []) ;;
  channels <~ py_items chans ;;
  add_channels
    (fun channel_key => channel_key)
    (fun channel_key =>
       [("region_code", PStr region); ("original_id", PStr channel_key)])
    channels [].

(* channels_to_process[k] *)
Definition py_index {V} (d : dict V) (k : string) : res V :=
  match dict_get d k with
  | Some v => Ok v
  | None => Raise KeyError
  end.

Definition chno_key (channels_to_process : dict pydict) (k : string) : res Z :=
  channel <~ py_index channels_to_process k ;;
  match py_int (dict_get_default channel "chno" (pint 99999)) with
  | inr z => Ok z
  | inl e => Raise e
  end.

Definition name_key (channels_to_process : dict pydict) (k : string)
  : res string :=
  channel <~ py_index channels_to_process k ;;
  match dict_get_default channel "name" (PStr EmptyString) with
  | PStr s => Ok (Str.lower s)
  | _ => Raise AttributeError
  end.

(* lines 150-153, the body of the try *)
Definition sort_channel_ids (sort : string)
    (channels_to_process : dict pydict) : res (list string) :=
  if sort =? "chno"
  then py_sorted Z.ltb (chno_key channels_to_process)
         (dict_keys channels_to_process)
  else py_sorted String.ltb (name_key channels_to_process)
         (dict_keys channels_to_process).

(* lines 160-171: the two lines of one channel *)
Definition channel_entry (is_all_region : bool)
    (channels_to_process : dict pydict) (channel_id : string) : res string :=
  channel <~ py_index channels_to_process channel_id ;;
  let chno := dict_get_default channel "chno" PNone in
  let name := dict_get_default channel "name" (PStr "Unknown Channel") in
  let logo := dict_get_default channel "logo" (PStr EmptyString) in
  let group :=
    if is_all_region
    then dict_get_default channel "group_title_override" PNone
    else dict_get_default channel "group" (PStr "Uncategorized") in
  let original_id :=
    dict_get_default channel "original_id"
      (PStr (Str.split_head "-" channel_id)) in
  let tvg_id := original_id in
  extinf <~ format_extinf (PStr channel_id) tvg_id chno name logo group name ;;
  match original_id with
  | PStr oid =>
      Ok (extinf ++ Str.replace STREAM_URL_TEMPLATE "{id}" oid ++ nl)
  | _ => Raise TypeError
  end.

Fixpoint build_entries (is_all_region : bool)
    (channels_to_process : dict pydict) (ids : list string)
  : res (list string) :=
  match ids with
  | [] => Ok []
  | channel_id :: rest =>
      e <~ channel_entry is_all_region channels_to_process channel_id ;;
      es <~ build_entries is_all_region channels_to_process rest ;;
      Ok (e :: es)
  end.

(* lines 124-146: channels_to_process, or [None] where the source logs
   the missing region and continues *)
Definition select_channels (data : pyval) (region : string)
    (is_all_region : bool) : res (option (dict pydict)) :=
  if is_all_region then
    r <~ py_get data "regions" (PDict []) ;;
    regions <~ py_items r ;;
    ctp <~ all_regions_channels regions [] ;;
    Ok (Some ctp)
  else
    r <~ py_get data "regions" (PDict []) ;;
    region_data <~ py_get r region PNone ;;
    if negb (truthy region_data) then Ok None
    else
      ctp <~ one_region_channels region region_data ;;
      Ok (Some ctp).

(* lines 149-156 *)
Definition sorted_channel_ids (sort region : string)
    (channels_to_process : dict pydict) : M (list string) :=
  catch (lift (sort_channel_ids sort channels_to_process))
    (fun _ =>
       log WARNING ("Sorting failed for PlutoTV " ++ region
                    ++ ", using default order. Error: ") ;;;
       ret (dict_keys channels_to_process)).

Definition is_all (region : string) : bool := Str.lower region =? "all".

Definition playlist_header (region : string) : string :=
  let epg_url := Str.replace EPG_URL_TEMPLATE "{region}" region in
  "#EXTM3U " ++ attr "url-tvg" epg_url nl.

Definition playlist_filename (region : string) : string :=
  "lgchannels_" ++ region ++ ".m3u".

(* lines 118-173: one turn of the loop over the regions *)
Definition region_body (data : pyval) (sort region : string) : M unit :=
  log INFO ("--- Generating lgchannels playlist for region: " ++ region
            ++ " ---") ;;;
  let output_lines := [playlist_header region] in
  let is_all_region := is_all region in
  selected <- lift (select_channels data region is_all_region) ;;
  match selected with
  | None =>
      log WARNING ("Region '" ++ region
                   ++ "' not found in PlutoTV data. Skipping.")
      (* continue *)
  | Some channels_to_process =>
      ids <- sorted_channel_ids sort region channels_to_process ;;
      entries <- lift (build_entries is_all_region channels_to_process ids) ;;
      write_m3u_file (playlist_filename region)
        (Str.concat_all (output_lines ++ entries)%list)
  end.

Fixpoint regions_loop (data : pyval) (sort : string) (regions : list string)
  : M unit :=
  match regions with
  | [] => ret tt
  | region :: rest =>
      region_body data sort region ;;;
      regions_loop data sort rest
  end.

(* lines 105-173: the function from the fetched value on *)
Definition playlists_from (data : pyval) (regions : list string)
    (sort : string) : M unit :=
  missing <-
    (if negb (truthy data) then ret true
     else has <- lift (py_contains data "regions") ;; ret (negb has)) ;;
  if (missing : bool) then
    log ERROR "Failed to fetch or parse PlutoTV data."
  else
    regions_loop data sort regions.

(* the names bound to a str where line 104 is evaluated: the locals
   assigned above it, then the module's constants.  The other names in
   scope (the arguments, REQUEST_TIMEOUT, the imports, the functions of
   the module, the builtins) are spelled differently as well. *)
Definition names_at_fetch : dict string :=
  [("LGCHANNELS_URL", LGCHANNELS_URL);
   ("STREAM_URL_TEMPLATE", STREAM_URL_TEMPLATE);
   ("EPG_URL_TEMPLATE", EPG_URL_TEMPLATE);
   ("OUTPUT_DIR", OUTPUT_DIR);
   ("USER_AGENT", USER_AGENT)].

Definition load_name (name : string) : M string :=
  match dict_get names_at_fetch name with
  | Some v => ret v
  | None => raise NameError
  end.

Definition default_regions : list string := ["us"; "ca"; "gb"; "au"; "all"].
Definition default_sort : string := "name".

Definition generate_lgchannels_m3u (regions : list string) (sort : string)
  : M unit :=
  url <- load_name "lgchannels_URL" ;;
  got <- fetch_url url true true None false ;;
  match got with
  | Value data => playlists_from data regions sort
  | Streamed _ _ => raise TypeError (* stream is False: not reached *)
  end.

End Program.

(** * The vocabulary of the statements *)

(** ** A stable sort by key *)

Section StableSort.

Variables (K A : Type) (ltb : K -> K -> bool) (eqb : K -> K -> bool).
Variable kf : A -> K.

(* [a] does not come after [b] *)
Definition key_le (a b : A) : Prop := ltb (kf b) (kf a) = false.

(* the elements whose key is [k], in the order of the list *)
Definition with_key (k : K) (l : list A) : list A :=
  filter (fun x => eqb (kf x) k) l.

(* [l'] is [l] sorted by key, equal keys in their order in [l] *)
Definition stable_sort_of (l l' : list A) : Prop :=
  Permutation l' l /\ StronglySorted key_le l' /\
  forall k, with_key k l' = with_key k l.

Definition dec (x : A) : K * A := (kf x, x).

Fixpoint insert_k (x : A) (l : list A) : list A :=
  match l with
  | [] => [x]
  | y :: l' => if ltb (kf y) (kf x) then y :: insert_k x l' else x :: y :: l'
  end.

Fixpoint sort_k (l : list A) : list A :=
  match l with
  | [] => []
  | x :: l' => insert_k x (sort_k l')
  end.

End StableSort.

(** ** Words of the specification *)

(* every [a] of [s] turned into [b] *)
Definition subst_char (a b : ascii) (s : string) : string :=
  Str.map_chars (fun c => if Ascii.eqb c a then b else c) s.

(* [s] without its characters [a] *)
Fixpoint remove_char (a : ascii) (s : string) : string :=
  match s with
  | EmptyString => EmptyString
  | String c s' =>
      if Ascii.eqb c a then remove_char a s' else String c (remove_char a s')
  end.

(* the order lines 149-156 leave in sorted_channel_ids *)
Definition ids_used (sort : string) (channels_to_process : dict pydict)
  : list string :=
  match sort_channel_ids sort channels_to_process with
  | Ok ids => ids
  | Raise _ => dict_keys channels_to_process
  end.

Definition sort_log (sort region : string) (channels_to_process : dict pydict)
  : list log_entry :=
  match sort_channel_ids sort channels_to_process with
  | Ok _ => []
  | Raise _ =>
      [(WARNING, "Sorting failed for PlutoTV " ++ region
                 ++ ", using default order. Error: ")]
  end.

Definition start_log (region : string) : list log_entry :=
  [(INFO, "--- Generating lgchannels playlist for region: " ++ region
          ++ " ---")].

Definition skip_log (region : string) : list log_entry :=
  [(WARNING, "Region '" ++ region
             ++ "' not found in PlutoTV data. Skipping.")].

(* the channels of a region record, as the loops read them *)
Definition region_channels (region_data : pyval) : pydict :=
  match region_data with
  | PDict rd =>
      match dict_get_default rd "channels" (PDict []) with
      | PDict channels => channels
      | _ => []
      end
  | _ => []
  end.

(* the display name of a region: the table, else the code in capitals *)
Definition region_display_name (region_key : string) : string :=
  dict_get_default region_name_map region_key (Str.upper region_key).

(* the keys of the merged playlist, in catalog order *)
Definition merged_ids (regions : pydict) : list string :=
  flat_map
    (fun r => map (fun c => fst c ++ "-" ++ fst r) (region_channels (snd r)))
    regions.


(* the record a single region keeps for a channel *)
Definition region_record (region channel_key : string) (info : pydict)
  : pydict :=
  dict_update info
    [("region_code", PStr region); ("original_id", PStr channel_key)].

(* [k] put at the end of [acc] unless it is there: what d[k] = v does
   to the keys of d *)
Definition add_key (acc : list string) (k : string) : list string :=
  if existsb (String.eqb k) acc then acc else (acc ++ [k])%list.

(* [l] without the repetitions of an earlier element *)
Definition first_occurrences (l : list string) : list string :=
  fold_left add_key l [].

(* the keys that the catalog gives to the entries of a region, or of the
   merged playlist, in catalog iteration order *)
Definition catalog_ids (data : pyval) (region : string) : list string :=
  match data with
  | PDict d =>
      match dict_get_default d "regions" (PDict []) with
      | PDict regions =>
          if is_all region then merged_ids regions
          else match dict_get regions region with
               | Some region_data => dict_keys (region_channels region_data)
               | None => []
               end
      | _ => []
      end
  | _ => []
  end.

(* the key of line 153, where the lambda returns one *)
Definition name_sort_key (ctp : dict pydict) (k : string) : string :=
  match name_key ctp k with
  | Ok s => s
  | Raise _ => EmptyString
  end.

(* the key of line 151, where the lambda returns one *)
Definition chno_sort_key (ctp : dict pydict) (k : string) : Z :=
  match chno_key ctp k with
  | Ok z => z
  | Raise _ => 0%Z
  end.

(* int() accepts the channel number of every entry *)
Definition chno_keys_ok (ctp : dict pydict) : bool :=
  forallb
    (fun k => match chno_key ctp k with Ok _ => true | Raise _ => false end)
    (dict_keys ctp).

Definition name_sorted (ctp : dict pydict) (ids : list string) : Prop :=
  stable_sort_of String.ltb String.eqb (name_sort_key ctp) (dict_keys ctp) ids.

Definition chno_sorted (ctp : dict pydict) (ids : list string) : Prop :=
  stable_sort_of Z.ltb Z.eqb (chno_sort_key ctp) (dict_keys ctp) ids.

(* [s] holds no line break *)
Definition one_line (s : string) : Prop := Str.occurs newline s = false.

(* the metadata line of the output format *)
Definition extinf_line (cid tid chno name logo group disp : string) : string :=
  "#EXTINF:-1 "
  ++ attr "channel-id" cid " "
  ++ attr "tvg-id" tid " "
  ++ attr "tvg-chno" chno " "
  ++ attr "tvg-name" name " "
  ++ attr "tvg-logo" logo " "
  ++ attr "group-title" group ","
  ++ disp ++ nl.

(* the line of the stream URL *)
Definition stream_line (oid : string) : string :=
  "https://jmp2.uk/plu-" ++ oid ++ ".m3u8" ++ nl.

(* the group label line 164 reads *)
Definition group_of (is_all_region : bool) (channel : pydict) : pyval :=
  if is_all_region
  then dict_get_default channel "group_title_override" PNone
  else dict_get_default channel "group" (PStr "Uncategorized").

(** ** Environments and catalogs of the examples *)

(* a decoder for the tests: ASCII text is its own UTF-8 *)
Definition decode_ascii (b : list Byte.byte) : option string :=
  if forallb (fun x => (Byte.to_nat x <? 128)%nat) b
  then Some (string_of_list_byte b) else None.

(* a parser for the tests: two documents *)
Definition loads_small (text : string) : option pyval :=
  if text =? "{}" then Some (PDict [])
  else if text =? "null" then Some PNone
  else None.

(* the reader of gzip on the bodies of the examples: nothing to read;
   the two magic bytes and then the end of the data, where the header
   stops short; a body that does not start with the magic bytes *)
Definition gunzip_framing (b : list Byte.byte) : exn + list Byte.byte :=
  match b with
  | [] => inr []
  | [x1f; x8b] => inl EOFError
  | _ => inl BadGzipFile
  end.

(* the server answers 200 with [body] to every request *)
Definition env_serving (body : list Byte.byte) : env :=
  {| http_get := fun _ _ => Response 200 body;
     gunzip := gunzip_framing;
     utf8_decode := decode_ascii;
     json_loads := loads_small;
     makedirs_ok := true;
     open_error := fun _ => None |}.

(* the null character *)
Definition zero : ascii := Eval cbv in ascii_of_nat 0.

(* a file system that takes every file, but for a path with a null
   character: open refuses such a path with ValueError *)
Definition env_strict : env :=
  {| http_get := fun _ _ => RequestFailed;
     gunzip := gunzip_framing;
     utf8_decode := decode_ascii;
     json_loads := loads_small;
     makedirs_ok := true;
     open_error :=
       fun p => if Str.occurs zero p then Some ValueError else None |}.

(* no output directory yet *)
Definition fs_empty : fs := mkfs false [].

Definition catalog_of (regions : pydict) : pyval :=
  PDict [("regions", PDict regions)].

Definition region_of (channels : pydict) : pyval :=
  PDict [("channels", PDict channels)].

(* one region, names Zebra and apple *)
Definition regions_names : pydict :=
  [("us", region_of [("z", PDict [("name", PStr "Zebra")]);
                     ("a", PDict [("name", PStr "apple")])])].

Definition catalog_names : pyval := catalog_of regions_names.

(* one region, channel numbers 5, None and 1 *)
Definition catalog_chno_none : pyval :=
  catalog_of
    [("us", region_of [("a", PDict [("name", PStr "A"); ("chno", pint 5)]);
                       ("b", PDict [("name", PStr "B"); ("chno", PNone)]);
                       ("c", PDict [("name", PStr "C"); ("chno", pint 1)])])].

(* one region, channel numbers 5, none given and 1 *)
Definition catalog_chno : pyval :=
  catalog_of
    [("us", region_of [("a", PDict [("name", PStr "A"); ("chno", pint 5)]);
                       ("b", PDict [("name", PStr "B")]);
                       ("c", PDict [("name", PStr "C"); ("chno", pint 1)])])].


(* two regions that share the channel key news1 *)
Definition regions_news : pydict :=
  [("us", region_of [("news1", PDict [("name", PStr "News One");
                                      ("group", PStr "News")])]);
   ("ca", region_of [("news1", PDict [("name", PStr "News Un");
                                      ("group", PStr "Info")])])].

Definition catalog_news : pyval := catalog_of regions_news.

(* channels_to_process of the merged mode on [catalog_news] *)
Definition ctp_news : dict pydict :=
  [("news1-us", [("name", PStr "News One"); ("group", PStr "News");
                 ("region_code", PStr "us");
                 ("group_title_override", PStr "United States");
                 ("original_id", PStr "news1")]);
   ("news1-ca", [("name", PStr "News Un"); ("group", PStr "Info");
                 ("region_code", PStr "ca");
                 ("group_title_override", PStr "Canada");
                 ("original_id", PStr "news1")])].

(* one region, one channel whose name holds a line break *)
Definition catalog_two_lines : pyval :=
  catalog_of
    [("us", region_of [("k", PDict [("name", PStr ("a" ++ nl ++ "b"))])])].

Definition us_path : string := "playlists/lgchannels_us.m3u".

(* the playlist of [catalog_names] sorted by name *)
Definition names_playlist : string :=
  Str.concat_all
    [playlist_header "us";
     extinf_line "a" "a" EmptyString "apple" EmptyString "Uncategorized" "apple"
       ++ stream_line "a";
     extinf_line "z" "z" EmptyString "Zebra" EmptyString "Uncategorized" "Zebra"
       ++ stream_line "z"].

(* the playlist of [catalog_chno] sorted by channel number *)
Definition chno_playlist : string :=
  Str.concat_all
    [playlist_header "us";
     extinf_line "c" "c" "1" "C" EmptyString "Uncategorized" "C"
       ++ stream_line "c";
     extinf_line "a" "a" "5" "A" EmptyString "Uncategorized" "A"
       ++ stream_line "a";
     extinf_line "b" "b" EmptyString "B" EmptyString "Uncategorized" "B"
       ++ stream_line "b"].

(** ** The channels that a turn reads *)

(* the channel records of the catalog, with their keys, that the turn of
   [region] reads: those of the region, or of every region *)
Definition channels_read (data : pyval) (region : string)
  : list (string * pyval) :=
  match data with
  | PDict d =>
      match dict_get_default d "regions" (PDict []) with
      | PDict regions =>
          if is_all region
          then flat_map (fun r => region_channels (snd r)) regions
          else match dict_get regions region with
               | Some region_data => region_channels region_data
               | None => []
               end
      | _ => []
      end
  | _ => []
  end.




(* one region, a channel Zebra and a channel without a name *)
Definition catalog_nameless : pyval :=
  catalog_of
    [("us", region_of [("z", PDict [("name", PStr "Zebra")]);
                       ("n", PDict [("logo", PStr "n.png")])])].

(* its playlist sorted by name *)
Definition nameless_playlist : string :=
  Str.concat_all
    [playlist_header "us";
     extinf_line "n" "n" EmptyString "Unknown Channel" "n.png"
       "Uncategorized" "Unknown Channel"
       ++ stream_line "n";
     extinf_line "z" "z" EmptyString "Zebra" EmptyString "Uncategorized"
       "Zebra"
       ++ stream_line "z"].

(** ** Texts outside ASCII *)

(* SUPERSCRIPT TWO, a digit that is not a decimal digit *)
Definition superscript_two : string := string_of_list_byte [xc2; xb2].

(* ARABIC-INDIC DIGIT THREE, a decimal digit *)
Definition arabic_three : string := string_of_list_byte [xd9; xa3].

(* a-umlaut a, and A-umlaut b *)
Definition name_ae_a : string := string_of_list_byte [xc3; xa4; x61].
Definition name_AE_b : string := string_of_list_byte [xc3; x84; x62].

(* sharp s, and a region code with it *)
Definition sharp_s : string := string_of_list_byte [xc3; x9f].

(* a code point, the surrogates among them *)
Definition is_code_point (c : N) : bool := (c <? Str.stray)%N.

(* the order of two str in Python: the first code point that differs
   decides, and a text stands before its continuations *)
Fixpoint compare_code_points (l1 l2 : list N) : comparison :=
  match l1, l2 with
  | [], [] => Eq
  | [], _ :: _ => Lt
  | _ :: _, [] => Gt
  | c1 :: r1, c2 :: r2 =>
      match (c1 ?= c2)%N with
      | Eq => compare_code_points r1 r2
      | o => o
      end
  end.

(* a numeral of [n] digits *)
Fixpoint ones (n : nat) : string :=
  match n with
  | O => EmptyString
  | S n' => String "1" (ones n')
  end.

(** ** Words for the helper functions *)

(* the status codes on which raise_for_status raises *)
Definition bad_status (status : nat) : bool :=
  (400 <=? status)%nat && (status <? 600)%nat.

Definition is_error (e : log_entry) : bool :=
  match fst e with
  | ERROR => true
  | _ => false
  end.

(* [text] is what fetch_url reads from [body]: its decompressed bytes
   decoded, or the body itself decoded when is_gzipped is not set or
   the body is not gzip data *)
Definition body_text (E : env) (is_gzipped : bool) (body : list Byte.byte)
    (text : string) : Prop :=
  if is_gzipped then
    match gunzip E body with
    | inr raw => utf8_decode E raw = Some text
    | inl BadGzipFile => utf8_decode E body = Some text
    | inl _ => False
    end
  else utf8_decode E body = Some text.

(* how write_m3u_file ends once the directory is there *)
Definition write_result (E : env) (path : string) : res unit :=
  match open_error E path with
  | None => Ok tt
  | Some e => if caught e then Ok tt else Raise e
  end.

(* the content of the file at [path] *)
Definition file_get (s : fs) (path : string) : option string :=
  dict_get (files s) path.

(* the server answers [status] with [body] to every request *)
Definition env_answering (status : nat) (body : list Byte.byte) : env :=
  {| http_get := fun _ _ => Response status body;
     gunzip := gunzip_framing;
     utf8_decode := decode_ascii;
     json_loads := loads_small;
     makedirs_ok := true;
     open_error := fun _ => None |}.

(* a file system that refuses the directory, or the files *)
Definition env_readonly (can_mkdir : bool) : env :=
  {| http_get := fun _ _ => RequestFailed;
     gunzip := gunzip_framing;
     utf8_decode := decode_ascii;
     json_loads := loads_small;
     makedirs_ok := can_mkdir;
     open_error := fun _ => Some OSError |}.

Definition is_str (v : pyval) : bool :=
  match v with
  | PStr _ => true
  | _ => false
  end.

(* the number that the digits of [d] continue from [acc] *)
Fixpoint horner (acc : Z) (d : Decimal.uint) : Z :=
  match d with
  | Decimal.Nil => acc
  | Decimal.D0 d' => horner (10 * acc + 0) d'
  | Decimal.D1 d' => horner (10 * acc + 1) d'
  | Decimal.D2 d' => horner (10 * acc + 2) d'
  | Decimal.D3 d' => horner (10 * acc + 3) d'
  | Decimal.D4 d' => horner (10 * acc + 4) d'
  | Decimal.D5 d' => horner (10 * acc + 5) d'
  | Decimal.D6 d' => horner (10 * acc + 6) d'
  | Decimal.D7 d' => horner (10 * acc + 7) d'
  | Decimal.D8 d' => horner (10 * acc + 8) d'
  | Decimal.D9 d' => horner (10 * acc + 9) d'
  end.

(** ** Words for the loop over the regions *)

(* what one turn of the loop comes to before it calls write_m3u_file *)
Inductive turn : Type :=
| Skips
| Fails (e : exn)
| Writes (content : string).

Definition turn_of (data : pyval) (sort region : string) : turn :=
  match select_channels data region (is_all region) with
  | Raise e => Fails e
  | Ok None => Skips
  | Ok (Some ctp) =>
      match build_entries (is_all region) ctp (ids_used sort ctp) with
      | Raise e => Fails e
      | Ok es => Writes (Str.concat_all (playlist_header region :: es))
      end
  end.

(* the path of the playlist of a region *)
Definition playlist_path (region : string) : string :=
  "playlists/lgchannels_" ++ region ++ ".m3u".

(* the record [ch] kept under [id] names its channel and its region: in
   the merged playlist [id] is made of the two, and the record has the
   display name of the region *)
Definition record_ok (is_all_region : bool) (region id : string)
    (ch : pydict) : Prop :=
  exists oid rk,
    dict_get ch "original_id" = Some (PStr oid) /\
    dict_get ch "region_code" = Some (PStr rk) /\
    if is_all_region
    then id = oid ++ "-" ++ rk /\
         dict_get ch "group_title_override"
         = Some (PStr (region_display_name rk))
    else id = oid /\ rk = region.

(* the turn of [region] has nothing left to do on [t] *)
Definition settled (E : env) (data : pyval) (sort : string) (t : fs)
    (region : string) : Prop :=
  snd (region_body E data sort region t) = (t, Ok tt).

(* a catalog with a channel whose name is null *)
Definition catalog_null_name : pyval :=
  catalog_of [("us", region_of [("k", PDict [("name", PNone)])])].

(* a catalog whose region us is an empty object *)
Definition catalog_empty_region : pyval :=
  catalog_of [("us", PDict [])].


(* a catalog with a region whose code holds a null character *)
Definition nul_region : string := String zero "x".
Definition catalog_nul : pyval :=
  catalog_of [(nul_region, region_of [("k", PDict [("name", PStr "N")])])].

(* a file of somebody else beside the playlists *)
Definition fs_notes : fs := mkfs true [("playlists/notes.txt", "keep")].



(** * Properties *)

(** ** The builtins on examples *)

Example lower_ex : Str.lower "Zebra TV 1" = "zebra tv 1".
Proof. reflexivity. Qed.
Example replace_ex : Str.replace "a,b,,c" "," "" = "abc".
Proof. reflexivity. Qed.
Example replace_ex2 : Str.replace "x{id}y{id}" "{id}" "77" = "x77y77".
Proof. reflexivity. Qed.
Example repr_ex :
  py_repr (PDict [("a", PList [pint (-3)%Z; PStr "it's"; PNone])])
  = "{'a': [-3, " ++ String dquote "it's" ++ String dquote ", None]}".
Proof. reflexivity. Qed.
Example str_of_Z_ex : map str_of_Z [0; 7; -12]%Z = ["0"; "7"; "-12"].
Proof. reflexivity. Qed.
Example int_ex :
  map int_of_str [" 7 "; "-3"; "1_000"; "7.5"; ""; "_1"; "007"; "+ 1"]
  = [Some 7; Some (-3); Some 1000; None; None; None; Some 7; None]%Z.
Proof. reflexivity. Qed.

(* outside ASCII: the letters with a lowercase or an uppercase, the
   digits of isdigit, the decimal digits of int *)
Example lower_unicode_ex :
  Str.lower name_AE_b = string_of_list_byte [xc3; xa4; x62]
  /\ String.ltb name_ae_a name_AE_b = false
  /\ String.ltb (Str.lower name_ae_a) (Str.lower name_AE_b) = true.
Proof. repeat split. Qed.

Example upper_unicode_ex : Str.upper sharp_s = "SS".
Proof. reflexivity. Qed.

Example isdigit_unicode_ex :
  Str.isdigit superscript_two = true /\ int_of_str superscript_two = None
  /\ Str.isdigit arabic_three = true /\ int_of_str arabic_three = Some 3%Z.
Proof. repeat split. Qed.

(* a capital sigma at the end of a word and inside one *)
Example lower_sigma_ex :
  Str.lower (string_of_list_byte [x41; xce; xa3; x20; xce; xa3; x41])
  = string_of_list_byte [x61; xcf; x82; x20; xcf; x83; x61].
Proof. reflexivity. Qed.

(* int() reads 4300 digits and no more *)
Example int_limit_ex :
  int_of_str (ones 4301) = None
  /\ int_of_str ("-" ++ ones 4300) <> None
  /\ Str.isdigit (ones 4301) = true.
Proof.
  split; [vm_compute; reflexivity|].
  split; [vm_compute; discriminate | vm_compute; reflexivity].
Qed.

(** ** sorted: a stable sort by key *)

Section SortedFacts.

Variables (K A : Type) (ltb : K -> K -> bool) (eqb : K -> K -> bool).
Variable kf : A -> K.

Hypothesis eqb_eq : forall a b, eqb a b = true <-> a = b.
Hypothesis ltb_irrefl : forall a, ltb a a = false.
Hypothesis ltb_asym : forall a b, ltb a b = true -> ltb b a = false.
Hypothesis not_ltb_trans :
  forall a b c, ltb b a = false -> ltb c b = false -> ltb c a = false.

Lemma insert_by_dec x l :
  insert_by ltb (dec kf x) (map (dec kf) l)
  = map (dec kf) (insert_k ltb kf x l).
Proof.
  induction l as [|y l IH]; simpl; [reflexivity|].
  destruct (ltb (kf y) (kf x)); simpl; [now rewrite IH | reflexivity].
Qed.

Lemma sort_by_dec l :
  sort_by ltb (map (dec kf) l) = map (dec kf) (sort_k ltb kf l).
Proof.
  induction l as [|x l IH]; simpl; [reflexivity|].
  now rewrite IH, insert_by_dec.
Qed.

Lemma map_snd_dec l : map snd (map (dec kf) l) = l.
Proof. induction l; simpl; congruence. Qed.

Lemma insert_k_perm x l : Permutation (insert_k ltb kf x l) (x :: l).
Proof.
  induction l as [|y l IH]; simpl; [reflexivity|].
  destruct (ltb (kf y) (kf x)); [|reflexivity].
  rewrite IH. apply perm_swap.
Qed.

Lemma sort_k_perm l : Permutation (sort_k ltb kf l) l.
Proof.
  induction l as [|x l IH]; simpl; [constructor|].
  rewrite insert_k_perm. now constructor.
Qed.

Lemma insert_k_sorted x l :
  StronglySorted (key_le ltb kf) l ->
  StronglySorted (key_le ltb kf) (insert_k ltb kf x l).
Proof.
  induction 1 as [|y l Hs IH Hy]; simpl.
  - repeat constructor.
  - destruct (ltb (kf y) (kf x)) eqn:Hlt.
    + constructor; [exact IH|].
      eapply Permutation_Forall; [symmetry; apply insert_k_perm|].
      constructor; [|exact Hy].
      unfold key_le. now apply ltb_asym.
    + constructor; [now constructor|].
      constructor; [exact Hlt|].
      eapply Forall_impl; [|exact Hy].
      intros z Hz. unfold key_le in *. eapply not_ltb_trans; eassumption.
Qed.

Lemma sort_k_sorted l : StronglySorted (key_le ltb kf) (sort_k ltb kf l).
Proof.
  induction l; simpl; [constructor | now apply insert_k_sorted].
Qed.

Lemma insert_k_with_key k x l :
  with_key eqb kf k (insert_k ltb kf x l) = with_key eqb kf k (x :: l).
Proof.
  induction l as [|y l IH]; [reflexivity|].
  cbn [insert_k]. destruct (ltb (kf y) (kf x)) eqn:Hlt; [|reflexivity].
  unfold with_key in *. cbn [filter] in *. rewrite IH.
  destruct (eqb (kf x) k) eqn:Hx; [|reflexivity].
  destruct (eqb (kf y) k) eqn:Hy; [|reflexivity].
  apply eqb_eq in Hx, Hy. rewrite Hx, Hy, ltb_irrefl in Hlt. discriminate.
Qed.

Lemma sort_k_with_key k l :
  with_key eqb kf k (sort_k ltb kf l) = with_key eqb kf k l.
Proof.
  induction l as [|x l IH]; [reflexivity|].
  cbn [sort_k]. rewrite insert_k_with_key.
  unfold with_key in *. cbn [filter]. now rewrite IH.
Qed.

Lemma sort_k_stable l : stable_sort_of ltb eqb kf l (sort_k ltb kf l).
Proof.
  split; [apply sort_k_perm|].
  split; [apply sort_k_sorted | intro k; apply sort_k_with_key].
Qed.

Lemma decorate_ok (key : A -> res K) l :
  (forall x, In x l -> key x = Ok (kf x)) ->
  decorate key l = Ok (map (dec kf) l).
Proof.
  induction l as [|x l IH]; intros H; simpl; [reflexivity|].
  rewrite (H x (or_introl eq_refl)). simpl.
  rewrite IH; [reflexivity|]. intros y Hy. apply H. now right.
Qed.

Lemma decorate_raise (key : A -> res K) l x e :
  In x l -> key x = Raise e -> exists e', decorate key l = Raise e'.
Proof.
  induction l as [|y l IH]; intros Hin Hx; [contradiction|].
  simpl. destruct (key y) as [k|e1] eqn:Hy; [|now exists e1].
  simpl. destruct Hin as [->|Hin]; [congruence|].
  destruct (IH Hin Hx) as [e' He']. rewrite He'. now exists e'.
Qed.

Lemma py_sorted_ok (key : A -> res K) l :
  (forall x, In x l -> key x = Ok (kf x)) ->
  py_sorted ltb key l = Ok (sort_k ltb kf l).
Proof.
  intros H. unfold py_sorted. rewrite (decorate_ok key l H). simpl.
  now rewrite sort_by_dec, map_snd_dec.
Qed.

Lemma py_sorted_raise (key : A -> res K) l x e :
  In x l -> key x = Raise e -> exists e', py_sorted ltb key l = Raise e'.
Proof.
  intros Hin Hx. unfold py_sorted.
  destruct (decorate_raise key l x Hin Hx) as [e' ->]. now exists e'.
Qed.

End SortedFacts.

(** ** Strings *)

Lemma prefix_char c d s :
  prefix (String c EmptyString) (String d s) = Ascii.eqb d c.
Proof.
  simpl. destruct (ascii_dec c d) as [->|Hne].
  - rewrite Ascii.eqb_refl. now destruct s.
  - symmetry. apply Ascii.eqb_neq. congruence.
Qed.

Lemma replace_quote s : Str.replace s q "'" = subst_char dquote "'" s.
Proof.
  unfold Str.replace, q, subst_char.
  induction s as [|d s IH]; [reflexivity|].
  cbn [Str.replace_from Str.map_chars]. rewrite prefix_char.
  destruct (Ascii.eqb d dquote); cbn [String.length Nat.sub append];
    now rewrite IH.
Qed.

Lemma replace_comma s : Str.replace s "," EmptyString = remove_char "," s.
Proof.
  unfold Str.replace.
  induction s as [|d s IH]; [reflexivity|].
  cbn [Str.replace_from remove_char]. rewrite prefix_char.
  destruct (Ascii.eqb d ","); cbn [String.length Nat.sub append];
    now rewrite IH.
Qed.

Lemma subst_char_occurs a b s :
  a <> b -> Str.occurs a (subst_char a b s) = false.
Proof.
  intros Hab. induction s as [|c s IH]; [reflexivity|].
  unfold subst_char in *. cbn [Str.map_chars Str.occurs]. rewrite IH.
  rewrite orb_false_r. destruct (Ascii.eqb c a) eqn:Hc.
  - now apply Ascii.eqb_neq.
  - rewrite Ascii.eqb_sym. exact Hc.
Qed.

Lemma remove_char_occurs a s : Str.occurs a (remove_char a s) = false.
Proof.
  induction s as [|c s IH]; [reflexivity|].
  cbn [remove_char]. destruct (Ascii.eqb c a) eqn:Hc; [exact IH|].
  cbn [Str.occurs]. now rewrite IH, Ascii.eqb_sym, Hc.
Qed.

Lemma remove_char_keeps a b s :
  a <> b -> Str.occurs b (remove_char a s) = Str.occurs b s.
Proof.
  intros Hab. induction s as [|c s IH]; [reflexivity|].
  cbn [remove_char Str.occurs]. destruct (Ascii.eqb c a) eqn:Hc.
  - apply Ascii.eqb_eq in Hc. subst c.
    rewrite IH. symmetry. replace (Ascii.eqb b a) with false; [reflexivity|].
    symmetry. apply Ascii.eqb_neq. congruence.
  - cbn [Str.occurs]. now rewrite IH.
Qed.

Lemma stream_url_resolved oid :
  Str.replace STREAM_URL_TEMPLATE "{id}" oid
  = "https://jmp2.uk/plu-" ++ oid ++ ".m3u8".
Proof. reflexivity. Qed.

Lemma epg_url_resolved region :
  Str.replace EPG_URL_TEMPLATE "{region}" region
  = "https://github.com/matthuisman/i.mjh.nz/raw/master/PlutoTV/"
    ++ region ++ ".xml.gz".
Proof. reflexivity. Qed.

(** ** Code points *)

Lemma ascii_not_cont c b :
  (N_of_ascii c <? 128)%N = true ->
  (N_of_ascii b <? 128)%N = false ->
  Ascii.eqb c b = false.
Proof.
  intros Hc Hb. destruct (Ascii.eqb c b) eqn:He; [|reflexivity].
  apply Ascii.eqb_eq in He. subst b. congruence.
Qed.

Lemma cont_high b : Str.is_cont (N_of_ascii b) = true -> (N_of_ascii b <? 128)%N = false.
Proof.
  unfold Str.is_cont. intros H. apply andb_true_iff in H. destruct H as [H _].
  apply N.leb_le in H. apply N.ltb_ge. exact H.
Qed.

Ltac peel c Hc :=
  repeat match goal with
    | H : negb (Str.is_cont _) = false |- _ => apply negb_false_iff in H
    | H : _ && _ = true |- _ => apply andb_true_iff in H; destruct H
    | H : Str.is_cont (N_of_ascii ?b) = true |- _ =>
        apply cont_high in H
    | H : (N_of_ascii ?b <? 128)%N = false, H' : context [Ascii.eqb c ?b] |- _ =>
        rewrite (@ascii_not_cont c b Hc H) in H'; cbn [orb] in H'
    end.

(* an ASCII character of the text is one of its code points *)
Lemma decode_ascii_in c :
  (N_of_ascii c <? 128)%N = true ->
  forall n s, (String.length s <= n)%nat ->
    Str.occurs c s = true -> In (N_of_ascii c) (Str.decode s).
Proof.
  intros Hc. induction n as [|n IH]; intros s Hlen.
  - destruct s; [discriminate | cbn in Hlen; lia].
  - destruct s as [|b0 r0]; [discriminate|].
    cbn [String.length] in Hlen.
    cbn [Str.decode]. cbv zeta.
    destruct (N_of_ascii b0 <? 128)%N eqn:H0.
    + cbn [Str.occurs]. intros H. apply orb_true_iff in H.
      destruct H as [H|H].
      * apply Ascii.eqb_eq in H. subst. now left.
      * right. apply IH; [lia | exact H].
    + intros H. cbn [Str.occurs] in H.
      rewrite (@ascii_not_cont c b0 Hc H0) in H. cbn [orb] in H.
      repeat match goal with
        | |- context [match ?r with EmptyString => _ | String _ _ => _ end] =>
            destruct r
        | |- context [if ?b then _ else _] => destruct b eqn:?
        end;
        cbn [Str.occurs] in H; peel c Hc;
        right; (apply IH; [cbn [String.length] in *; lia|]);
        cbn [Str.occurs]; peel c Hc;
        repeat match goal with
          | Hb : (N_of_ascii ?b <? 128)%N = false
            |- context [Ascii.eqb c ?b] =>
              rewrite (@ascii_not_cont c b Hc Hb); cbn [orb]
          end;
        first [assumption | discriminate].
Qed.

Lemma digit_ranges_newline : Str.in_ranges Str.digit_ranges 10 = false.
Proof. reflexivity. Qed.

Lemma forallb_In {A} (p : A -> bool) l x :
  forallb p l = true -> In x l -> p x = true.
Proof. intros H. rewrite forallb_forall in H. apply H. Qed.

(* a text of digits holds no line break *)
Lemma isdigit_no_newline s :
  Str.isdigit s = true -> Str.occurs newline s = false.
Proof.
  unfold Str.isdigit. destruct s as [|c s]; [reflexivity|].
  destruct (Str.is_ascii (String c s)) eqn:Ha.
  - generalize (String c s). clear. intros s.
    induction s as [|c s IH]; [reflexivity|].
    cbn [Str.all_chars Str.occurs]. intros H.
    apply andb_true_iff in H. destruct H as [Hc Hs]. rewrite (IH Hs).
    destruct c as [[] [] [] [] [] [] [] []];
      first [discriminate Hc | reflexivity].
  - intros H. destruct (Str.occurs newline (String c s)) eqn:Ho; [|reflexivity].
    apply (@decode_ascii_in newline eq_refl _ _ (le_n _)) in Ho.
    pose proof (@forallb_In _ _ _ _ H Ho) as Hd. discriminate Hd.
Qed.

(* ---------- lower of a text is empty only for the empty text ---------- *)
Lemma encode_cp_nonempty c : Str.encode_cp c <> EmptyString.
Proof.
  unfold Str.encode_cp.
  repeat match goal with |- context [if ?b then _ else _] => destruct b end;
    discriminate.
Qed.

Lemma encode_empty l : Str.encode l = EmptyString -> l = [].
Proof.
  destruct l as [|c l]; [reflexivity|]. cbn [Str.encode].
  pose proof (encode_cp_nonempty c) as H.
  destruct (Str.encode_cp c); [congruence | discriminate].
Qed.

Lemma decode_nonempty c s : Str.decode (String c s) <> [].
Proof.
  cbn [Str.decode]. cbv zeta.
  repeat match goal with
    | |- context [match ?r with EmptyString => _ | String _ _ => _ end] =>
        destruct r
    | |- context [if ?b then _ else _] => destruct b
    end; discriminate.
Qed.

Lemma lower_special_nonempty :
  forallb (fun e => match snd e with [] => false | _ => true end)
    Str.lower_special = true.
Proof. reflexivity. Qed.

Lemma special_lookup_nonempty t n l :
  forallb (fun e : N * list N => match snd e with [] => false | _ => true end) t = true ->
  Str.special_lookup t n = Some l -> l <> [].
Proof.
  induction t as [|[c l0] t IH]; [discriminate|].
  cbn [forallb Str.special_lookup snd]. intros H.
  apply andb_true_iff in H. destruct H as [H0 Ht].
  destruct (c =? n)%N; [|now apply IH].
  intros Heq. injection Heq as <-. destruct l0; [discriminate | discriminate].
Qed.

Lemma lower_cp_nonempty n : Str.lower_cp n <> [].
Proof.
  unfold Str.lower_cp, Str.case_cp.
  destruct (Str.special_lookup Str.lower_special n) as [l|] eqn:Hs.
  - exact (@special_lookup_nonempty _ _ _ lower_special_nonempty Hs).
  - destruct (Str.case_lookup Str.lower_map n); discriminate.
Qed.

Lemma lower_cps_empty before l : Str.lower_cps before l = [] -> l = [].
Proof.
  destruct l as [|c r]; [reflexivity|]. cbn [Str.lower_cps].
  intros H. apply app_eq_nil in H. destruct H as [H _].
  destruct (c =? 931)%N; [discriminate H|].
  now apply lower_cp_nonempty in H.
Qed.

Lemma map_chars_empty f s : Str.map_chars f s = EmptyString -> s = EmptyString.
Proof. destruct s; [reflexivity | discriminate]. Qed.

Lemma lower_empty s : Str.lower s = EmptyString -> s = EmptyString.
Proof.
  unfold Str.lower. destruct (Str.is_ascii s).
  - apply map_chars_empty.
  - intros H. apply encode_empty in H. apply lower_cps_empty in H.
    destruct s as [|c s]; [reflexivity|]. now apply decode_nonempty in H.
Qed.


(** ** A str and its bytes *)

Lemma N_of_byte n : (n < 256)%N -> N_of_ascii (Str.byte n) = n.
Proof.
  intros H. unfold Str.byte. rewrite N.mod_small by exact H.
  apply N_ascii_embedding. exact H.
Qed.

Ltac div_lia := zify; Z.to_euclidean_division_equations; lia.

Ltac decide_test :=
  match goal with
  | |- context [if ?b then _ else _] =>
      first
        [ replace b with true
            by (symmetry; unfold Str.is_cont, Str.stray;
                rewrite ?andb_true_iff, ?negb_true_iff, ?andb_false_iff,
                  ?N.leb_le, ?N.ltb_lt, ?N.leb_gt, ?N.ltb_ge; div_lia)
        | replace b with false
            by (symmetry; unfold Str.is_cont, Str.stray;
                rewrite ?negb_false_iff, ?andb_false_iff, ?andb_true_iff,
                  ?N.leb_le, ?N.ltb_lt, ?N.leb_gt, ?N.ltb_ge; div_lia) ]
  end.

Lemma decode_encode_cp c r :
  is_code_point c = true ->
  Str.decode (Str.encode_cp c ++ r) = c :: Str.decode r.
Proof.
  unfold is_code_point, Str.stray. intros Hc. apply N.ltb_lt in Hc.
  unfold Str.encode_cp.
  destruct (c <? 128)%N eqn:H1.
  - apply N.ltb_lt in H1. cbn [append Str.decode].
    rewrite N_of_byte by lia.
    apply N.ltb_lt in H1. now rewrite H1.
  - apply N.ltb_ge in H1.
    destruct (c <? 2048)%N eqn:H2.
    + apply N.ltb_lt in H2. cbn [append Str.decode].
      rewrite !N_of_byte by div_lia. cbv zeta.
      repeat decide_test. f_equal. div_lia.
    + apply N.ltb_ge in H2.
      destruct (c <? 65536)%N eqn:H3.
      * apply N.ltb_lt in H3. cbn [append Str.decode].
        rewrite !N_of_byte by div_lia. cbv zeta.
        repeat decide_test. f_equal. div_lia.
      * apply N.ltb_ge in H3.
        unfold Str.stray. apply N.ltb_lt in Hc. rewrite Hc.
        apply N.ltb_lt in Hc. cbn [append Str.decode].
        rewrite !N_of_byte by div_lia. cbv zeta.
        repeat decide_test. f_equal. div_lia.
Qed.

(* the bytes of a str give its code points back *)
Lemma decode_encode l :
  forallb is_code_point l = true -> Str.decode (Str.encode l) = l.
Proof.
  induction l as [|c l IH]; [reflexivity|].
  cbn [forallb Str.encode]. intros H. apply andb_true_iff in H.
  destruct H as [Hc Hl]. rewrite decode_encode_cp by exact Hc.
  now rewrite IH.
Qed.

Lemma compare_app s r1 r2 :
  String.compare (s ++ r1) (s ++ r2) = String.compare r1 r2.
Proof.
  induction s as [|c s IH]; [reflexivity|].
  cbn [append String.compare].
  unfold Ascii.compare. now rewrite N.compare_refl.
Qed.

Ltac split_compare :=
  repeat match goal with
         | |- context [N.compare ?a ?b] =>
             destruct (N.compare_spec a b); try div_lia
         end.

Lemma compare_encode_cp_lt c1 c2 r1 r2 :
  is_code_point c2 = true -> (c1 < c2)%N ->
  String.compare (Str.encode_cp c1 ++ r1) (Str.encode_cp c2 ++ r2) = Lt.
Proof.
  unfold is_code_point, Str.stray. intros Hc2 Hlt. apply N.ltb_lt in Hc2.
  unfold Str.encode_cp, Str.stray.
  destruct (c1 <? 128)%N eqn:A1;
    [apply N.ltb_lt in A1 | apply N.ltb_ge in A1];
  [|destruct (c1 <? 2048)%N eqn:A2;
     [apply N.ltb_lt in A2 | apply N.ltb_ge in A2];
   [|destruct (c1 <? 65536)%N eqn:A3;
      [apply N.ltb_lt in A3 | apply N.ltb_ge in A3];
    [|destruct (c1 <? 1114112)%N eqn:A4;
       [apply N.ltb_lt in A4 | apply N.ltb_ge in A4; lia]]]];
  (destruct (c2 <? 128)%N eqn:B1;
     [apply N.ltb_lt in B1 | apply N.ltb_ge in B1];
   [|destruct (c2 <? 2048)%N eqn:B2;
      [apply N.ltb_lt in B2 | apply N.ltb_ge in B2];
    [|destruct (c2 <? 65536)%N eqn:B3;
       [apply N.ltb_lt in B3 | apply N.ltb_ge in B3];
     [|destruct (c2 <? 1114112)%N eqn:B4;
        [apply N.ltb_lt in B4 | apply N.ltb_ge in B4; lia]]]]);
  try lia;
  cbn [append String.compare]; unfold Ascii.compare;
  rewrite !N_of_byte by div_lia;
  split_compare; reflexivity.
Qed.

Lemma compare_encode_cp c1 c2 r1 r2 :
  is_code_point c1 = true -> is_code_point c2 = true ->
  String.compare (Str.encode_cp c1 ++ r1) (Str.encode_cp c2 ++ r2)
  = match (c1 ?= c2)%N with
    | Eq => String.compare r1 r2
    | o => o
    end.
Proof.
  intros H1 H2. destruct (N.compare_spec c1 c2) as [->|Hlt|Hgt].
  - apply compare_app.
  - now apply compare_encode_cp_lt.
  - rewrite String.compare_antisym.
    now rewrite (@compare_encode_cp_lt c2 c1 r2 r1 H1 Hgt).
Qed.

Lemma encode_cp_cons c : exists b r, Str.encode_cp c = String b r.
Proof.
  unfold Str.encode_cp.
  repeat match goal with
         | |- context [if ?b then _ else _] => destruct b
         end; eauto.
Qed.

Lemma compare_encode l1 :
  forall l2,
    forallb is_code_point l1 = true -> forallb is_code_point l2 = true ->
    String.compare (Str.encode l1) (Str.encode l2)
    = compare_code_points l1 l2.
Proof.
  induction l1 as [|c1 r1 IH]; intros [|c2 r2] H1 H2.
  - reflexivity.
  - cbn [Str.encode compare_code_points].
    destruct (encode_cp_cons c2) as [b [r ->]]. reflexivity.
  - cbn [Str.encode compare_code_points].
    destruct (encode_cp_cons c1) as [b [r ->]]. reflexivity.
  - cbn [forallb] in H1, H2.
    apply andb_true_iff in H1. apply andb_true_iff in H2.
    destruct H1 as [Hc1 Hr1]. destruct H2 as [Hc2 Hr2].
    cbn [Str.encode compare_code_points].
    rewrite compare_encode_cp by assumption.
    now rewrite IH.
Qed.

(* s < t on two str is the comparison of their code points *)
Lemma ltb_encode l1 l2 :
  forallb is_code_point l1 = true -> forallb is_code_point l2 = true ->
  String.ltb (Str.encode l1) (Str.encode l2)
  = match compare_code_points l1 l2 with
    | Lt => true
    | _ => false
    end.
Proof.
  intros H1 H2. unfold String.ltb. now rewrite compare_encode.
Qed.

(** ** str of an integer *)

Lemma string_of_uint_digits d :
  Str.all_chars Str.is_digit (NilEmpty.string_of_uint d) = true.
Proof. induction d; simpl; auto. Qed.

Lemma digit_is_ascii c : Str.is_digit c = true -> Str.is_ascii_char c = true.
Proof.
  destruct c as [[] [] [] [] [] [] [] []]; intros H;
    first [discriminate H | reflexivity].
Qed.

Lemma digits_ascii s :
  Str.all_chars Str.is_digit s = true -> Str.is_ascii s = true.
Proof.
  unfold Str.is_ascii. induction s as [|c s IH]; [reflexivity|].
  cbn [Str.all_chars]. intros H. apply andb_true_iff in H.
  destruct H as [Hc Hs]. now rewrite (digit_is_ascii _ Hc), IH.
Qed.

(* on an ASCII text isdigit asks for the ten digits *)
Lemma isdigit_ascii s :
  Str.is_ascii s = true ->
  Str.isdigit s = negb (s =? "") && Str.all_chars Str.is_digit s.
Proof. intros H. unfold Str.isdigit. rewrite H. now destruct s. Qed.

Lemma isdigit_digits s :
  s <> EmptyString -> Str.all_chars Str.is_digit s = true ->
  Str.isdigit s = true.
Proof.
  intros Hne Hd. rewrite (isdigit_ascii _ (digits_ascii _ Hd)), Hd.
  destruct s; [congruence | reflexivity].
Qed.

Lemma isdigit_string_of_uint d :
  Str.isdigit (NilZero.string_of_uint d) = true.
Proof.
  apply isdigit_digits.
  - destruct d; discriminate.
  - destruct d; try reflexivity; apply (string_of_uint_digits (_ d)).
Qed.

Lemma decode_ascii_head c t :
  Str.is_ascii_char c = true ->
  Str.decode (String c t) = N_of_ascii c :: Str.decode t.
Proof.
  intros Hc. cbn [Str.decode]. cbv zeta.
  replace (N_of_ascii c <? 128)%N with true; [reflexivity|].
  destruct c as [[] [] [] [] [] [] [] []];
    first [discriminate Hc | reflexivity].
Qed.

Lemma digit_table_ascii c :
  Str.is_ascii_char c = true ->
  Str.in_ranges Str.digit_ranges (N_of_ascii c) = Str.is_digit c.
Proof.
  destruct c as [[] [] [] [] [] [] [] []]; intros Hc;
    first [discriminate Hc | vm_compute; reflexivity].
Qed.

(* a text that starts with an ASCII character other than a digit *)
Lemma isdigit_head c t :
  Str.is_ascii_char c = true -> Str.is_digit c = false ->
  Str.isdigit (String c t) = false.
Proof.
  intros Ha Hd. unfold Str.isdigit.
  destruct (Str.is_ascii (String c t)).
  - cbn [Str.all_chars]. now rewrite Hd.
  - rewrite (@decode_ascii_head c t Ha). cbn [forallb].
    now rewrite (@digit_table_ascii c Ha), Hd.
Qed.

Lemma isdigit_minus t : Str.isdigit (String "-" t) = false.
Proof. now apply isdigit_head. Qed.

Lemma isdigit_str_of_Z z :
  Str.isdigit (str_of_Z z) = (0 <=? z)%Z.
Proof.
  unfold str_of_Z. destruct z as [|p|p]; cbn [Z.to_int NilZero.string_of_int].
  - reflexivity.
  - apply isdigit_string_of_uint.
  - apply isdigit_minus.
Qed.

(** ** format_extinf *)

Lemma format_extinf_str cid tid chno n logo g d :
  format_extinf cid tid chno (PStr n) logo (PStr g) (PStr d)
  = Ok ("#EXTINF:-1 "
        ++ attr "channel-id" (py_str cid) " "
        ++ attr "tvg-id" (py_str tid) " "
        ++ attr "tvg-chno" (chno_str chno) " "
        ++ attr "tvg-name" (subst_char dquote "'" n) " "
        ++ attr "tvg-logo" (py_str logo) " "
        ++ attr "group-title" (subst_char dquote "'" g) ","
        ++ remove_char "," d ++ nl).
Proof.
  unfold format_extinf, str_replace. cbn [res_bind].
  now rewrite !replace_quote, replace_comma.
Qed.

Lemma format_extinf_ok cid tid chno name logo group disp out :
  format_extinf cid tid chno name logo group disp = Ok out ->
  exists n g d, name = PStr n /\ group = PStr g /\ disp = PStr d.
Proof.
  unfold format_extinf, str_replace. intros H.
  destruct name; cbn in H; try discriminate.
  destruct group; cbn in H; try discriminate.
  destruct disp; cbn in H; try discriminate.
  clear H. repeat eexists.
Qed.

(** ** The loop body, case by case *)

Lemma sorted_channel_ids_eq sort region ctp s :
  sorted_channel_ids sort region ctp s
  = (sort_log sort region ctp, (s, Ok (ids_used sort ctp))).
Proof.
  unfold sorted_channel_ids, catch, lift, sort_log, ids_used.
  destruct (sort_channel_ids sort ctp); reflexivity.
Qed.

Lemma region_body_eq E data sort region s :
  region_body E data sort region s =
  match select_channels data region (is_all region) with
  | Raise e => (start_log region, (s, Raise e))
  | Ok None => ((start_log region ++ skip_log region)%list, (s, Ok tt))
  | Ok (Some ctp) =>
      match build_entries (is_all region) ctp (ids_used sort ctp) with
      | Raise e =>
          ((start_log region ++ sort_log sort region ctp ++ [])%list,
           (s, Raise e))
      | Ok es =>
          let out := write_m3u_file E (playlist_filename region)
                       (Str.concat_all (playlist_header region :: es)) s in
          ((start_log region ++ sort_log sort region ctp ++ fst out)%list,
           snd out)
      end
  end.
Proof.
  unfold region_body.
  unfold bind at 1. cbn [log].
  unfold bind at 1. unfold lift at 1.
  destruct (select_channels data region (is_all region)) as [[ctp|]|e];
    [| reflexivity | reflexivity].
  unfold bind at 1. rewrite sorted_channel_ids_eq.
  unfold bind at 1. unfold lift at 1.
  destruct (build_entries (is_all region) ctp (ids_used sort ctp)) as [es|e];
    [| reflexivity].
  cbn [app].
  destruct (write_m3u_file E (playlist_filename region)
              (Str.concat_all (playlist_header region :: es)) s) as [lw out].
  reflexivity.
Qed.


(* write_m3u_file as a step on the file system *)
Lemma write_m3u_file_snd E filename content s :
  snd (write_m3u_file E filename content s)
  = if dir_exists s || makedirs_ok E
    then (mkfs true
            (if writable E (path_join OUTPUT_DIR filename)
             then file_put (files s) (path_join OUTPUT_DIR filename) content
             else files s),
          write_result E (path_join OUTPUT_DIR filename))
    else (s, Raise OSError).
Proof.
  unfold write_m3u_file, bind, catch, ret, log, output_dir_exists, makedirs,
    open_write, writable, write_result.
  destruct s as [d fl]. cbn [dir_exists files]. destruct d; cbn.
  - destruct (open_error E (path_join OUTPUT_DIR filename)) as [[]|];
      reflexivity.
  - destruct (makedirs_ok E); cbn; [|reflexivity].
    destruct (open_error E (path_join OUTPUT_DIR filename)) as [[]|];
      reflexivity.
Qed.

Lemma playlist_path_eq region :
  path_join OUTPUT_DIR (playlist_filename region) = playlist_path region.
Proof. reflexivity. Qed.

(* one turn of the loop as a step on the file system *)
Lemma region_body_snd E data sort region s :
  snd (region_body E data sort region s)
  = match turn_of data sort region with
    | Skips => (s, Ok tt)
    | Fails e => (s, Raise e)
    | Writes content =>
        if dir_exists s || makedirs_ok E
        then (mkfs true
                (if writable E (playlist_path region)
                 then file_put (files s) (playlist_path region) content
                 else files s),
              write_result E (playlist_path region))
        else (s, Raise OSError)
    end.
Proof.
  rewrite region_body_eq. unfold turn_of.
  destruct (select_channels data region (is_all region)) as [[ctp|]|e];
    [| reflexivity | reflexivity].
  destruct (build_entries (is_all region) ctp (ids_used sort ctp)) as [es|e];
    [| reflexivity].
  cbv zeta. cbn [snd]. rewrite write_m3u_file_snd.
  now rewrite playlist_path_eq.
Qed.

Lemma regions_loop_snd E data sort region rest s :
  snd (regions_loop E data sort (region :: rest) s)
  = match snd (region_body E data sort region s) with
    | (s1, Ok _) => snd (regions_loop E data sort rest s1)
    | (s1, Raise e) => (s1, Raise e)
    end.
Proof.
  cbn [regions_loop]. unfold bind.
  destruct (region_body E data sort region s) as [l1 [s1 [[]|e]]];
    cbn [snd]; [|reflexivity].
  now destruct (regions_loop E data sort rest s1).
Qed.

Lemma file_put_in fl path content p x :
  In (p, x) (file_put fl path content) ->
  In (p, x) fl \/ (p = path /\ x = content).
Proof.
  induction fl as [|[p0 c0] fl IH]; simpl.
  - intros [H|[]]. right. now inversion H.
  - destruct (p0 =? path)%string.
    + intros [H|H]; [right; now inversion H | left; now right].
    + intros [H|H]; [left; now left|].
      destruct (IH H) as [H'|H']; [left; now right | now right].
Qed.

Lemma file_put_get_same fl path content :
  dict_get (file_put fl path content) path = Some content.
Proof.
  induction fl as [|[p c] fl IH]; cbn.
  - now rewrite String.eqb_refl.
  - destruct (p =? path)%string eqn:Hp; cbn.
    + now rewrite String.eqb_refl.
    + now rewrite Hp.
Qed.

Lemma file_put_get_other fl path content p :
  p <> path -> dict_get (file_put fl path content) p = dict_get fl p.
Proof.
  intros Hne. induction fl as [|[p0 c0] fl IH]; cbn.
  - destruct (path =? p)%string eqn:Hp; [|reflexivity].
    apply String.eqb_eq in Hp. congruence.
  - destruct (p0 =? path)%string eqn:Hp0; cbn.
    + apply String.eqb_eq in Hp0. subst p0.
      destruct (path =? p)%string eqn:Hp; [|reflexivity].
      apply String.eqb_eq in Hp. congruence.
    + destruct (p0 =? p)%string; [reflexivity | exact IH].
Qed.

Lemma file_put_put fl path c1 c2 :
  file_put (file_put fl path c1) path c2 = file_put fl path c2.
Proof.
  induction fl as [|[p c] fl IH]; cbn.
  - now rewrite String.eqb_refl.
  - destruct (p =? path)%string eqn:Hp; cbn.
    + now rewrite String.eqb_refl.
    + now rewrite Hp, IH.
Qed.

Lemma write_m3u_file_files E filename content s p x :
  In (p, x) (files (fs_of (write_m3u_file E filename content s))) ->
  In (p, x) (files s) \/ (p = path_join OUTPUT_DIR filename /\ x = content).
Proof.
  unfold write_m3u_file, fs_of, bind, catch, ret, log, output_dir_exists,
    makedirs, open_write.
  destruct (dir_exists s) eqn:Hd; cbn.
  - destruct (open_error E (path_join OUTPUT_DIR filename)) as [[]|]; cbn;
      first [apply file_put_in | tauto].
  - destruct (makedirs_ok E); cbn; [|tauto].
    destruct (open_error E (path_join OUTPUT_DIR filename)) as [[]|]; cbn;
      first [apply file_put_in | tauto].
Qed.

(* a file that one turn of the loop creates or changes is the playlist
   of the region *)
Lemma region_body_writes E data sort region s p x :
  In (p, x) (files (fs_of (region_body E data sort region s))) ->
  ~ In (p, x) (files s) ->
  exists ctp es,
    select_channels data region (is_all region) = Ok (Some ctp) /\
    build_entries (is_all region) ctp (ids_used sort ctp) = Ok es /\
    p = path_join OUTPUT_DIR (playlist_filename region) /\
    x = Str.concat_all (playlist_header region :: es).
Proof.
  rewrite region_body_eq. intros Hin Hnot.
  destruct (select_channels data region (is_all region)) as [[ctp|]|e]
    eqn:Hsel; try (cbn in Hin; contradiction).
  destruct (build_entries (is_all region) ctp (ids_used sort ctp)) as [es|e]
    eqn:Hes; try (cbn in Hin; contradiction).
  exists ctp, es. split; [reflexivity|]. split; [exact Hes|].
  cbv zeta in Hin. unfold fs_of in Hin. cbn [snd fst] in Hin.
  apply write_m3u_file_files in Hin. tauto.
Qed.

(** ** The two orders Python compares keys with *)

Lemma string_compare_OT a b : String.compare a b = String_as_OT.compare a b.
Proof.
  revert b. induction a as [|c a IH]; intros [|d b]; reflexivity.
Qed.

Lemma string_ltb_lt a b : String.ltb a b = true <-> String_as_OT.lt a b.
Proof.
  unfold String.ltb, String_as_OT.lt. rewrite string_compare_OT.
  destruct (String_as_OT.compare a b); split; congruence.
Qed.

Lemma string_ltb_irrefl a : String.ltb a a = false.
Proof.
  destruct (String.ltb a a) eqn:H; [|reflexivity].
  apply string_ltb_lt in H.
  exfalso. exact (StrictOrder_Irreflexive (R := String_as_OT.lt) a H).
Qed.

Lemma string_ltb_asym a b : String.ltb a b = true -> String.ltb b a = false.
Proof.
  intros H. destruct (String.ltb b a) eqn:H'; [|reflexivity].
  apply string_ltb_lt in H, H'. exfalso.
  apply (StrictOrder_Irreflexive (R := String_as_OT.lt) a).
  exact (StrictOrder_Transitive (R := String_as_OT.lt) _ _ _ H H').
Qed.

Lemma string_not_ltb a b :
  String.ltb b a = false <-> (String.ltb a b = true \/ a = b).
Proof.
  split.
  - unfold String.ltb. rewrite (String.compare_antisym a b).
    destruct (String.compare b a) eqn:Hc; cbn; intros H;
      [right | discriminate | now left].
    symmetry. now apply String.compare_eq_iff.
  - intros [H| ->]; [now apply string_ltb_asym | apply string_ltb_irrefl].
Qed.

Lemma string_not_ltb_trans a b c :
  String.ltb b a = false -> String.ltb c b = false -> String.ltb c a = false.
Proof.
  rewrite !string_not_ltb.
  intros [Hab| ->] [Hbc| ->]; auto.
  left. apply string_ltb_lt. apply string_ltb_lt in Hab, Hbc.
  exact (StrictOrder_Transitive (R := String_as_OT.lt) _ _ _ Hab Hbc).
Qed.

Lemma string_ltb_empty a : String.ltb a EmptyString = false.
Proof. now destruct a. Qed.

Lemma Z_ltb_asym a b : (a <? b)%Z = true -> (b <? a)%Z = false.
Proof. rewrite Z.ltb_lt, Z.ltb_ge. lia. Qed.

Lemma Z_not_ltb_trans a b c :
  (b <? a)%Z = false -> (c <? b)%Z = false -> (c <? a)%Z = false.
Proof. rewrite !Z.ltb_ge. lia. Qed.

(** ** Dictionaries *)

Lemma dict_get_set_same {V} (d : dict V) k v :
  dict_get (dict_set d k v) k = Some v.
Proof.
  induction d as [|[k' v'] d IH]; simpl.
  - now rewrite String.eqb_refl.
  - destruct (k' =? k)%string eqn:Hk; simpl.
    + now rewrite String.eqb_refl.
    + now rewrite Hk.
Qed.

Lemma dict_get_set_other {V} (d : dict V) k k' v :
  k <> k' -> dict_get (dict_set d k v) k' = dict_get d k'.
Proof.
  intros Hne. induction d as [|[k0 v0] d IH]; simpl.
  - apply String.eqb_neq in Hne. now rewrite Hne.
  - destruct (k0 =? k)%string eqn:Hk; simpl.
    + apply String.eqb_eq in Hk. subst k0.
      apply String.eqb_neq in Hne. now rewrite Hne.
    + destruct (k0 =? k')%string; [reflexivity | exact IH].
Qed.

Lemma dict_keys_set {V} (d : dict V) k v :
  dict_keys (dict_set d k v)
  = if existsb (String.eqb k) (dict_keys d) then dict_keys d
    else (dict_keys d ++ [k])%list.
Proof.
  unfold dict_keys.
  induction d as [|[k0 v0] d IH]; simpl; [reflexivity|].
  rewrite (String.eqb_sym k k0).
  destruct (k0 =? k)%string eqn:Hk; simpl.
  - apply String.eqb_eq in Hk. now subst.
  - rewrite IH. now destruct (existsb (String.eqb k) (map fst d)).
Qed.

(** ** channels_to_process *)

Lemma existsb_eqb_false k l :
  ~ In k l -> existsb (String.eqb k) l = false.
Proof.
  intros H. destruct (existsb (String.eqb k) l) eqn:E; [|reflexivity].
  apply existsb_exists in E. destruct E as [x [Hx Hk]].
  apply String.eqb_eq in Hk. now subst.
Qed.



(** ** The keys of channels_to_process *)

Lemma dict_keys_set_add {V} (d : dict V) k v :
  dict_keys (dict_set d k v) = add_key (dict_keys d) k.
Proof. apply dict_keys_set. Qed.

Lemma add_channels_keys entry_id extra channels :
  forall ctp0 ctp,
    add_channels entry_id extra channels ctp0 = Ok ctp ->
    dict_keys ctp
    = fold_left add_key (map entry_id (dict_keys channels)) (dict_keys ctp0).
Proof.
  induction channels as [|[ck ci] rest IH]; intros ctp0 ctp H.
  - cbn in H. now injection H as <-.
  - cbn [add_channels] in H.
    destruct ci as [| | | |?|info]; try discriminate H.
    cbn [py_unpack res_bind] in H.
    rewrite (IH _ _ H), dict_keys_set_add. reflexivity.
Qed.

Lemma all_regions_channels_keys regions :
  forall ctp0 ctp,
    all_regions_channels regions ctp0 = Ok ctp ->
    dict_keys ctp = fold_left add_key (merged_ids regions) (dict_keys ctp0).
Proof.
  induction regions as [|[rk rd] rest IH]; intros ctp0 ctp H.
  - cbn in H. now injection H as <-.
  - cbn [all_regions_channels] in H.
    destruct rd as [| | | |?|rd]; try discriminate H.
    cbn [py_get res_bind] in H.
    destruct (dict_get_default rd "channels" (PDict [])) as [| | | |?|channels]
      eqn:Hch; try discriminate H.
    cbn [py_items res_bind] in H.
    destruct (add_channels _ _ channels ctp0) as [ctp1|] eqn:Hadd;
      [|discriminate H].
    cbn [res_bind] in H.
    rewrite (IH _ _ H), (add_channels_keys _ _ _ _ Hadd).
    unfold merged_ids. cbn [flat_map region_channels snd fst].
    rewrite Hch, fold_left_app. unfold dict_keys. now rewrite map_map.
Qed.

Lemma fold_add_key_nodup l :
  forall acc, NoDup (acc ++ l)%list -> fold_left add_key l acc = (acc ++ l)%list.
Proof.
  induction l as [|k l IH]; intros acc Hnd; cbn [fold_left].
  - now rewrite app_nil_r.
  - unfold add_key at 2. rewrite existsb_eqb_false.
    + rewrite IH; rewrite <- app_assoc; [reflexivity | exact Hnd].
    + apply NoDup_remove_2 in Hnd. intros Hin. apply Hnd.
      apply in_or_app. now left.
Qed.

Lemma first_occurrences_nodup l : NoDup l -> first_occurrences l = l.
Proof. intros H. unfold first_occurrences. now rewrite fold_add_key_nodup. Qed.

(* channels_to_process holds the channels in catalog iteration order *)
Lemma select_channels_keys data region ctp :
  select_channels data region (is_all region) = Ok (Some ctp) ->
  dict_keys ctp = first_occurrences (catalog_ids data region).
Proof.
  unfold select_channels, catalog_ids, first_occurrences.
  destruct data as [| | | |?|d]; try (destruct (is_all region); discriminate).
  cbn [py_get res_bind].
  destruct (dict_get_default d "regions" (PDict [])) as [| | | |?|regions];
    try (destruct (is_all region); discriminate).
  destruct (is_all region).
  - cbn [py_items res_bind].
    destruct (all_regions_channels regions []) as [ctp'|] eqn:Hall;
      [|discriminate].
    cbn [res_bind]. intros H. injection H as <-.
    now rewrite (all_regions_channels_keys _ _ Hall).
  - cbn [py_get res_bind]. unfold dict_get_default at 1 2.
    destruct (dict_get regions region) as [rd|]; [|discriminate].
    destruct (truthy rd); [|discriminate]. cbn [negb].
    unfold one_region_channels.
    destruct rd as [| | | |?|rd]; try discriminate.
    cbn [py_get res_bind region_channels].
    destruct (dict_get_default rd "channels" (PDict [])) as [| | | |?|channels];
      try discriminate.
    cbn [py_items res_bind].
    destruct (add_channels _ _ channels []) as [ctp'|] eqn:Hadd;
      [|discriminate].
    cbn [res_bind]. intros H. injection H as <-.
    rewrite (add_channels_keys _ _ _ _ Hadd). now rewrite map_id.
Qed.

(** ** The sort step *)

Lemma decorate_ok_inv {K A} (key : A -> res K) l dl :
  decorate key l = Ok dl -> forall x, In x l -> exists k, key x = Ok k.
Proof.
  revert dl. induction l as [|y l IH]; intros dl H x Hin; [contradiction|].
  cbn in H. destruct (key y) as [k|] eqn:Hy; [|discriminate].
  cbn in H. destruct (decorate key l) as [dl'|] eqn:Hd; [|discriminate].
  destruct Hin as [<-|Hin]; [eauto | eapply IH; eauto].
Qed.

Lemma py_sorted_ok_inv {K A} ltb (key : A -> res K) l l' :
  py_sorted ltb key l = Ok l' -> forall x, In x l -> exists k, key x = Ok k.
Proof.
  unfold py_sorted. destruct (decorate key l) as [dl|] eqn:Hd; [|discriminate].
  intros _. eapply decorate_ok_inv; eauto.
Qed.

Lemma name_sort_eq sort ctp :
  sort <> "chno" ->
  (forall k, In k (dict_keys ctp) -> exists v, name_key ctp k = Ok v) ->
  sort_channel_ids sort ctp
  = Ok (sort_k String.ltb (name_sort_key ctp) (dict_keys ctp)).
Proof.
  intros Hs Hk. unfold sort_channel_ids.
  apply String.eqb_neq in Hs. rewrite Hs.
  apply py_sorted_ok. intros k Hin. unfold name_sort_key.
  destruct (Hk k Hin) as [v ->]. reflexivity.
Qed.

Lemma chno_sort_eq ctp :
  chno_keys_ok ctp = true ->
  sort_channel_ids "chno" ctp
  = Ok (sort_k Z.ltb (chno_sort_key ctp) (dict_keys ctp)).
Proof.
  intros Hk. unfold sort_channel_ids. cbn [String.eqb Ascii.eqb Bool.eqb].
  apply py_sorted_ok. intros k Hin. unfold chno_sort_key.
  unfold chno_keys_ok in Hk. rewrite forallb_forall in Hk.
  specialize (Hk k Hin). now destruct (chno_key ctp k).
Qed.

Lemma chno_sort_raise ctp :
  chno_keys_ok ctp = false ->
  exists e, sort_channel_ids "chno" ctp = Raise e.
Proof.
  intros Hk. unfold sort_channel_ids. cbn [String.eqb Ascii.eqb Bool.eqb].
  unfold chno_keys_ok in Hk.
  assert (exists k, In k (dict_keys ctp) /\ exists e, chno_key ctp k = Raise e)
    as [k [Hin [e He]]].
  { induction (dict_keys ctp) as [|k l IH]; [discriminate|].
    cbn in Hk. destruct (chno_key ctp k) as [z|e] eqn:Hz.
    - destruct (IH Hk) as [k' [Hin He]]. exists k'. split; [now right | exact He].
    - exists k. split; [now left | now exists e]. }
  eapply py_sorted_raise; eauto.
Qed.

Lemma name_sorted_sort_k ctp :
  name_sorted ctp (sort_k String.ltb (name_sort_key ctp) (dict_keys ctp)).
Proof.
  apply sort_k_stable.
  - apply String.eqb_eq.
  - apply string_ltb_irrefl.
  - apply string_ltb_asym.
  - apply string_not_ltb_trans.
Qed.

Lemma chno_sorted_sort_k ctp :
  chno_sorted ctp (sort_k Z.ltb (chno_sort_key ctp) (dict_keys ctp)).
Proof.
  apply sort_k_stable.
  - apply Z.eqb_eq.
  - apply Z.ltb_irrefl.
  - apply Z_ltb_asym.
  - apply Z_not_ltb_trans.
Qed.

(** ** The entries *)

Lemma build_entries_ok b ctp ids es :
  build_entries b ctp ids = Ok es ->
  forall k, In k ids -> exists e, channel_entry b ctp k = Ok e.
Proof.
  revert es. induction ids as [|id ids IH]; intros es H k Hin; [contradiction|].
  cbn in H. destruct (channel_entry b ctp id) as [e|] eqn:He; [|discriminate].
  cbn in H. destruct (build_entries b ctp ids) as [es'|] eqn:Hes; [|discriminate].
  destruct Hin as [<-|Hin]; [eauto | eapply IH; eauto].
Qed.

Lemma channel_entry_name_key b ctp k e :
  channel_entry b ctp k = Ok e -> exists v, name_key ctp k = Ok v.
Proof.
  unfold channel_entry, name_key.
  destruct (py_index ctp k) as [ch|]; [|discriminate]. cbn [res_bind].
  destruct (format_extinf _ _ _ _ _ _ _) as [x|] eqn:Hf; [|discriminate].
  intros _. apply format_extinf_ok in Hf. destruct Hf as [n [g [d [Hn _]]]].
  unfold dict_get_default in *.
  destruct (dict_get ch "name") as [v|]; [subst v|]; eauto.
Qed.

(* the entries of a playlist that was written under the name sort all
   have a key *)
Lemma written_name_keys b sort ctp es :
  sort <> "chno" ->
  build_entries b ctp (ids_used sort ctp) = Ok es ->
  forall k, In k (dict_keys ctp) -> exists v, name_key ctp k = Ok v.
Proof.
  intros Hs Hb k Hin. unfold ids_used in Hb.
  destruct (sort_channel_ids sort ctp) as [ids|e] eqn:Hsort.
  - unfold sort_channel_ids in Hsort.
    apply String.eqb_neq in Hs. rewrite Hs in Hsort.
    eapply py_sorted_ok_inv; eauto.
  - destruct (build_entries_ok _ _ _ Hb k Hin) as [e' He'].
    eapply channel_entry_name_key; eauto.
Qed.

(** ** One entry *)

Lemma str_app_assoc (a b c : string) : (a ++ b) ++ c = a ++ (b ++ c).
Proof. induction a as [|x a IH]; cbn; [reflexivity | now rewrite IH]. Qed.

Lemma stream_line_eq oid :
  Str.replace STREAM_URL_TEMPLATE "{id}" oid ++ nl = stream_line oid.
Proof.
  rewrite stream_url_resolved. unfold stream_line.
  now rewrite !str_app_assoc.
Qed.

Lemma channel_entry_str b (ctp : dict pydict) id (ch : pydict) n g oid :
  dict_get ctp id = Some ch ->
  dict_get_default ch "name" (PStr "Unknown Channel") = PStr n ->
  group_of b ch = PStr g ->
  dict_get_default ch "original_id" (PStr (Str.split_head "-" id)) = PStr oid ->
  channel_entry b ctp id
  = Ok (extinf_line id oid (chno_str (dict_get_default ch "chno" PNone))
          (subst_char dquote "'" n)
          (py_str (dict_get_default ch "logo" (PStr EmptyString)))
          (subst_char dquote "'" g) (remove_char "," n)
        ++ stream_line oid).
Proof.
  intros Hch Hn Hg Ho. unfold channel_entry, py_index. rewrite Hch.
  cbn [res_bind]. fold (group_of b ch). rewrite Hn, Hg, Ho.
  rewrite format_extinf_str. cbn [res_bind].
  now rewrite stream_line_eq.
Qed.

Lemma channel_entry_inv b ctp id e :
  channel_entry b ctp id = Ok e ->
  exists (ch : pydict) n g oid,
    dict_get ctp id = Some ch /\
    dict_get_default ch "name" (PStr "Unknown Channel") = PStr n /\
    group_of b ch = PStr g /\
    dict_get_default ch "original_id" (PStr (Str.split_head "-" id)) = PStr oid /\
    e = extinf_line id oid (chno_str (dict_get_default ch "chno" PNone))
          (subst_char dquote "'" n)
          (py_str (dict_get_default ch "logo" (PStr EmptyString)))
          (subst_char dquote "'" g) (remove_char "," n)
        ++ stream_line oid.
Proof.
  intros He. pose proof He as He'. revert He'.
  unfold channel_entry at 1, py_index.
  destruct (dict_get ctp id) as [ch|] eqn:Hch; [|discriminate].
  cbn [res_bind]. fold (group_of b ch).
  destruct (format_extinf _ _ _ _ _ _ _) as [x|] eqn:Hf; [|discriminate].
  cbn [res_bind].
  destruct (dict_get_default ch "original_id" _) as [| | |oid| |] eqn:Ho;
    try discriminate.
  intros _. apply format_extinf_ok in Hf.
  destruct Hf as [n [g [d [Hn [Hg Hd]]]]].
  exists ch, n, g, oid.
  repeat (split; [first [reflexivity | assumption]|]).
  rewrite (channel_entry_str b ctp id Hch Hn Hg Ho) in He. congruence.
Qed.

Lemma build_entries_forall2 b ctp ids es :
  build_entries b ctp ids = Ok es ->
  Forall2 (fun id e => channel_entry b ctp id = Ok e) ids es.
Proof.
  revert es. induction ids as [|id ids IH]; intros es H.
  - cbn in H. injection H as <-. constructor.
  - cbn in H. destruct (channel_entry b ctp id) as [e|] eqn:He; [|discriminate].
    cbn in H. destruct (build_entries b ctp ids) as [es'|]; [|discriminate].
    cbn in H. injection H as <-. constructor; [exact He | now apply IH].
Qed.

Lemma dict_update_get_other {V} (a b : dict V) k :
  ~ In k (dict_keys b) -> dict_get (dict_update a b) k = dict_get a k.
Proof.
  unfold dict_update. revert a.
  induction b as [|[k0 v0] b IH]; intros a Hk; [reflexivity|].
  cbn [fold_left fst snd]. rewrite IH by (cbn in Hk; tauto).
  apply dict_get_set_other. cbn in Hk. tauto.
Qed.

(** ** A turn that writes *)

(* every record with a str name and group label gives an entry *)
Lemma build_entries_total b (ctp : dict pydict) ids :
  (forall id, In id ids ->
     exists (ch : pydict) n g oid,
       dict_get ctp id = Some ch /\
       dict_get_default ch "name" (PStr "Unknown Channel") = PStr n /\
       group_of b ch = PStr g /\
       dict_get_default ch "original_id" (PStr (Str.split_head "-" id))
       = PStr oid) ->
  exists es, build_entries b ctp ids = Ok es.
Proof.
  induction ids as [|id ids IH]; intros H; [now exists []|].
  destruct (H id (or_introl eq_refl)) as [ch [n [g [oid [Hch [Hn [Hg Ho]]]]]]].
  destruct IH as [es Hes]; [intros id' Hin; apply H; now right|].
  cbn [build_entries].
  rewrite (channel_entry_str b ctp id Hch Hn Hg Ho), Hes.
  cbn [res_bind]. eauto.
Qed.


(** ** The written playlist *)

Lemma decorate_snd {K A} (key : A -> res K) l dl :
  decorate key l = Ok dl -> map snd dl = l.
Proof.
  revert dl. induction l as [|x l IH]; intros dl H.
  - cbn in H. now injection H as <-.
  - cbn in H. destruct (key x) as [k|]; [|discriminate].
    cbn in H. destruct (decorate key l) as [dl'|]; [|discriminate].
    cbn in H. injection H as <-. cbn. now rewrite (IH dl').
Qed.

Lemma insert_by_perm {K A} (ltb : K -> K -> bool) (x : K * A) l :
  Permutation (insert_by ltb x l) (x :: l).
Proof.
  induction l as [|y l IH]; cbn; [reflexivity|].
  destruct (ltb (fst y) (fst x)); [|reflexivity].
  rewrite IH. apply perm_swap.
Qed.

Lemma sort_by_perm {K A} (ltb : K -> K -> bool) (l : list (K * A)) :
  Permutation (sort_by ltb l) l.
Proof.
  induction l as [|x l IH]; cbn; [constructor|].
  rewrite insert_by_perm. now constructor.
Qed.

Lemma py_sorted_perm {K A} (ltb : K -> K -> bool) (key : A -> res K) l l' :
  py_sorted ltb key l = Ok l' -> Permutation l' l.
Proof.
  unfold py_sorted. destruct (decorate key l) as [dl|] eqn:Hd; [|discriminate].
  cbn. intros H. injection H as <-.
  rewrite <- (decorate_snd _ _ Hd). apply Permutation_map, sort_by_perm.
Qed.

Lemma ids_used_perm sort ctp : Permutation (ids_used sort ctp) (dict_keys ctp).
Proof.
  unfold ids_used. destruct (sort_channel_ids sort ctp) as [ids|] eqn:Hs;
    [|reflexivity].
  unfold sort_channel_ids in Hs.
  destruct (sort =? "chno"); eapply py_sorted_perm; eauto.
Qed.

Lemma extinf_line_text cid tid chno name logo group disp :
  extinf_line cid tid chno name logo group disp
  = "#EXTINF:-1 channel-id=" ++ q ++ cid ++ q
    ++ " tvg-id=" ++ q ++ tid ++ q
    ++ " tvg-chno=" ++ q ++ chno ++ q
    ++ " tvg-name=" ++ q ++ name ++ q
    ++ " tvg-logo=" ++ q ++ logo ++ q
    ++ " group-title=" ++ q ++ group ++ q
    ++ "," ++ disp ++ nl.
Proof.
  unfold extinf_line, attr. now rewrite !str_app_assoc.
Qed.

(** ** The merged playlist *)




(** ** A region that the catalog does not have *)

Lemma regions_loop_skip E data sort region post logs :
  (forall s, region_body E data sort region s = (logs, (s, Ok tt))) ->
  forall pre s,
    snd (regions_loop E data sort (pre ++ region :: post) s)
    = snd (regions_loop E data sort (pre ++ post) s).
Proof.
  intros Hskip. induction pre as [|r pre IH]; intros s.
  - cbn [app regions_loop]. unfold bind at 1. rewrite Hskip.
    now destruct (regions_loop E data sort post s).
  - cbn [app regions_loop]. unfold bind.
    destruct (region_body E data sort r s) as [l1 [s1 [[]|e]]]; [|reflexivity].
    specialize (IH s1).
    destruct (regions_loop E data sort (pre ++ region :: post) s1).
    destruct (regions_loop E data sort (pre ++ post) s1).
    cbn in *. exact IH.
Qed.

(** ** What the entry point would do after the fetch *)

(* fetch_url without stream returns a value, None for every failure, and
   raises nothing *)
Lemma fetch_url_returns E url is_json is_gzipped h s :
  exists logs v,
    fetch_url E url is_json is_gzipped h false s = (logs, (s, Ok (Value v))).
Proof.
  unfold fetch_url, bind, catch, log, ret, raise, decode, gzip_read, loads.
  destruct (http_get E url h) as [|status body]; [cbn; eauto|].
  destruct ((400 <=? status)%nat && (status <? 600)%nat); [cbn; eauto|].
  destruct is_gzipped; cbn;
    [destruct (gunzip E body) as [e|raw]; cbn; [destruct e; cbn|]|];
    repeat match goal with
      | |- context [utf8_decode E ?b] => destruct (utf8_decode E b); cbn
      end;
    destruct is_json; cbn;
    repeat match goal with
      | |- context [json_loads E ?t] => destruct (json_loads E t); cbn
      end;
    eauto.
Qed.

(* on the value None the function logs the error and returns *)
Lemma playlists_from_none E regions sort s :
  playlists_from E PNone regions sort s
  = ([(ERROR, "Failed to fetch or parse PlutoTV data.")], (s, Ok tt)).
Proof. reflexivity. Qed.

(* a plain JSON body served where gzip was expected is parsed *)
Example fetch_plain_json :
  fetch_url (env_serving [x7b; x7d]) "u" true true None false fs_empty
  = ([(INFO, "Fetching URL: u");
      (INFO, "Decompressing gzipped content.");
      (WARNING, "Content was not gzipped, trying as plain text.");
      (INFO, "Parsing JSON data.")],
     (fs_empty, Ok (Value (PDict [])))).
Proof. reflexivity. Qed.

(* a name that is null: the sort falls back with a warning, then
   format_extinf raises, and nothing catches the exception *)
Example null_name_raises :
  regions_loop (env_serving [])
    (catalog_of [("us", region_of [("k", PDict [("name", PNone)])])])
    "name" ["us"; "all"] fs_empty
  = ([(INFO, "--- Generating lgchannels playlist for region: us ---");
      (WARNING, "Sorting failed for PlutoTV us, using default order. Error: ")],
     (fs_empty, Raise AttributeError)).
Proof. reflexivity. Qed.

(* the loop over two regions: a playlist each, in one directory *)
Example loop_two_regions :
  map fst (files (fs_of (regions_loop (env_serving []) catalog_news "name"
                           ["us"; "zz"; "all"] fs_empty)))
  = ["playlists/lgchannels_us.m3u"; "playlists/lgchannels_all.m3u"].
Proof. reflexivity. Qed.

(** ** Line breaks *)

Lemma occurs_app c a b :
  Str.occurs c (a ++ b) = Str.occurs c a || Str.occurs c b.
Proof.
  induction a as [|x a IH]; cbn; [reflexivity|].
  now rewrite IH, orb_assoc.
Qed.

Lemma subst_char_keeps a b c s :
  c <> a -> c <> b -> Str.occurs c (subst_char a b s) = Str.occurs c s.
Proof.
  intros Ha Hb. unfold subst_char.
  induction s as [|x s IH]; [reflexivity|].
  cbn [Str.map_chars Str.occurs]. rewrite IH.
  destruct (Ascii.eqb x a) eqn:Hx; [|reflexivity].
  apply Ascii.eqb_eq in Hx. subst x.
  apply Ascii.eqb_neq in Ha, Hb. now rewrite Ha, Hb.
Qed.

Lemma digit_not_newline c : Str.is_digit c = true -> Ascii.eqb newline c = false.
Proof.
  destruct c as [[] [] [] [] [] [] [] []]; cbn; intros H;
    first [reflexivity | discriminate H].
Qed.

Lemma digits_one_line s : Str.all_chars Str.is_digit s = true -> one_line s.
Proof.
  unfold one_line. induction s as [|c s IH]; [reflexivity|].
  cbn [Str.all_chars Str.occurs]. intros H.
  apply andb_true_iff in H. destruct H as [Hc Hs].
  now rewrite (digit_not_newline _ Hc), IH.
Qed.

Lemma chno_str_one_line v : one_line (chno_str v).
Proof.
  unfold chno_str.
  assert (forall t, one_line (if Str.isdigit t then t else EmptyString)) as H.
  { intros t. destruct (Str.isdigit t) eqn:Hd; [|reflexivity].
    now apply isdigit_no_newline. }
  destruct v; first [reflexivity | apply H].
Qed.

(** ** A catalog of the expected shape *)






(** ** The record behind an entry *)

Lemma add_channels_from entry_id extra channels :
  (forall ck, ~ In "name" (dict_keys (extra ck))) ->
  forall ctp0 ctp,
    add_channels entry_id extra channels ctp0 = Ok ctp ->
    forall k ch,
      dict_get ctp k = Some ch ->
      dict_get ctp0 k = Some ch \/
      exists ck info,
        In (ck, PDict info) channels /\
        dict_get ch "name" = dict_get info "name".
Proof.
  intros Hextra. induction channels as [|[ck0 ci0] rest IH];
    intros ctp0 ctp H k ch Hk.
  - cbn in H. injection H as <-. now left.
  - cbn [add_channels] in H.
    destruct ci0 as [| | | |?|info0]; try discriminate H.
    cbn [py_unpack res_bind] in H.
    destruct (IH _ _ H k ch Hk) as [H1|[ck [info [Hin Hn]]]].
    + destruct (String.eqb_spec (entry_id ck0) k) as [<-|Hne].
      * rewrite dict_get_set_same in H1. injection H1 as <-.
        right. exists ck0, info0. split; [now left|].
        now apply dict_update_get_other.
      * rewrite dict_get_set_other in H1 by exact Hne. now left.
    + right. exists ck, info. split; [now right | exact Hn].
Qed.

Lemma all_regions_channels_from regions :
  forall ctp0 ctp,
    all_regions_channels regions ctp0 = Ok ctp ->
    forall k ch,
      dict_get ctp k = Some ch ->
      dict_get ctp0 k = Some ch \/
      exists ck info,
        In (ck, PDict info) (flat_map (fun r => region_channels (snd r))
                               regions) /\
        dict_get ch "name" = dict_get info "name".
Proof.
  induction regions as [|[rk rd] rest IH]; intros ctp0 ctp H k ch Hk.
  - cbn in H. injection H as <-. now left.
  - cbn [all_regions_channels] in H.
    destruct rd as [| | | |?|rd]; try discriminate H.
    cbn [py_get res_bind] in H.
    destruct (dict_get_default rd "channels" (PDict [])) as [| | | |?|channels]
      eqn:Hch; try discriminate H.
    cbn [py_items res_bind] in H.
    destruct (add_channels _ _ channels ctp0) as [ctp1|] eqn:Hadd;
      [|discriminate H].
    cbn [res_bind] in H.
    cbn [flat_map snd region_channels]. rewrite Hch.
    destruct (IH _ _ H k ch Hk) as [H1|[ck [info [Hin Hn]]]].
    + refine (match @add_channels_from _ _ channels _ ctp0 ctp1 Hadd k ch H1
              with
              | or_introl H0 => or_introl H0
              | or_intror (ex_intro _ ck (ex_intro _ info (conj Hin Hn))) =>
                  or_intror _
              end).
      * intros ck0. cbn. intros Hc.
        repeat (destruct Hc as [Hc|Hc]; [discriminate Hc|]). exact Hc.
      * exists ck, info. split; [|exact Hn]. apply in_or_app. now left.
    + right. exists ck, info. split; [|exact Hn]. apply in_or_app. now right.
Qed.

(* the records of channels_to_process have the names of the catalog *)
Lemma select_channels_names data region ctp k ch :
  select_channels data region (is_all region) = Ok (Some ctp) ->
  dict_get ctp k = Some ch ->
  exists ck info,
    In (ck, PDict info) (channels_read data region) /\
    dict_get ch "name" = dict_get info "name".
Proof.
  unfold select_channels, channels_read.
  destruct data as [| | | |?|d]; try (destruct (is_all region); discriminate).
  cbn [py_get res_bind].
  destruct (dict_get_default d "regions" (PDict [])) as [| | | |?|regions];
    try (destruct (is_all region); discriminate).
  destruct (is_all region).
  - cbn [py_items res_bind].
    destruct (all_regions_channels regions []) as [ctp'|] eqn:Hall;
      [|discriminate].
    cbn [res_bind]. intros H Hk. injection H as <-.
    destruct (@all_regions_channels_from regions [] ctp' Hall k ch Hk)
      as [H0|H0]; [discriminate H0 | exact H0].
  - cbn [py_get res_bind]. unfold dict_get_default at 1 2.
    destruct (dict_get regions region) as [rd|]; [|discriminate].
    destruct (truthy rd); [|discriminate]. cbn [negb].
    unfold one_region_channels.
    destruct rd as [| | | |?|rd]; try discriminate.
    cbn [py_get res_bind region_channels].
    destruct (dict_get_default rd "channels" (PDict [])) as [| | | |?|channels];
      try discriminate.
    cbn [py_items res_bind].
    destruct (add_channels _ _ channels []) as [ctp'|] eqn:Hadd;
      [|discriminate].
    cbn [res_bind]. intros H Hk. injection H as <-.
    refine (match @add_channels_from _ _ channels _ [] ctp' Hadd k ch Hk with
            | or_introl H0 => _
            | or_intror H0 => H0
            end); [|discriminate H0].
    intros ck0. cbn. intros Hc.
    repeat (destruct Hc as [Hc|Hc]; [discriminate Hc|]). exact Hc.
Qed.

Lemma string_ltb_from_empty x : String.ltb EmptyString x = false -> x = EmptyString.
Proof. destruct x; [reflexivity | discriminate]. Qed.

Lemma sorted_before {A} (R : A -> A -> Prop) pre k post j :
  StronglySorted R (pre ++ k :: post) -> In j pre -> R j k.
Proof.
  induction pre as [|a pre IH]; [contradiction|].
  cbn [app]. intros Hs Hin. inversion Hs as [|? ? Hs' Hall]; subst.
  destruct Hin as [<-|Hin]; [|now apply IH].
  rewrite Forall_forall in Hall. apply Hall. apply in_or_app. right. now left.
Qed.

(* a key of the name sort is empty for a record without a name, or with
   the empty name, and for no other *)
Lemma name_key_empty (ctp : dict pydict) j :
  name_key ctp j = Ok EmptyString ->
  exists cj,
    dict_get ctp j = Some cj /\
    (dict_get cj "name" = None \/
     dict_get cj "name" = Some (PStr EmptyString)).
Proof.
  unfold name_key, py_index, dict_get_default.
  destruct (dict_get ctp j) as [cj|]; [|discriminate]. cbn [res_bind].
  intros H. exists cj. split; [reflexivity|].
  destruct (dict_get cj "name") as [[| | |n| |]|]; try discriminate H;
    [|now left].
  injection H as H. apply lower_empty in H. subst. now right.
Qed.

(** ** The warning of the sort *)

Lemma write_m3u_file_no_warning E filename content s entry :
  In entry (logs_of (write_m3u_file E filename content s)) ->
  fst entry <> WARNING.
Proof.
  unfold write_m3u_file, logs_of, bind, catch, ret, log, output_dir_exists,
    makedirs, open_write.
  destruct (dir_exists s); cbn;
    [|destruct (makedirs_ok E); cbn];
    try (destruct (open_error E (path_join OUTPUT_DIR filename)) as [[]|];
         cbn);
    intros H;
    repeat (destruct H as [<-|H]; [discriminate|]);
    destruct H.
Qed.

(* the warning of lines 154-156 is logged exactly when the sort raised *)
Lemma sort_warning_logged E data sort region s ctp es :
  select_channels data region (is_all region) = Ok (Some ctp) ->
  build_entries (is_all region) ctp (ids_used sort ctp) = Ok es ->
  In (WARNING, "Sorting failed for PlutoTV " ++ region
               ++ ", using default order. Error: ")
    (logs_of (region_body E data sort region s))
  <-> exists e, sort_channel_ids sort ctp = Raise e.
Proof.
  intros Hsel Hes. unfold logs_of. rewrite region_body_eq, Hsel, Hes.
  cbv zeta. cbn [fst]. unfold start_log, sort_log.
  destruct (sort_channel_ids sort ctp) as [ids|e]; cbn [app].
  - split.
    + intros [H|H]; [discriminate H|].
      apply (write_m3u_file_no_warning E _ _ s) in H. now destruct H.
    + intros [e He]. discriminate He.
  - split; [intros _; now exists e | intros _; right; now left].
Qed.

(** * The specification, statement by statement *)

(** ** The entry point *)

(** C1.  The claim: no run of generate_lgchannels_m3u lets an exception
    reach its caller.  The code: line 104 reads the name lgchannels_URL,
    which no scope binds (line 100 assigns LGCHANNELS_URL), so every run,
    whatever the environment, the regions and the sort mode, raises
    NameError before the fetch, with nothing logged and no file touched. *)
Theorem generate_raises_NameError (E : env) (regions : list string)
    (sort : string) (s : fs) :
  generate_lgchannels_m3u E regions sort s = ([], (s, Raise NameError)).
Proof. reflexivity. Qed.

(** ** Sorting by channel number *)

(** C2, as stated, fails: with channel numbers 5, None and 1 the key of
    the second entry is int(None), a TypeError; the except clause takes
    the keys as they are, and the playlist is written in the order 5,
    None, 1. *)
Lemma chno_none_keeps_catalog_order :
  exists ctp,
    select_channels catalog_chno_none "us" (is_all "us") = Ok (Some ctp) /\
    dict_keys ctp = ["a"; "b"; "c"] /\
    sort_channel_ids "chno" ctp = Raise TypeError /\
    files (fs_of (region_body (env_serving []) catalog_chno_none "chno" "us"
                    fs_empty))
    = [(us_path,
        Str.concat_all
          [playlist_header "us";
           extinf_line "a" "a" "5" "A" EmptyString "Uncategorized" "A"
             ++ stream_line "a";
           extinf_line "b" "b" EmptyString "B" EmptyString "Uncategorized" "B"
             ++ stream_line "b";
           extinf_line "c" "c" "1" "C" EmptyString "Uncategorized" "C"
             ++ stream_line "c"])].
Proof. eexists. repeat split. Qed.

(** C2, amended.  In every playlist that a turn of the loop writes with
    the sort mode chno: when int() accepts the channel number of every
    entry, an entry with no chno field counting as 99999, the entries are
    sorted by ascending number, equal numbers in catalog order, and no
    warning is logged; when int() refuses one of them (None, a str that
    is not a numeral), the warning of the sort is logged and the entries
    are in catalog order. *)
Theorem chno_sort_order (E : env) (data : pyval) (region : string)
    (s : fs) (p x : string)
    (Hin : In (p, x) (files (fs_of (region_body E data "chno" region s))))
    (Hnew : ~ In (p, x) (files s)) :
  exists ctp ids es,
    select_channels data region (is_all region) = Ok (Some ctp) /\
    dict_keys ctp = first_occurrences (catalog_ids data region) /\
    (if chno_keys_ok ctp
     then sort_channel_ids "chno" ctp = Ok ids /\ chno_sorted ctp ids /\
          ~ In (WARNING, "Sorting failed for PlutoTV " ++ region
                         ++ ", using default order. Error: ")
              (logs_of (region_body E data "chno" region s))
     else (exists e, sort_channel_ids "chno" ctp = Raise e) /\
          ids = dict_keys ctp /\
          In (WARNING, "Sorting failed for PlutoTV " ++ region
                       ++ ", using default order. Error: ")
            (logs_of (region_body E data "chno" region s))) /\
    build_entries (is_all region) ctp ids = Ok es /\
    x = Str.concat_all (playlist_header region :: es) /\
    (forall k ch,
       dict_get ctp k = Some ch ->
       (dict_get ch "chno" = None -> chno_key ctp k = Ok 99999%Z) /\
       (forall z, dict_get ch "chno" = Some (PInt z) ->
                  chno_key ctp k = Ok (jz z)) /\
       (forall b, dict_get ch "chno" = Some (PBool b) ->
                  chno_key ctp k = Ok (if b then 1 else 0)%Z) /\
       (forall t z, dict_get ch "chno" = Some (PStr t) ->
                    int_of_str t = Some z -> chno_key ctp k = Ok z) /\
       (forall t, dict_get ch "chno" = Some (PStr t) ->
                  int_of_str t = None -> chno_key ctp k = Raise ValueError) /\
       (forall v, dict_get ch "chno" = Some v ->
                  match v with
                  | PNone | PList _ | PDict _ => True
                  | _ => False
                  end ->
                  chno_key ctp k = Raise TypeError)).
Proof.
  destruct (@region_body_writes E data "chno" region s p x Hin Hnew)
    as [ctp [es [Hsel [Hes [_ Hx]]]]].
  pose proof (@sort_warning_logged E data "chno" region s ctp es Hsel Hes)
    as Hwarn.
  exists ctp, (ids_used "chno" ctp), es.
  split; [exact Hsel|].
  split; [now apply select_channels_keys|].
  split.
  { unfold ids_used. destruct (chno_keys_ok ctp) eqn:Hok.
    - rewrite (@chno_sort_eq ctp Hok) in *.
      split; [reflexivity|]. split; [apply chno_sorted_sort_k|].
      intros H. apply Hwarn in H. destruct H as [e He]. discriminate He.
    - destruct (@chno_sort_raise ctp Hok) as [e He]. rewrite He.
      split; [now exists e|]. split; [reflexivity|].
      apply Hwarn. now exists e. }
  split; [exact Hes|]. split; [exact Hx|].
  intros k ch Hk. unfold chno_key, py_index, dict_get_default.
  rewrite Hk. cbn [res_bind].
  split; [now intros ->|].
  split; [now intros z ->|].
  split; [now intros b ->|].
  split; [intros t z -> Hz; cbn; now rewrite Hz|].
  split; [intros t -> Hz; cbn; now rewrite Hz|].
  intros v -> Hv. destruct v; first [reflexivity | destruct Hv].
Qed.

Lemma chno_sort_order_witness :
  exists ctp ids es,
    select_channels catalog_chno "us" (is_all "us") = Ok (Some ctp) /\
    dict_keys ctp = first_occurrences (catalog_ids catalog_chno "us") /\
    (if chno_keys_ok ctp
     then sort_channel_ids "chno" ctp = Ok ids /\ chno_sorted ctp ids /\
          ~ In (WARNING, "Sorting failed for PlutoTV " ++ "us"
                         ++ ", using default order. Error: ")
              (logs_of (region_body (env_serving []) catalog_chno "chno" "us"
                          fs_empty))
     else (exists e, sort_channel_ids "chno" ctp = Raise e) /\
          ids = dict_keys ctp /\
          In (WARNING, "Sorting failed for PlutoTV " ++ "us"
                       ++ ", using default order. Error: ")
            (logs_of (region_body (env_serving []) catalog_chno "chno" "us"
                        fs_empty))) /\
    build_entries (is_all "us") ctp ids = Ok es /\
    chno_playlist = Str.concat_all (playlist_header "us" :: es) /\
    (forall k ch,
       dict_get ctp k = Some ch ->
       (dict_get ch "chno" = None -> chno_key ctp k = Ok 99999%Z) /\
       (forall z, dict_get ch "chno" = Some (PInt z) ->
                  chno_key ctp k = Ok (jz z)) /\
       (forall b, dict_get ch "chno" = Some (PBool b) ->
                  chno_key ctp k = Ok (if b then 1 else 0)%Z) /\
       (forall t z, dict_get ch "chno" = Some (PStr t) ->
                    int_of_str t = Some z -> chno_key ctp k = Ok z) /\
       (forall t, dict_get ch "chno" = Some (PStr t) ->
                  int_of_str t = None -> chno_key ctp k = Raise ValueError) /\
       (forall v, dict_get ch "chno" = Some v ->
                  match v with
                  | PNone | PList _ | PDict _ => True
                  | _ => False
                  end ->
                  chno_key ctp k = Raise TypeError)).
Proof.
  apply (@chno_sort_order (env_serving []) catalog_chno "us" fs_empty
           us_path chno_playlist).
  - left. reflexivity.
  - intros [].
Defined.

(** ** Sanitization of names *)

(** C3, as stated, fails: with the name of a channel given both as
    tvg_name and as display_name, as line 168 does, its double quote
    becomes a single quote inside the tvg-name attribute but is still a
    double quote after the comma of the metadata line. *)
Lemma display_name_keeps_quote :
  format_extinf (PStr "id1") (PStr "id1") PNone (PStr ("a" ++ q ++ "b"))
    (PStr EmptyString) (PStr "G") (PStr ("a" ++ q ++ "b"))
  = Ok ("#EXTINF:-1 "
        ++ attr "channel-id" "id1" " "
        ++ attr "tvg-id" "id1" " "
        ++ attr "tvg-chno" EmptyString " "
        ++ attr "tvg-name" "a'b" " "
        ++ attr "tvg-logo" EmptyString " "
        ++ attr "group-title" "G" ","
        ++ ("a" ++ q ++ "b") ++ nl).
Proof. reflexivity. Qed.

(** C3, amended.  For str arguments, format_extinf writes the tvg-name
    attribute from tvg_name and the group-title attribute from
    group_title with every double quote turned into a single quote, and
    writes display_name after the comma with its commas removed; the
    double quotes of display_name stay as they are. *)
Theorem format_extinf_sanitizes
    (cid tid chno logo : pyval) (n g d : string) :
  format_extinf cid tid chno (PStr n) logo (PStr g) (PStr d)
  = Ok ("#EXTINF:-1 "
        ++ attr "channel-id" (py_str cid) " "
        ++ attr "tvg-id" (py_str tid) " "
        ++ attr "tvg-chno" (chno_str chno) " "
        ++ attr "tvg-name" (subst_char dquote "'" n) " "
        ++ attr "tvg-logo" (py_str logo) " "
        ++ attr "group-title" (subst_char dquote "'" g) ","
        ++ remove_char "," d ++ nl)
  /\ Str.occurs dquote (subst_char dquote "'" n) = false
  /\ Str.occurs dquote (subst_char dquote "'" g) = false
  /\ Str.occurs "," (remove_char "," d) = false
  /\ Str.occurs dquote (remove_char "," d) = Str.occurs dquote d.
Proof.
  split; [apply format_extinf_str|].
  split; [apply subst_char_occurs; discriminate|].
  split; [apply subst_char_occurs; discriminate|].
  split; [apply remove_char_occurs|].
  apply remove_char_keeps. discriminate.
Qed.

(** ** The channel number field *)

(** C4.  The tvg-chno field is the text of the channel number when that
    text is all digits in the sense of str.isdigit (a str of digits, or
    an int that is not negative) and is empty for every other value; in
    an ASCII text the digits are the ten digits.  "7" gives 7, and None,
    "7.5" and "-3" give the empty field. *)
Theorem chno_field_all_digits (v : pyval) :
  chno_str v =
    match v with
    | PStr s => if Str.isdigit s then s else EmptyString
    | PInt z => if (0 <=? jz z)%Z then str_of_Z (jz z) else EmptyString
    | _ => EmptyString
    end
  /\ (chno_str v <> EmptyString ->
      v <> PNone /\ Str.isdigit (py_str v) = true /\ chno_str v = py_str v)
  /\ (forall s,
        Str.is_ascii s = true ->
        Str.isdigit s = negb (s =? "") && Str.all_chars Str.is_digit s)
  /\ (forall cid tid logo n g d,
        format_extinf cid tid v (PStr n) logo (PStr g) (PStr d)
        = Ok ("#EXTINF:-1 "
              ++ attr "channel-id" (py_str cid) " "
              ++ attr "tvg-id" (py_str tid) " "
              ++ attr "tvg-chno" (chno_str v) " "
              ++ attr "tvg-name" (subst_char dquote "'" n) " "
              ++ attr "tvg-logo" (py_str logo) " "
              ++ attr "group-title" (subst_char dquote "'" g) ","
              ++ remove_char "," d ++ nl))
  /\ chno_str (PStr "7") = "7"
  /\ chno_str (pint 7) = "7"
  /\ chno_str PNone = EmptyString
  /\ chno_str (PStr "7.5") = EmptyString
  /\ chno_str (PStr "-3") = EmptyString
  /\ chno_str (pint (-3)) = EmptyString
  /\ chno_str (PStr arabic_three) = arabic_three
  /\ chno_str (PStr superscript_two) = superscript_two.
Proof.
  split.
  { destruct v as [|[|]|z|s|l|d]; try reflexivity.
    - unfold chno_str. cbn [py_str py_repr]. now rewrite isdigit_str_of_Z.
    - unfold chno_str. cbn [py_str py_repr append].
      now rewrite isdigit_head.
    - unfold chno_str. cbn [py_str py_repr append].
      now rewrite isdigit_head. }
  split.
  { unfold chno_str. destruct v as [|b|z|s|l|d]; [congruence|..];
      (destruct (Str.isdigit _) eqn:Hd; [|congruence]);
      intros _; (split; [discriminate|]); split; try reflexivity; exact Hd. }
  split; [exact isdigit_ascii|].
  split; [intros; apply format_extinf_str|].
  repeat split; reflexivity.
Qed.

(** ** The merged playlist *)






(* the merged playlist of the two regions, as written *)
Example merged_news_playlist :
  file_get (fs_of (region_body (env_serving []) catalog_news "name" "all"
                     fs_empty)) (playlist_path "all")
  = Some
      (Str.concat_all
         [playlist_header "all";
          extinf_line "news1-us" "news1" EmptyString "News One" EmptyString
            "United States" "News One" ++ stream_line "news1";
          extinf_line "news1-ca" "news1" EmptyString "News Un" EmptyString
            "Canada" "News Un" ++ stream_line "news1"]).
Proof. reflexivity. Qed.

(* a region code that the table does not have, in capitals: the sharp s
   becomes SS *)
Example upper_sharp_s :
  region_display_name ("x" ++ sharp_s) = "XSS"
  /\ region_display_name "us" = "United States".
Proof. split; reflexivity. Qed.

(** ** A region that the catalog does not have *)

(** C6, as stated, fails: ALL is another string than all and no region
    of the catalog has this name, yet line 122 compares the lowercased
    name, so the turn for ALL is a merged one: no warning, and the file
    lgchannels_ALL.m3u is written. *)
Lemma uppercase_all_is_merged :
  ("ALL" =? "all") = false
  /\ dict_get regions_names "ALL" = None
  /\ region_body (env_serving []) catalog_names "name" "ALL" fs_empty
     = ([(INFO, "--- Generating lgchannels playlist for region: ALL ---");
         (INFO, "Creating output directory: playlists");
         (INFO, "Successfully wrote playlist to playlists/lgchannels_ALL.m3u")],
        (mkfs true
           [("playlists/lgchannels_ALL.m3u",
             Str.concat_all
               [playlist_header "ALL";
                extinf_line "a-us" "a" EmptyString "apple" EmptyString
                  "United States" "apple" ++ stream_line "a";
                extinf_line "z-us" "z" EmptyString "Zebra" EmptyString
                  "United States" "Zebra" ++ stream_line "z"])],
         Ok tt)).
Proof. repeat split. Qed.

(** C6, amended.  For a requested region whose lowercased name is not
    all and that the regions of the catalog do not have, the turn of the
    loop logs the warning and nothing else happens: no file is written,
    no exception is raised; the loop over the requested regions leaves
    the files, and raises or not, exactly as it does without this
    region. *)
Theorem missing_region_skipped (E : env) (data : pyval) (sort region : string)
    (regions : pydict) (pre post : list string) (s : fs)
    (Hregions : py_get data "regions" (PDict []) = Ok (PDict regions))
    (Habsent : dict_get regions region = None)
    (Hnot_all : is_all region = false) :
  region_body E data sort region s
  = ([(INFO, "--- Generating lgchannels playlist for region: " ++ region
             ++ " ---");
      (WARNING, "Region '" ++ region
                ++ "' not found in PlutoTV data. Skipping.")],
     (s, Ok tt))
  /\ snd (regions_loop E data sort (pre ++ region :: post) s)
     = snd (regions_loop E data sort (pre ++ post) s).
Proof.
  assert (forall s', region_body E data sort region s'
                     = ((start_log region ++ skip_log region)%list,
                        (s', Ok tt))) as Hskip.
  { intros s'. rewrite region_body_eq.
    unfold select_channels. rewrite Hnot_all, Hregions.
    cbn [res_bind py_get]. unfold dict_get_default. now rewrite Habsent. }
  split; [apply Hskip|].
  eapply regions_loop_skip. exact Hskip.
Qed.

Lemma missing_region_skipped_witness :
  region_body (env_serving []) catalog_names "name" "zz" fs_empty
  = ([(INFO, "--- Generating lgchannels playlist for region: " ++ "zz"
             ++ " ---");
      (WARNING, "Region '" ++ "zz"
                ++ "' not found in PlutoTV data. Skipping.")],
     (fs_empty, Ok tt))
  /\ snd (regions_loop (env_serving []) catalog_names "name"
            (["us"] ++ "zz" :: ["all"]) fs_empty)
     = snd (regions_loop (env_serving []) catalog_names "name"
              (["us"] ++ ["all"]) fs_empty).
Proof.
  exact (@missing_region_skipped (env_serving []) catalog_names "name" "zz"
           regions_names ["us"] ["all"] fs_empty eq_refl eq_refl eq_refl).
Defined.

(** ** Sorting by name *)

(** C7.  In every playlist that a turn of the loop writes with a sort
    mode other than chno, the entries are the keys of
    channels_to_process (which holds the channels in catalog iteration
    order) sorted by ascending lowercased name, a record with no name
    having the empty key, below which there is none, and entries of
    equal key in their catalog order.  Names Zebra and apple come out
    apple first. *)
Theorem name_sort_order (E : env) (data : pyval) (sort region : string)
    (s : fs) (p x : string)
    (Hsort : sort <> "chno")
    (Hin : In (p, x) (files (fs_of (region_body E data sort region s))))
    (Hnew : ~ In (p, x) (files s)) :
  exists ctp ids es,
    select_channels data region (is_all region) = Ok (Some ctp) /\
    dict_keys ctp = first_occurrences (catalog_ids data region) /\
    sort_channel_ids sort ctp = Ok ids /\
    name_sorted ctp ids /\
    build_entries (is_all region) ctp ids = Ok es /\
    x = Str.concat_all (playlist_header region :: es) /\
    (forall k ch,
       dict_get ctp k = Some ch ->
       (dict_get ch "name" = None -> name_sort_key ctp k = EmptyString) /\
       (forall n, dict_get ch "name" = Some (PStr n) ->
                  name_sort_key ctp k = Str.lower n)) /\
    (forall k, String.ltb k EmptyString = false) /\
    default_sort = "name" /\
    sort_channel_ids "name"
      [("z", [("name", PStr "Zebra")]); ("a", [("name", PStr "apple")])]
    = Ok ["a"; "z"] /\
    sort_channel_ids "name"
      [("y", [("name", PStr name_AE_b)]); ("x", [("name", PStr name_ae_a)])]
    = Ok ["x"; "y"].
Proof.
  destruct (@region_body_writes E data sort region s p x Hin Hnew)
    as [ctp [es [Hsel [Hes [_ Hx]]]]].
  pose proof (@name_sort_eq sort ctp Hsort
                (@written_name_keys _ sort ctp es Hsort Hes)) as Hids.
  unfold ids_used in Hes. rewrite Hids in Hes.
  exists ctp, (sort_k String.ltb (name_sort_key ctp) (dict_keys ctp)), es.
  split; [exact Hsel|].
  split; [now apply select_channels_keys|]. split; [exact Hids|].
  split; [apply name_sorted_sort_k|].
  split; [exact Hes|]. split; [exact Hx|].
  split.
  { intros k ch Hk. unfold name_sort_key, name_key, py_index, dict_get_default.
    rewrite Hk. cbn [res_bind]. split.
    - now intros ->.
    - now intros n ->. }
  split; [apply string_ltb_empty|]. repeat split; reflexivity.
Qed.

Lemma name_sort_order_witness :
  exists ctp ids es,
    select_channels catalog_names "us" (is_all "us") = Ok (Some ctp) /\
    dict_keys ctp = first_occurrences (catalog_ids catalog_names "us") /\
    sort_channel_ids "name" ctp = Ok ids /\
    name_sorted ctp ids /\
    build_entries (is_all "us") ctp ids = Ok es /\
    names_playlist = Str.concat_all (playlist_header "us" :: es) /\
    (forall k ch,
       dict_get ctp k = Some ch ->
       (dict_get ch "name" = None -> name_sort_key ctp k = EmptyString) /\
       (forall n, dict_get ch "name" = Some (PStr n) ->
                  name_sort_key ctp k = Str.lower n)) /\
    (forall k, String.ltb k EmptyString = false) /\
    default_sort = "name" /\
    sort_channel_ids "name"
      [("z", [("name", PStr "Zebra")]); ("a", [("name", PStr "apple")])]
    = Ok ["a"; "z"] /\
    sort_channel_ids "name"
      [("y", [("name", PStr name_AE_b)]); ("x", [("name", PStr name_ae_a)])]
    = Ok ["x"; "y"].
Proof.
  apply (@name_sort_order (env_serving []) catalog_names "name" "us" fs_empty
           us_path names_playlist).
  - discriminate.
  - left. reflexivity.
  - intros [].
Defined.

(** ** The gzip fallback of fetch_url *)

(** C8, as stated, fails: the body is the gzip magic and nothing more,
    the reader raises EOFError, which is not BadGzipFile; fetch_url logs
    the error, raises it again and returns None, without trying the body
    as plain text. *)
Lemma truncated_gzip_returns_none :
  fetch_url (env_serving [x1f; x8b]) "u" true true None false fs_empty
  = ([(INFO, "Fetching URL: u");
      (INFO, "Decompressing gzipped content.");
      (ERROR, "Error decompressing gzip: ");
      (ERROR, "An unexpected error occurred for u: ")],
     (fs_empty, Ok (Value PNone))).
Proof. reflexivity. Qed.

(** C8, amended.  On a response with a good status and is_gzipped set:
    when the gzip reader raises BadGzipFile, fetch_url logs the warning
    and goes on with the body as plain text, so that it returns what the
    call without is_gzipped returns (the text, or its parsed JSON when
    is_json is set); when the reader raises any other exception,
    fetch_url logs the error of the decompression, then the error line
    of the handler of line 53, 56 or 59 that takes the exception, and
    returns None, the body left unread. *)
Theorem gzip_fallback (E : env) (url : string)
    (h : option (list (string * string))) (status : nat)
    (body : list Byte.byte) (s : fs)
    (Hget : http_get E url h = Response status body)
    (Hstatus : ((400 <=? status)%nat && (status <? 600)%nat) = false) :
  (gunzip E body = inl BadGzipFile ->
     (forall is_json,
        result_of (fetch_url E url is_json true h false s)
        = result_of (fetch_url E url is_json false h false s)
        /\ In (WARNING, "Content was not gzipped, trying as plain text.")
             (logs_of (fetch_url E url is_json true h false s)))
     /\ (forall text,
           utf8_decode E body = Some text ->
           result_of (fetch_url E url false true h false s)
           = Ok (Value (PStr text))
           /\ forall v,
                json_loads E text = Some v ->
                result_of (fetch_url E url true true h false s)
                = Ok (Value v)))
  /\ (forall e,
        gunzip E body = inl e -> e <> BadGzipFile ->
        forall is_json,
          result_of (fetch_url E url is_json true h false s)
          = Ok (Value PNone)
          /\ logs_of (fetch_url E url is_json true h false s)
             = [(INFO, "Fetching URL: " ++ url);
                (INFO, "Decompressing gzipped content.");
                (ERROR, "Error decompressing gzip: ");
                (ERROR,
                 match e with
                 | RequestException => "Error fetching " ++ url ++ ": "
                 | JSONDecodeError =>
                     "Error decoding JSON from " ++ url ++ ": "
                 | _ => "An unexpected error occurred for " ++ url ++ ": "
                 end)]).
Proof.
  split.
  - intros Hgz. split.
    + intros is_json.
      unfold fetch_url, result_of, logs_of, bind, catch, decode, gzip_read,
        loads, log, ret, raise.
      rewrite Hget, Hstatus, Hgz.
      destruct (utf8_decode E body) as [text|]; cbn.
      * destruct is_json; cbn; [|split; [reflexivity | tauto]].
        destruct (json_loads E text); cbn; (split; [reflexivity | tauto]).
      * split; [reflexivity | tauto].
    + intros text Htext.
      unfold fetch_url, result_of, bind, catch, decode, gzip_read, loads, log,
      ret, raise.
      rewrite Hget, Hstatus, Hgz, Htext. cbn.
      split; [reflexivity|]. intros v Hv. now rewrite Hv.
  - intros e He Hne is_json.
    unfold fetch_url, result_of, logs_of, bind, catch, decode, gzip_read,
      loads, log, ret, raise.
    rewrite Hget, Hstatus, He.
    destruct e; cbn; try congruence; (split; reflexivity).
Qed.

Lemma gzip_fallback_witness :
  (gunzip (env_serving [x7b; x7d]) [x7b; x7d] = inl BadGzipFile ->
     (forall is_json,
        result_of (fetch_url (env_serving [x7b; x7d]) "u" is_json true None
                     false fs_empty)
        = result_of (fetch_url (env_serving [x7b; x7d]) "u" is_json false None
                       false fs_empty)
        /\ In (WARNING, "Content was not gzipped, trying as plain text.")
             (logs_of (fetch_url (env_serving [x7b; x7d]) "u" is_json true
                         None false fs_empty)))
     /\ (forall text,
           utf8_decode (env_serving [x7b; x7d]) [x7b; x7d] = Some text ->
           result_of (fetch_url (env_serving [x7b; x7d]) "u" false true None
                        false fs_empty)
           = Ok (Value (PStr text))
           /\ forall v,
                json_loads (env_serving [x7b; x7d]) text = Some v ->
                result_of (fetch_url (env_serving [x7b; x7d]) "u" true true
                             None false fs_empty)
                = Ok (Value v)))
  /\ (forall e,
        gunzip (env_serving [x7b; x7d]) [x7b; x7d] = inl e ->
        e <> BadGzipFile ->
        forall is_json,
          result_of (fetch_url (env_serving [x7b; x7d]) "u" is_json true None
                       false fs_empty)
          = Ok (Value PNone)
          /\ logs_of (fetch_url (env_serving [x7b; x7d]) "u" is_json true
                        None false fs_empty)
             = [(INFO, "Fetching URL: " ++ "u");
                (INFO, "Decompressing gzipped content.");
                (ERROR, "Error decompressing gzip: ");
                (ERROR,
                 match e with
                 | RequestException => "Error fetching " ++ "u" ++ ": "
                 | JSONDecodeError =>
                     "Error decoding JSON from " ++ "u" ++ ": "
                 | _ => "An unexpected error occurred for " ++ "u" ++ ": "
                 end)]).
Proof.
  exact (gzip_fallback (env_serving [x7b; x7d]) "u" None (status := 200)
           (body := [x7b; x7d]) fs_empty eq_refl eq_refl).
Defined.

(** ** The format of a playlist *)

(** C9, as stated, fails: a line break in the name of a channel is
    written as it is, in the tvg-name attribute and after the comma, so
    that the metadata of the channel is not one line. *)
Lemma line_break_in_name :
  exists m,
    files (fs_of (region_body (env_serving []) catalog_two_lines "name" "us"
                    fs_empty))
    = [(us_path, playlist_header "us" ++ m ++ nl ++ stream_line "k")]
    /\ m = "#EXTINF:-1 channel-id=" ++ q ++ "k" ++ q
           ++ " tvg-id=" ++ q ++ "k" ++ q
           ++ " tvg-chno=" ++ q ++ q
           ++ " tvg-name=" ++ q ++ "a" ++ nl ++ "b" ++ q
           ++ " tvg-logo=" ++ q ++ q
           ++ " group-title=" ++ q ++ "Uncategorized" ++ q
           ++ "," ++ "a" ++ nl ++ "b"
    /\ Str.occurs newline m = true.
Proof.
  exists ("#EXTINF:-1 channel-id=" ++ q ++ "k" ++ q
          ++ " tvg-id=" ++ q ++ "k" ++ q
          ++ " tvg-chno=" ++ q ++ q
          ++ " tvg-name=" ++ q ++ "a" ++ nl ++ "b" ++ q
          ++ " tvg-logo=" ++ q ++ q
          ++ " group-title=" ++ q ++ "Uncategorized" ++ q
          ++ "," ++ "a" ++ nl ++ "b").
  repeat split.
Qed.

(** C9, amended.  Every playlist that a turn of the loop writes is the
    header text #EXTM3U url-tvg= with the EPG URL of the region in
    quotes and a line break, then, for the keys of channels_to_process
    in the order the sort step left, the metadata text (#EXTINF:-1,
    then channel-id, tvg-id, tvg-chno, tvg-name, tvg-logo and
    group-title in this order, each with its value in quotes, then a
    comma and the display name) with a line break and the stream URL of
    the channel with a line break.  The values are written as they are:
    each of these texts is one line when the region code and the key,
    the name, the logo and the group label of the channel hold no line
    break. *)
Theorem playlist_format (E : env) (data : pyval) (sort region : string)
    (s : fs) (p x : string)
    (Hin : In (p, x) (files (fs_of (region_body E data sort region s))))
    (Hnew : ~ In (p, x) (files s)) :
  exists ctp ids es h,
    select_channels data region (is_all region) = Ok (Some ctp) /\
    dict_keys ctp = first_occurrences (catalog_ids data region) /\
    result_of (sorted_channel_ids sort region ctp s) = Ok ids /\
    Permutation ids (dict_keys ctp) /\
    p = "playlists/lgchannels_" ++ region ++ ".m3u" /\
    h = "#EXTM3U url-tvg=" ++ q
        ++ "https://github.com/matthuisman/i.mjh.nz/raw/master/PlutoTV/"
        ++ region ++ ".xml.gz" ++ q /\
    (one_line region -> one_line h) /\
    x = h ++ nl ++ Str.concat_all es /\
    Forall2
      (fun id e =>
         exists (ch : pydict) n g oid m,
           dict_get ctp id = Some ch /\
           dict_get_default ch "name" (PStr "Unknown Channel") = PStr n /\
           group_of (is_all region) ch = PStr g /\
           dict_get_default ch "original_id" (PStr (Str.split_head "-" id))
           = PStr oid /\
           m = "#EXTINF:-1 channel-id=" ++ q ++ id ++ q
               ++ " tvg-id=" ++ q ++ oid ++ q
               ++ " tvg-chno=" ++ q
               ++ chno_str (dict_get_default ch "chno" PNone) ++ q
               ++ " tvg-name=" ++ q ++ subst_char dquote "'" n ++ q
               ++ " tvg-logo=" ++ q
               ++ py_str (dict_get_default ch "logo" (PStr EmptyString)) ++ q
               ++ " group-title=" ++ q ++ subst_char dquote "'" g ++ q
               ++ "," ++ remove_char "," n /\
           e = m ++ nl ++ "https://jmp2.uk/plu-" ++ oid ++ ".m3u8" ++ nl /\
           (one_line id -> one_line oid -> one_line n -> one_line g ->
            one_line (py_str (dict_get_default ch "logo" (PStr EmptyString))) ->
            one_line m /\ one_line ("https://jmp2.uk/plu-" ++ oid ++ ".m3u8")))
      ids es.
Proof.
  destruct (@region_body_writes E data sort region s p x Hin Hnew)
    as [ctp [es [Hsel [Hes [Hp Hx]]]]].
  exists ctp, (ids_used sort ctp), es. eexists.
  split; [exact Hsel|].
  split; [now apply select_channels_keys|].
  split; [now rewrite sorted_channel_ids_eq|].
  split; [apply ids_used_perm|].
  split; [exact Hp|].
  split; [reflexivity|].
  split.
  { unfold one_line. intros Hr. rewrite !occurs_app, Hr. reflexivity. }
  split.
  { rewrite Hx. cbn [Str.concat_all]. unfold playlist_header, attr.
    rewrite epg_url_resolved. now rewrite !str_app_assoc. }
  apply build_entries_forall2 in Hes.
  eapply Forall2_impl; [|exact Hes].
  intros id e He. apply channel_entry_inv in He.
  destruct He as [ch [n [g [oid [Hch [Hn [Hg [Ho ->]]]]]]]].
  exists ch, n, g, oid. eexists.
  repeat (split; [first [assumption | reflexivity]|]).
  split.
  { rewrite extinf_line_text. unfold stream_line. now rewrite !str_app_assoc. }
  unfold one_line. intros Hid Hoid Hnn Hgg Hlogo.
  pose proof (chno_str_one_line (dict_get_default ch "chno" PNone)) as Hc.
  unfold one_line in Hc.
  rewrite !occurs_app, Hid, Hoid, Hc, Hlogo.
  rewrite !subst_char_keeps by discriminate.
  rewrite remove_char_keeps by discriminate.
  rewrite Hnn, Hgg. split; reflexivity.
Qed.

Lemma playlist_format_witness :
  exists ctp ids es h,
    select_channels catalog_names "us" (is_all "us") = Ok (Some ctp) /\
    dict_keys ctp = first_occurrences (catalog_ids catalog_names "us") /\
    result_of (sorted_channel_ids "name" "us" ctp fs_empty) = Ok ids /\
    Permutation ids (dict_keys ctp) /\
    us_path = "playlists/lgchannels_" ++ "us" ++ ".m3u" /\
    h = "#EXTM3U url-tvg=" ++ q
        ++ "https://github.com/matthuisman/i.mjh.nz/raw/master/PlutoTV/"
        ++ "us" ++ ".xml.gz" ++ q /\
    (one_line "us" -> one_line h) /\
    names_playlist = h ++ nl ++ Str.concat_all es /\
    Forall2
      (fun id e =>
         exists (ch : pydict) n g oid m,
           dict_get ctp id = Some ch /\
           dict_get_default ch "name" (PStr "Unknown Channel") = PStr n /\
           group_of (is_all "us") ch = PStr g /\
           dict_get_default ch "original_id" (PStr (Str.split_head "-" id))
           = PStr oid /\
           m = "#EXTINF:-1 channel-id=" ++ q ++ id ++ q
               ++ " tvg-id=" ++ q ++ oid ++ q
               ++ " tvg-chno=" ++ q
               ++ chno_str (dict_get_default ch "chno" PNone) ++ q
               ++ " tvg-name=" ++ q ++ subst_char dquote "'" n ++ q
               ++ " tvg-logo=" ++ q
               ++ py_str (dict_get_default ch "logo" (PStr EmptyString)) ++ q
               ++ " group-title=" ++ q ++ subst_char dquote "'" g ++ q
               ++ "," ++ remove_char "," n /\
           e = m ++ nl ++ "https://jmp2.uk/plu-" ++ oid ++ ".m3u8" ++ nl /\
           (one_line id -> one_line oid -> one_line n -> one_line g ->
            one_line (py_str (dict_get_default ch "logo" (PStr EmptyString))) ->
            one_line m /\ one_line ("https://jmp2.uk/plu-" ++ oid ++ ".m3u8")))
      ids es.
Proof.
  apply (@playlist_format (env_serving []) catalog_names "name" "us" fs_empty
           us_path names_playlist).
  - left. reflexivity.
  - intros [].
Defined.

(** ** Records without a name *)

(** C10.  In every playlist that a turn of the loop writes with a sort
    mode other than chno, a record with no name field (the record of a
    catalog channel that has none) has the empty string as the key of
    the sort, so that it stands before every record with a name that is
    not empty: the entries before it have no name either, or the empty
    name.  Its entry carries Unknown Channel both as tvg-name and after
    the comma. *)
Theorem missing_name_unknown_channel (E : env) (data : pyval)
    (sort region : string) (s : fs) (p x : string)
    (Hsort : sort <> "chno")
    (Hin : In (p, x) (files (fs_of (region_body E data sort region s))))
    (Hnew : ~ In (p, x) (files s)) :
  exists ctp ids es,
    select_channels data region (is_all region) = Ok (Some ctp) /\
    sort_channel_ids sort ctp = Ok ids /\
    build_entries (is_all region) ctp ids = Ok es /\
    x = Str.concat_all (playlist_header region :: es) /\
    Forall2 (fun id e => channel_entry (is_all region) ctp id = Ok e) ids es /\
    (forall k ch,
       dict_get ctp k = Some ch ->
       exists ck info,
         In (ck, PDict info) (channels_read data region) /\
         dict_get ch "name" = dict_get info "name") /\
    (forall k ch,
       dict_get ctp k = Some ch ->
       dict_get ch "name" = None ->
       name_key ctp k = Ok EmptyString /\
       (forall pre post j,
          ids = (pre ++ k :: post)%list -> In j pre ->
          exists cj,
            dict_get ctp j = Some cj /\
            (dict_get cj "name" = None \/
             dict_get cj "name" = Some (PStr EmptyString))) /\
       exists g oid,
         group_of (is_all region) ch = PStr g /\
         dict_get_default ch "original_id" (PStr (Str.split_head "-" k))
         = PStr oid /\
         channel_entry (is_all region) ctp k
         = Ok (extinf_line k oid
                 (chno_str (dict_get_default ch "chno" PNone))
                 "Unknown Channel"
                 (py_str (dict_get_default ch "logo" (PStr EmptyString)))
                 (subst_char dquote "'" g) "Unknown Channel"
               ++ stream_line oid)).
Proof.
  destruct (@region_body_writes E data sort region s p x Hin Hnew)
    as [ctp [es [Hsel [Hes [_ Hx]]]]].
  pose proof (@written_name_keys _ sort ctp es Hsort Hes) as Hkeys.
  pose proof (@name_sort_eq sort ctp Hsort Hkeys) as Hids.
  unfold ids_used in Hes. rewrite Hids in Hes.
  pose proof (name_sorted_sort_k ctp) as [Hperm [Hsorted _]].
  exists ctp, (sort_k String.ltb (name_sort_key ctp) (dict_keys ctp)), es.
  split; [exact Hsel|]. split; [exact Hids|]. split; [exact Hes|].
  split; [exact Hx|].
  split; [now apply build_entries_forall2|].
  split; [intros k ch Hk; exact (select_channels_names _ _ _ Hsel Hk)|].
  intros k ch Hk Hname.
  assert (name_key ctp k = Ok EmptyString) as Hkey.
  { unfold name_key, py_index, dict_get_default. rewrite Hk.
    cbn [res_bind]. now rewrite Hname. }
  split; [exact Hkey|]. split.
  - intros pre post j Hsplit Hj.
    rewrite Hsplit in Hsorted, Hperm.
    pose proof (sorted_before _ _ _ _ Hsorted Hj) as Hle.
    unfold key_le, name_sort_key in Hle. rewrite Hkey in Hle.
    assert (In j (dict_keys ctp)) as Hjin.
    { apply (Permutation_in j Hperm). apply in_or_app. now left. }
    destruct (Hkeys j Hjin) as [v Hv]. rewrite Hv in Hle.
    apply string_ltb_from_empty in Hle. subst v.
    now apply name_key_empty.
  - assert (In k (sort_k String.ltb (name_sort_key ctp) (dict_keys ctp)))
      as Hkin.
    { apply (Permutation_in k (Permutation_sym Hperm)).
      unfold dict_keys. apply in_map_iff.
      clear - Hk. induction ctp as [|[k0 c0] ctp IH]; [discriminate|].
      cbn in Hk. destruct (k0 =? k)%string eqn:Heq.
      - apply String.eqb_eq in Heq. subst.
        exists (k, c0). split; [reflexivity | now left].
      - destruct (IH Hk) as [y [Hy Hin]].
        exists y. split; [exact Hy | now right]. }
    destruct (build_entries_ok _ _ _ Hes k Hkin) as [e He].
    destruct (channel_entry_inv _ _ _ He)
      as [ch' [n [g [oid [Hch' [Hn [Hg [Ho _]]]]]]]].
    rewrite Hk in Hch'. injection Hch' as <-.
    exists g, oid. split; [exact Hg|]. split; [exact Ho|].
    assert (dict_get_default ch "name" (PStr "Unknown Channel")
            = PStr "Unknown Channel") as Hn'.
    { unfold dict_get_default. now rewrite Hname. }
    now rewrite (channel_entry_str (is_all region) ctp k Hk Hn' Hg Ho).
Qed.

Lemma missing_name_unknown_channel_witness :
  exists ctp ids es,
    select_channels catalog_nameless "us" (is_all "us") = Ok (Some ctp) /\
    sort_channel_ids "name" ctp = Ok ids /\
    build_entries (is_all "us") ctp ids = Ok es /\
    nameless_playlist = Str.concat_all (playlist_header "us" :: es) /\
    Forall2 (fun id e => channel_entry (is_all "us") ctp id = Ok e) ids es /\
    (forall k ch,
       dict_get ctp k = Some ch ->
       exists ck info,
         In (ck, PDict info) (channels_read catalog_nameless "us") /\
         dict_get ch "name" = dict_get info "name") /\
    (forall k ch,
       dict_get ctp k = Some ch ->
       dict_get ch "name" = None ->
       name_key ctp k = Ok EmptyString /\
       (forall pre post j,
          ids = (pre ++ k :: post)%list -> In j pre ->
          exists cj,
            dict_get ctp j = Some cj /\
            (dict_get cj "name" = None \/
             dict_get cj "name" = Some (PStr EmptyString))) /\
       exists g oid,
         group_of (is_all "us") ch = PStr g /\
         dict_get_default ch "original_id" (PStr (Str.split_head "-" k))
         = PStr oid /\
         channel_entry (is_all "us") ctp k
         = Ok (extinf_line k oid
                 (chno_str (dict_get_default ch "chno" PNone))
                 "Unknown Channel"
                 (py_str (dict_get_default ch "logo" (PStr EmptyString)))
                 (subst_char dquote "'" g) "Unknown Channel"
               ++ stream_line oid)).
Proof.
  apply (@missing_name_unknown_channel (env_serving []) catalog_nameless
           "name" "us" fs_empty us_path nameless_playlist).
  - discriminate.
  - left. reflexivity.
  - intros [].
Defined.

(** * Further properties of the code *)

(** ** fetch_url *)

(** X1.  fetch_url lets no exception out and leaves the file system as
    it is, whatever the server, the codecs and the flags; without
    stream it returns a value (None for a failure), never the
    response. *)
Theorem fetch_url_never_raises (E : env) (url : string)
    (is_json is_gzipped : bool) (h : option (list (string * string)))
    (stream : bool) (s : fs) :
  exists r,
    result_of (fetch_url E url is_json is_gzipped h stream s) = Ok r /\
    fs_of (fetch_url E url is_json is_gzipped h stream s) = s /\
    (stream = false -> exists v, r = Value v).
Proof.
  unfold fetch_url, result_of, fs_of, bind, catch, log, ret, raise, decode,
    gzip_read, loads.
  destruct (http_get E url h) as [|status body]; [cbn; eauto 6|].
  destruct ((400 <=? status)%nat && (status <? 600)%nat); [cbn; eauto 6|].
  destruct stream; [cbn; eexists; repeat split; discriminate|].
  destruct is_gzipped; cbn;
    [destruct (gunzip E body) as [e|raw]; cbn; [destruct e; cbn|]|];
    repeat match goal with
      | |- context [utf8_decode E ?b] => destruct (utf8_decode E b); cbn
      end;
    destruct is_json; cbn;
    repeat match goal with
      | |- context [json_loads E ?t] => destruct (json_loads E t); cbn
      end;
    eauto 6.
Qed.

(** X2.  When the request fails, or the status of the response is
    between 400 and 599, fetch_url logs the one error line and returns
    None, whatever the flags: with stream set too, and without reading
    the body. *)
Theorem fetch_url_request_error (E : env) (url : string)
    (is_json is_gzipped : bool) (h : option (list (string * string)))
    (stream : bool) (s : fs)
    (Hfail : http_get E url h = RequestFailed \/
             exists status body,
               http_get E url h = Response status body /\
               bad_status status = true) :
  fetch_url E url is_json is_gzipped h stream s
  = ([(INFO, "Fetching URL: " ++ url);
      (ERROR, "Error fetching " ++ url ++ ": ")],
     (s, Ok (Value PNone))).
Proof.
  unfold fetch_url, bind, catch, log, ret, raise.
  destruct Hfail as [Hget|[status [body [Hget Hbad]]]]; rewrite Hget.
  - reflexivity.
  - unfold bad_status in Hbad. rewrite Hbad. reflexivity.
Qed.

Lemma fetch_url_request_error_witness :
  fetch_url (env_answering 404 [x7b; x7d]) "u" true true None true fs_empty
  = ([(INFO, "Fetching URL: " ++ "u");
      (ERROR, "Error fetching " ++ "u" ++ ": ")],
     (fs_empty, Ok (Value PNone))).
Proof.
  apply (@fetch_url_request_error (env_answering 404 [x7b; x7d]) "u" true
           true None true fs_empty).
  right. exists 404, [x7b; x7d]. split; reflexivity.
Defined.

(** X3.  With stream set and a good status, fetch_url returns the
    response as it came: the body is not decompressed, decoded or
    parsed, whatever is_json and is_gzipped say. *)
Theorem fetch_url_stream (E : env) (url : string)
    (is_json is_gzipped : bool) (h : option (list (string * string)))
    (status : nat) (body : list Byte.byte) (s : fs)
    (Hget : http_get E url h = Response status body)
    (Hstatus : bad_status status = false) :
  fetch_url E url is_json is_gzipped h true s
  = ([(INFO, "Fetching URL: " ++ url);
      (INFO, "Returning streaming response.")],
     (s, Ok (Streamed status body))).
Proof.
  unfold fetch_url, bind, catch, log, ret, raise.
  unfold bad_status in Hstatus. rewrite Hget, Hstatus. reflexivity.
Qed.

Lemma fetch_url_stream_witness :
  fetch_url (env_answering 200 [x1f; x8b]) "u" true true None true fs_empty
  = ([(INFO, "Fetching URL: " ++ "u");
      (INFO, "Returning streaming response.")],
     (fs_empty, Ok (Streamed 200 [x1f; x8b]))).
Proof.
  exact (@fetch_url_stream (env_answering 200 [x1f; x8b]) "u" true true None
           200 [x1f; x8b] fs_empty eq_refl eq_refl).
Defined.

Ltac found :=
  try match goal with H : gunzip _ _ = _ |- _ => rewrite H end;
  repeat split; first [assumption | reflexivity].

Ltac failed := right; cbn; split; [eexists; reflexivity | reflexivity].

(** X4.  Without stream, a call of fetch_url ends in one of two ways.
    Either no line is logged at level ERROR, and the value returned is
    the text read from the body of a response with a good status (the
    decompressed body, or the body itself), parsed when is_json is set;
    or the last line logged is at level ERROR and the value is None.  A
    body that is the JSON null gives None with no error logged. *)
Theorem fetch_url_value_or_error (E : env) (url : string)
    (is_json is_gzipped : bool) (h : option (list (string * string)))
    (s : fs) :
  (existsb is_error (logs_of (fetch_url E url is_json is_gzipped h false s))
   = false /\
   exists status body text v,
     http_get E url h = Response status body /\
     bad_status status = false /\
     body_text E is_gzipped body text /\
     (if is_json then json_loads E text = Some v else v = PStr text) /\
     result_of (fetch_url E url is_json is_gzipped h false s) = Ok (Value v))
  \/
  (exists msg,
     last (logs_of (fetch_url E url is_json is_gzipped h false s))
       (INFO, EmptyString) = (ERROR, msg)) /\
  result_of (fetch_url E url is_json is_gzipped h false s) = Ok (Value PNone).
Proof.
  unfold fetch_url, result_of, logs_of, body_text, decode, gzip_read, loads,
    bind, catch, log, ret, raise.
  destruct (http_get E url h) as [|status body] eqn:Hget; [failed|].
  destruct ((400 <=? status)%nat && (status <? 600)%nat) eqn:Hst; [failed|].
  destruct is_gzipped; cbn.
  - destruct (gunzip E body) as [e|raw] eqn:Hgz; cbn.
    + destruct e; cbn; try failed.
      destruct (utf8_decode E body) as [text|] eqn:Hd; cbn; [|failed].
      destruct is_json; cbn.
      * destruct (json_loads E text) as [v|] eqn:Hv; cbn; [|failed].
        left. split; [reflexivity|].
        exists status, body, text, v. found.
      * left. split; [reflexivity|].
        exists status, body, text, (PStr text). found.
    + destruct (utf8_decode E raw) as [text|] eqn:Hd; cbn; [|failed].
      destruct is_json; cbn.
      * destruct (json_loads E text) as [v|] eqn:Hv; cbn; [|failed].
        left. split; [reflexivity|].
        exists status, body, text, v. found.
      * left. split; [reflexivity|].
        exists status, body, text, (PStr text). found.
  - destruct (utf8_decode E body) as [text|] eqn:Hd; cbn; [|failed].
    destruct is_json; cbn.
    + destruct (json_loads E text) as [v|] eqn:Hv; cbn; [|failed].
      left. split; [reflexivity|].
      exists status, body, text, v. found.
    + left. split; [reflexivity|].
      exists status, body, text, (PStr text). found.
Qed.

(** ** write_m3u_file *)



(** X6.  When open fails, the directory being there or made, no file
    is added or changed.  An OSError is logged, as the last line, and
    write_m3u_file returns; any other exception (the ValueError of a
    path with a null character) is not caught and leaves
    write_m3u_file. *)
Theorem write_m3u_file_open_fails (E : env) (filename content : string)
    (s : fs) (e : exn)
    (Hdir : dir_exists s || makedirs_ok E = true)
    (Hopen : open_error E (path_join OUTPUT_DIR filename) = Some e) :
  files (fs_of (write_m3u_file E filename content s)) = files s
  /\ dir_exists (fs_of (write_m3u_file E filename content s)) = true
  /\ if caught e
     then result_of (write_m3u_file E filename content s) = Ok tt
          /\ last (logs_of (write_m3u_file E filename content s))
               (INFO, EmptyString)
             = (ERROR, "Error writing file "
                       ++ path_join OUTPUT_DIR filename ++ ": ")
     else result_of (write_m3u_file E filename content s) = Raise e.
Proof.
  unfold write_m3u_file, result_of, fs_of, logs_of, bind, catch, ret, log,
    output_dir_exists, makedirs, open_write.
  rewrite Hopen. destruct (dir_exists s) eqn:Hd; cbn.
  - destruct e; cbn; rewrite ?Hd; repeat split.
  - cbn in Hdir. rewrite Hdir. cbn. destruct e; cbn; repeat split.
Qed.

Lemma write_m3u_file_open_fails_witness :
  files (fs_of (write_m3u_file env_strict (String zero ".m3u") "text"
                  fs_empty))
  = files fs_empty
  /\ dir_exists (fs_of (write_m3u_file env_strict (String zero ".m3u") "text"
                          fs_empty)) = true
  /\ if caught ValueError
     then result_of (write_m3u_file env_strict (String zero ".m3u") "text"
                       fs_empty) = Ok tt
          /\ last (logs_of (write_m3u_file env_strict (String zero ".m3u")
                              "text" fs_empty))
               (INFO, EmptyString)
             = (ERROR, "Error writing file "
                       ++ path_join OUTPUT_DIR (String zero ".m3u") ++ ": ")
     else result_of (write_m3u_file env_strict (String zero ".m3u") "text"
                       fs_empty) = Raise ValueError.
Proof.
  exact (@write_m3u_file_open_fails env_strict (String zero ".m3u") "text"
           fs_empty ValueError eq_refl eq_refl).
Defined.

(* the same on a file system that refuses the file with an OSError *)
Example open_refused_is_logged :
  write_m3u_file (env_readonly true) "a.m3u" "text" fs_empty
  = ([(INFO, "Creating output directory: playlists");
      (ERROR, "Error writing file playlists/a.m3u: ")],
     (mkfs true [], Ok tt)).
Proof. reflexivity. Qed.

(** X7.  When the output directory is missing and cannot be made,
    write_m3u_file raises OSError after the line that announces the
    directory: os.makedirs stands outside the try, so the file system
    is left as it was even where the file itself could be written. *)
Theorem write_m3u_file_makedirs_raises (E : env) (filename content : string)
    (s : fs)
    (Hdir : dir_exists s = false)
    (Hmk : makedirs_ok E = false) :
  write_m3u_file E filename content s
  = ([(INFO, "Creating output directory: " ++ OUTPUT_DIR)],
     (s, Raise OSError)).
Proof.
  unfold write_m3u_file, bind, catch, ret, log, output_dir_exists, makedirs.
  rewrite Hdir, Hmk. reflexivity.
Qed.

Lemma write_m3u_file_makedirs_raises_witness :
  write_m3u_file (env_readonly false) "a.m3u" "text" fs_empty
  = ([(INFO, "Creating output directory: " ++ OUTPUT_DIR)],
     (fs_empty, Raise OSError)).
Proof.
  exact (@write_m3u_file_makedirs_raises (env_readonly false) "a.m3u" "text"
           fs_empty eq_refl eq_refl).
Defined.

(** X8.  Two calls of write_m3u_file with the same file name leave the
    file system as the second call alone does: the later content takes
    the place of the earlier one, in every state of the directory and
    whether or not the file can be written. *)
Theorem write_m3u_file_last_wins (E : env) (filename c1 c2 : string) (s : fs) :
  fs_of (write_m3u_file E filename c2
           (fs_of (write_m3u_file E filename c1 s)))
  = fs_of (write_m3u_file E filename c2 s).
Proof.
  unfold fs_of. rewrite !write_m3u_file_snd.
  destruct (dir_exists s || makedirs_ok E) eqn:Hd; cbn [fst snd]; [|now rewrite Hd].
  cbn [dir_exists files orb].
  destruct (writable E (path_join OUTPUT_DIR filename)); [|reflexivity].
  now rewrite file_put_put.
Qed.

(** ** format_extinf *)

(** X9.  On JSON values (an int has at most 4300 digits), format_extinf
    returns a line exactly when tvg_name, group_title and display_name
    are all three str, and raises AttributeError otherwise; channel_id,
    tvg_id, tvg_chno and tvg_logo may be JSON values of any type. *)
Theorem format_extinf_needs_str
    (cid tid chno name logo group disp : pyval) :
  if is_str name && is_str group && is_str disp
  then exists out, format_extinf cid tid chno name logo group disp = Ok out
  else format_extinf cid tid chno name logo group disp = Raise AttributeError.
Proof.
  unfold format_extinf, str_replace.
  destruct name; cbn; try reflexivity;
    destruct group; cbn; try reflexivity;
    destruct disp; cbn; try reflexivity.
  eauto.
Qed.

(** ** The channel number: what is shown and what is sorted *)

Lemma int_digits_step c acc b s :
  Str.is_digit c = true ->
  int_digits acc b (String c s) = int_digits (10 * acc + digit_val c) true s.
Proof. intros H. cbn [int_digits]. now rewrite H. Qed.

Lemma int_of_ascii_digit c s :
  Str.is_digit c = true ->
  int_of_ascii (String c s) = int_digits 0 false (String c s).
Proof.
  destruct c as [[] [] [] [] [] [] [] []]; intros H;
    first [discriminate H | reflexivity].
Qed.

Lemma digit_val_nonneg c : (0 <= digit_val c)%Z.
Proof. unfold digit_val. lia. Qed.

Lemma int_digits_all_digits s :
  forall acc b,
    (0 <= acc)%Z -> Str.all_chars Str.is_digit s = true ->
    s <> EmptyString \/ b = true ->
    exists z, int_digits acc b s = Some z /\ (0 <= z)%Z.
Proof.
  induction s as [|c s IH]; intros acc b Hacc Hd Hne.
  - destruct Hne as [Hne| ->]; [congruence|]. now exists acc.
  - cbn [Str.all_chars] in Hd. apply andb_true_iff in Hd.
    destruct Hd as [Hc Hs]. rewrite (@int_digits_step c acc b s Hc).
    apply IH; [|exact Hs | now right].
    pose proof (digit_val_nonneg c). lia.
Qed.

Lemma int_digits_uint d :
  forall acc b,
    int_digits acc b (NilEmpty.string_of_uint d)
    = match d with
      | Decimal.Nil => if b then Some acc else None
      | _ => Some (horner acc d)
      end.
Proof.
  induction d as [|d IH|d IH|d IH|d IH|d IH|d IH|d IH|d IH|d IH|d IH];
    intros acc b; [reflexivity|..];
    cbn [NilEmpty.string_of_uint];
    rewrite int_digits_step by reflexivity; rewrite IH;
    destruct d; reflexivity.
Qed.

Lemma horner_of_uint_acc d :
  forall acc, horner (Zpos acc) d = Zpos (Pos.of_uint_acc d acc).
Proof.
  induction d as [|d IH|d IH|d IH|d IH|d IH|d IH|d IH|d IH|d IH|d IH];
    intros acc; [reflexivity|..];
    cbn [horner Pos.of_uint_acc]; rewrite <- IH; f_equal; lia.
Qed.

Lemma horner_of_uint d : horner 0 d = Z.of_N (Pos.of_uint d).
Proof.
  induction d as [|d IH|d IH|d IH|d IH|d IH|d IH|d IH|d IH|d IH|d IH];
    [reflexivity | exact IH |..];
    cbn [horner Pos.of_uint Z.of_N]; rewrite <- horner_of_uint_acc;
    reflexivity.
Qed.

Lemma int_of_ascii_uint d :
  d <> Decimal.Nil ->
  int_of_ascii (NilEmpty.string_of_uint d) = Some (horner 0 d).
Proof.
  intros Hd.
  destruct d as [|d|d|d|d|d|d|d|d|d|d]; [congruence|..];
    cbn [NilEmpty.string_of_uint];
    (rewrite int_of_ascii_digit by reflexivity);
    lazymatch goal with
    | |- _ = Some (horner 0 ?x) => exact (int_digits_uint x 0%Z false)
    end.
Qed.

(* the numeral that str writes reads as the number *)
Lemma int_of_ascii_of_Z z :
  (0 <= z)%Z -> int_of_ascii (str_of_Z z) = Some z.
Proof.
  intros Hz. destruct z as [|p|p]; [reflexivity | | lia].
  unfold str_of_Z. cbn [Z.to_int NilZero.string_of_int].
  pose proof (DecimalPos.Unsigned.to_uint_nonnil p) as Hnil.
  pose proof (DecimalPos.Unsigned.of_to p) as Hof.
  unfold NilZero.string_of_uint.
  destruct (Pos.to_uint p) as [|d|d|d|d|d|d|d|d|d|d] eqn:Hd;
    [congruence|..];
    (rewrite int_of_ascii_uint by discriminate);
    rewrite horner_of_uint, Hof; reflexivity.
Qed.

Lemma count_digits_le s : (count_digits s <= String.length s)%nat.
Proof.
  induction s as [|c s IH]; [apply le_n|].
  cbn [count_digits String.length]. destruct (Str.is_digit c); lia.
Qed.

(* int() of an ASCII text of digits within the limit *)
Lemma int_of_str_plain s z :
  Str.is_ascii s = true ->
  (String.length s <= max_str_digits)%nat ->
  int_of_ascii s = Some z ->
  int_of_str s = Some z.
Proof.
  intros Ha Hlen Hz. unfold int_of_str. rewrite Ha, Hz.
  replace (count_digits s <=? max_str_digits)%nat with true; [reflexivity|].
  symmetry. apply Nat.leb_le. pose proof (count_digits_le s). lia.
Qed.

Lemma str_of_Z_digits z :
  (0 <= z)%Z -> Str.all_chars Str.is_digit (str_of_Z z) = true.
Proof.
  intros Hz. destruct z as [|p|p]; [reflexivity | | lia].
  unfold str_of_Z. cbn [Z.to_int NilZero.string_of_int].
  unfold NilZero.string_of_uint.
  destruct (Pos.to_uint p); try reflexivity; apply (string_of_uint_digits (_ u)).
Qed.

(* int(str(z)) is z *)
Lemma int_of_str_of_Z (z : jint) :
  (0 <= jz z)%Z -> int_of_str (str_of_Z (jz z)) = Some (jz z).
Proof.
  intros Hz. apply int_of_str_plain.
  - apply digits_ascii. now apply str_of_Z_digits.
  - pose proof (jok z) as Hfit. unfold fits in Hfit.
    rewrite Z.abs_eq in Hfit by exact Hz. now apply Nat.leb_le.
  - now apply int_of_ascii_of_Z.
Qed.

(** X10.  Whenever format_extinf shows a channel number (a tvg-chno
    field that is not empty) that is an int, or an ASCII text of no more
    characters than int() reads digits, int() accepts that channel
    number, so the entry does not make the chno sort of line 151 fall
    back; the sort key is not negative, and it is the number that the
    field shows. *)
Theorem shown_chno_is_sort_key (v : pyval)
    (Hshown : chno_str v <> EmptyString)
    (Hplain : match v with
              | PStr t =>
                  Str.is_ascii t = true /\
                  (String.length t <= max_str_digits)%nat
              | _ => True
              end) :
  exists z,
    py_int v = inr z /\ (0 <= z)%Z /\ py_int (PStr (chno_str v)) = inr z.
Proof.
  unfold chno_str in *.
  destruct v as [|b|z|t|l|d]; try congruence;
    cbn [py_str py_repr] in *;
    destruct (Str.isdigit _) eqn:Hd; try congruence.
  - destruct b; discriminate Hd.
  - rewrite isdigit_str_of_Z in Hd. apply Z.leb_le in Hd.
    exists (jz z). cbn [py_int]. rewrite (@int_of_str_of_Z z Hd). auto.
  - destruct Hplain as [Ha Hlen].
    rewrite (isdigit_ascii _ Ha) in Hd. apply andb_true_iff in Hd.
    destruct Hd as [Hne Hall].
    destruct t as [|c t]; [discriminate Hne|].
    pose proof Hall as Hall'. cbn [Str.all_chars] in Hall'.
    apply andb_true_iff in Hall'. destruct Hall' as [Hc _].
    destruct (@int_digits_all_digits (String c t) 0%Z false)
      as [z [Hz Hpos]]; [lia | exact Hall | left; discriminate |].
    exists z. cbn [py_int].
    rewrite (@int_of_str_plain (String c t) z Ha Hlen);
      [auto | now rewrite (@int_of_ascii_digit c t Hc)].
  - cbn [append] in Hd. now rewrite isdigit_head in Hd.
  - cbn [append] in Hd. now rewrite isdigit_head in Hd.
Qed.

Lemma shown_chno_is_sort_key_witness :
  exists z,
    py_int (PStr "007") = inr z /\ (0 <= z)%Z /\
    py_int (PStr (chno_str (PStr "007"))) = inr z.
Proof.
  apply (@shown_chno_is_sort_key (PStr "007")).
  - discriminate.
  - split; [reflexivity|]. unfold max_str_digits.
    apply Nat.leb_le. reflexivity.
Defined.

(* beyond these, a channel number can be shown that int() refuses: a
   digit that is not a decimal digit *)
Example shown_digit_not_read :
  chno_str (PStr superscript_two) = superscript_two
  /\ py_int (PStr superscript_two) = inl ValueError
  /\ py_int (PStr arabic_three) = inr 3%Z.
Proof. repeat split. Qed.

(** ** channels_to_process: what every record holds *)

Lemma add_channels_inv (P : string -> pydict -> Prop) entry_id extra channels :
  (forall ck info, P (entry_id ck) (dict_update info (extra ck))) ->
  forall ctp0 ctp,
    add_channels entry_id extra channels ctp0 = Ok ctp ->
    (forall k ch, dict_get ctp0 k = Some ch -> P k ch) ->
    forall k ch, dict_get ctp k = Some ch -> P k ch.
Proof.
  intros HP. induction channels as [|[ck ci] rest IH]; intros ctp0 ctp H H0.
  - cbn in H. injection H as <-. exact H0.
  - cbn [add_channels] in H.
    destruct ci as [| | | |?|info]; try discriminate H.
    cbn [py_unpack res_bind] in H.
    apply (IH _ _ H). intros k ch Hk.
    destruct (String.eqb_spec (entry_id ck) k) as [<-|Hne].
    + rewrite dict_get_set_same in Hk. injection Hk as <-. apply HP.
    + rewrite dict_get_set_other in Hk by exact Hne. now apply H0.
Qed.

Lemma all_regions_channels_inv region regions :
  forall ctp0 ctp,
    all_regions_channels regions ctp0 = Ok ctp ->
    (forall k ch, dict_get ctp0 k = Some ch -> record_ok true region k ch) ->
    forall k ch, dict_get ctp k = Some ch -> record_ok true region k ch.
Proof.
  induction regions as [|[rk rd] rest IH]; intros ctp0 ctp H H0.
  - cbn in H. injection H as <-. exact H0.
  - cbn [all_regions_channels] in H.
    destruct rd as [| | | |?|rd]; try discriminate H.
    cbn [py_get res_bind] in H.
    destruct (dict_get_default rd "channels" (PDict [])) as [| | | |?|channels];
      try discriminate H.
    cbn [py_items res_bind] in H.
    destruct (add_channels _ _ channels ctp0) as [ctp1|] eqn:Hadd;
      [|discriminate H].
    cbn [res_bind] in H.
    apply (IH _ _ H).
    refine (@add_channels_inv (record_ok true region) _ _ _ _ _ _ Hadd H0).
    intros ck info. exists ck, rk.
    unfold dict_update. cbn [fold_left fst snd].
    split; [apply dict_get_set_same|].
    split; [rewrite !dict_get_set_other by discriminate;
            apply dict_get_set_same|].
    split; [reflexivity|].
    rewrite dict_get_set_other by discriminate. apply dict_get_set_same.
Qed.

(** X11.  Every record of channels_to_process holds the channel key of
    the catalog under original_id and the region under region_code,
    whatever the catalog had under these names; the key of the record
    is the channel key, and in the merged playlist the channel key, a
    hyphen and the region key, with the display name of that region as
    the group title.  So the fallback of line 165 is never taken. *)
Theorem records_name_their_channel (data : pyval) (region : string)
    (ctp : dict pydict) (id : string) (ch : pydict)
    (Hsel : select_channels data region (is_all region) = Ok (Some ctp))
    (Hch : dict_get ctp id = Some ch) :
  record_ok (is_all region) region id ch
  /\ exists oid,
       dict_get_default ch "original_id" (PStr (Str.split_head "-" id))
       = PStr oid.
Proof.
  assert (record_ok (is_all region) region id ch) as Hok.
  { revert Hsel. unfold select_channels.
    destruct data as [| | | |?|d];
      try (destruct (is_all region); discriminate).
    cbn [py_get res_bind].
    destruct (dict_get_default d "regions" (PDict [])) as [| | | |?|regions];
      try (destruct (is_all region); discriminate).
    destruct (is_all region).
    - cbn [py_items res_bind].
      destruct (all_regions_channels regions []) as [ctp'|] eqn:Hall;
        [|discriminate].
      cbn [res_bind]. intros H. injection H as <-.
      refine (@all_regions_channels_inv region regions [] ctp' Hall _
                id ch Hch).
      intros k c Hk. discriminate Hk.
    - cbn [py_get res_bind].
      destruct (truthy (dict_get_default regions region PNone));
        [|discriminate].
      cbn [negb]. unfold one_region_channels.
      destruct (dict_get_default regions region PNone) as [| | | |?|rd];
        try discriminate.
      cbn [py_get res_bind].
      destruct (dict_get_default rd "channels" (PDict []))
        as [| | | |?|channels]; try discriminate.
      cbn [py_items res_bind].
      destruct (add_channels _ _ channels []) as [ctp'|] eqn:Hadd;
        [|discriminate].
      intros H. injection H as <-.
      refine (@add_channels_inv (record_ok false region) _ _ _ _ _ _ Hadd
                _ id ch Hch).
      + intros ck info. exists ck, region.
        unfold dict_update. cbn [fold_left fst snd].
        split; [apply dict_get_set_same|].
        split; [rewrite dict_get_set_other by discriminate;
                apply dict_get_set_same|].
        split; reflexivity.
      + intros k c Hk. discriminate Hk. }
  split; [exact Hok|].
  destruct Hok as [oid [rk [Ho _]]]. exists oid.
  unfold dict_get_default. now rewrite Ho.
Qed.

Lemma records_name_their_channel_witness :
  record_ok (is_all "all") "all" "news1-ca"
    [("name", PStr "News Un"); ("group", PStr "Info");
     ("region_code", PStr "ca"); ("group_title_override", PStr "Canada");
     ("original_id", PStr "news1")]
  /\ exists oid,
       dict_get_default
         [("name", PStr "News Un"); ("group", PStr "Info");
          ("region_code", PStr "ca"); ("group_title_override", PStr "Canada");
          ("original_id", PStr "news1")]
         "original_id" (PStr (Str.split_head "-" "news1-ca"))
       = PStr oid.
Proof.
  apply (@records_name_their_channel catalog_news "all" ctp_news);
    reflexivity.
Defined.

(** ** One turn of the loop, as a step on the file system *)

(** ** The exceptions that leave a turn *)

Lemma format_extinf_raise cid tid chno name logo group disp e :
  format_extinf cid tid chno name logo group disp = Raise e ->
  e = AttributeError.
Proof.
  unfold format_extinf, str_replace.
  destruct name, group, disp; cbn [res_bind]; intros H;
    first [discriminate H | now injection H].
Qed.

Lemma dict_get_in_keys {V} (d : dict V) k :
  In k (dict_keys d) -> exists v, dict_get d k = Some v.
Proof.
  unfold dict_keys. induction d as [|[k0 v0] d IH]; [contradiction|].
  cbn. intros [->|Hin].
  - rewrite String.eqb_refl. eauto.
  - destruct (k0 =? k)%string; eauto.
Qed.

Lemma channel_entry_raise b (ctp : dict pydict) id e :
  In id (dict_keys ctp) ->
  channel_entry b ctp id = Raise e ->
  e = AttributeError \/ e = TypeError.
Proof.
  intros Hin. destruct (dict_get_in_keys ctp id Hin) as [ch Hch].
  unfold channel_entry, py_index. rewrite Hch. cbn [res_bind].
  destruct (format_extinf _ _ _ _ _ _ _) as [x|e'] eqn:Hf; cbn [res_bind].
  - destruct (dict_get_default ch "original_id" _); intros H;
      first [discriminate H | injection H as <-; now right].
  - intros H. injection H as <-. left.
    now apply format_extinf_raise in Hf.
Qed.

Lemma build_entries_raise b (ctp : dict pydict) ids e :
  (forall id, In id ids -> In id (dict_keys ctp)) ->
  build_entries b ctp ids = Raise e ->
  e = AttributeError \/ e = TypeError.
Proof.
  induction ids as [|id ids IH]; intros Hin; [discriminate|].
  cbn [build_entries].
  destruct (channel_entry b ctp id) as [x|e'] eqn:He; cbn [res_bind].
  - destruct (build_entries b ctp ids) as [es|e''] eqn:Hes; cbn [res_bind];
      [discriminate|].
    intros H. injection H as <-. apply IH; [|reflexivity].
    intros id' Hid. apply Hin. now right.
  - intros H. injection H as <-.
    apply (channel_entry_raise b ctp id); [apply Hin; now left | exact He].
Qed.

Lemma add_channels_raise entry_id extra channels :
  forall ctp0 e,
    add_channels entry_id extra channels ctp0 = Raise e -> e = TypeError.
Proof.
  induction channels as [|[ck ci] rest IH]; intros ctp0 e;
    [discriminate|].
  cbn [add_channels].
  destruct ci as [| | | |?|info]; cbn [py_unpack res_bind];
    try (intros H; now injection H).
  apply IH.
Qed.

Lemma all_regions_channels_raise regions :
  forall ctp0 e,
    all_regions_channels regions ctp0 = Raise e ->
    e = AttributeError \/ e = TypeError.
Proof.
  induction regions as [|[rk rd] rest IH]; intros ctp0 e; [discriminate|].
  cbn [all_regions_channels].
  destruct rd as [| | | |?|rd]; cbn [py_get res_bind];
    try (intros H; injection H as <-; now left).
  destruct (dict_get_default rd "channels" (PDict [])) as [| | | |?|channels];
    cbn [py_items res_bind];
    try (intros H; injection H as <-; now left).
  destruct (add_channels _ _ channels ctp0) as [ctp1|e'] eqn:Hadd;
    cbn [res_bind].
  - apply IH.
  - intros H. injection H as <-. right.
    now apply add_channels_raise in Hadd.
Qed.

Lemma select_channels_raise data region b e :
  select_channels data region b = Raise e ->
  e = AttributeError \/ e = TypeError.
Proof.
  unfold select_channels.
  destruct data as [| | | |?|d];
    try (destruct b; cbn [py_get res_bind]; intros H; injection H as <-;
         now left).
  cbn [py_get res_bind].
  destruct (dict_get_default d "regions" (PDict [])) as [| | | |?|regions];
    try (destruct b; cbn [py_get py_items res_bind]; intros H;
         injection H as <-; now left).
  destruct b.
  - cbn [py_items res_bind].
    destruct (all_regions_channels regions []) as [ctp|e'] eqn:Hall;
      cbn [res_bind]; [discriminate|].
    intros H. injection H as <-.
    now apply all_regions_channels_raise in Hall.
  - cbn [py_get res_bind].
    destruct (truthy (dict_get_default regions region PNone));
      cbn [negb]; [|discriminate].
    unfold one_region_channels.
    destruct (dict_get_default regions region PNone) as [| | | |?|rd];
      cbn [py_get res_bind];
      try (intros H; injection H as <-; now left).
    destruct (dict_get_default rd "channels" (PDict []))
      as [| | | |?|channels]; cbn [py_items res_bind];
      try (intros H; injection H as <-; now left).
    destruct (add_channels _ _ channels []) as [ctp|e'] eqn:Hadd;
      [discriminate|].
    intros H. injection H as <-. right.
    now apply add_channels_raise in Hadd.
Qed.

Lemma turn_of_fails data sort region e :
  turn_of data sort region = Fails e ->
  e = AttributeError \/ e = TypeError.
Proof.
  unfold turn_of.
  destruct (select_channels data region (is_all region)) as [[ctp|]|e']
    eqn:Hsel; [| discriminate |].
  - destruct (build_entries (is_all region) ctp (ids_used sort ctp))
      as [es|e'] eqn:Hes; [discriminate|].
    intros H. injection H as <-.
    apply (build_entries_raise (is_all region) ctp (ids_used sort ctp));
      [|exact Hes].
    intros id Hid.
    apply (Permutation_in id (ids_used_perm sort ctp) Hid).
  - intros H. injection H as <-.
    now apply select_channels_raise in Hsel.
Qed.

(** X12.  An exception that leaves a turn of the loop comes out of
    write_m3u_file, the catalog part of the turn done; or it is an
    AttributeError or a TypeError of that part (a value of the catalog
    without the method used on it), and then the turn has touched no
    file and no directory.  The ValueError of int() and a KeyError never
    leave the catalog part. *)
Theorem turn_exceptions (E : env) (data : pyval) (sort region : string)
    (s : fs) (e : exn)
    (Hraise : result_of (region_body E data sort region s) = Raise e) :
  (turn_of data sort region = Fails e
   /\ (e = AttributeError \/ e = TypeError)
   /\ fs_of (region_body E data sort region s) = s)
  \/ (exists content,
        turn_of data sort region = Writes content
        /\ result_of (write_m3u_file E (playlist_filename region) content s)
           = Raise e).
Proof.
  revert Hraise. unfold result_of, fs_of.
  rewrite region_body_snd.
  destruct (turn_of data sort region) as [|e'|content] eqn:Hturn;
    cbn [fst snd].
  - discriminate.
  - intros H. injection H as <-. left.
    split; [reflexivity|]. split; [|reflexivity].
    exact (turn_of_fails _ _ _ Hturn).
  - intros H. right. exists content. split; [reflexivity|].
    rewrite write_m3u_file_snd, playlist_path_eq. exact H.
Qed.

Lemma turn_exceptions_witness :
  (turn_of catalog_null_name "name" "us" = Fails AttributeError
   /\ (AttributeError = AttributeError \/ AttributeError = TypeError)
   /\ fs_of (region_body (env_serving []) catalog_null_name "name" "us"
               fs_empty) = fs_empty)
  \/ (exists content,
        turn_of catalog_null_name "name" "us" = Writes content
        /\ result_of (write_m3u_file (env_serving []) (playlist_filename "us")
                        content fs_empty)
           = Raise AttributeError).
Proof.
  apply (@turn_exceptions (env_serving []) catalog_null_name "name" "us"
           fs_empty AttributeError).
  reflexivity.
Defined.

(* a region code with a null character: the catalog part is done, the
   directory made, and the ValueError of open leaves the turn *)
Example nul_region_raises :
  snd (region_body env_strict catalog_nul "name" nul_region fs_empty)
  = (mkfs true [], Raise ValueError).
Proof. reflexivity. Qed.

(** ** The loop over the regions *)

(** X13.  The first turn that raises ends the loop: its exception leaves
    the loop, the regions after that one are not looked at, and the
    files are as that turn left them. *)
Theorem regions_loop_stops (E : env) (data : pyval) (sort : string)
    (pre : list string) (r : string) (post : list string) (s : fs) (e : exn)
    (Hpre : result_of (regions_loop E data sort pre s) = Ok tt)
    (Hr : result_of (region_body E data sort r
                       (fs_of (regions_loop E data sort pre s))) = Raise e) :
  snd (regions_loop E data sort (pre ++ r :: post) s)
  = (fs_of (region_body E data sort r
              (fs_of (regions_loop E data sort pre s))),
     Raise e).
Proof.
  revert s Hpre Hr. unfold result_of, fs_of.
  induction pre as [|r0 pre IH]; intros s Hpre Hr.
  - cbn [app]. rewrite regions_loop_snd. cbn [regions_loop ret fst snd] in *.
    destruct (snd (region_body E data sort r s)) as [s1 [[]|e1]];
      cbn [fst snd] in *; [discriminate Hr | now injection Hr as ->].
  - cbn [app].
    rewrite (@regions_loop_snd E data sort r0 pre s) in *.
    rewrite (@regions_loop_snd E data sort r0 (pre ++ r :: post) s).
    destruct (snd (region_body E data sort r0 s)) as [s1 [[]|e1]];
      [|discriminate Hpre].
    now apply IH.
Qed.

Lemma regions_loop_stops_witness :
  snd (regions_loop env_strict catalog_nul "name"
         (["zz"] ++ nul_region :: ["all"]) fs_empty)
  = (fs_of (region_body env_strict catalog_nul "name" nul_region
              (fs_of (regions_loop env_strict catalog_nul "name" ["zz"]
                        fs_empty))),
     Raise ValueError).
Proof.
  apply (@regions_loop_stops env_strict catalog_nul "name"
           ["zz"] nul_region ["all"] fs_empty ValueError);
    reflexivity.
Defined.

(** X14.  The loop over a list of regions is the loop over its first
    part followed by the loop over the rest: the same log lines, files
    and result. *)
Theorem regions_loop_app (E : env) (data : pyval) (sort : string)
    (a b : list string) (s : fs) :
  regions_loop E data sort (a ++ b) s
  = (regions_loop E data sort a ;;; regions_loop E data sort b) s.
Proof.
  revert s. induction a as [|r a IH]; intros s.
  - cbn [app regions_loop]. unfold bind, ret.
    now destruct (regions_loop E data sort b s).
  - cbn [app regions_loop]. unfold bind.
    destruct (region_body E data sort r s) as [l1 [s1 [[]|e]]];
      [|reflexivity].
    rewrite IH. unfold bind.
    destruct (regions_loop E data sort a s1) as [l2 [s2 [[]|e]]];
      [|reflexivity].
    destruct (regions_loop E data sort b s2) as [l3 out].
    now rewrite app_assoc.
Qed.

(** X15.  The loop reads and writes no file but the playlists of the
    regions it is given: every other file of the directory is after the
    loop what it was before. *)
Theorem loop_keeps_other_files (E : env) (data : pyval) (sort : string)
    (regions : list string) (s : fs) (p : string)
    (Hother : forall r, In r regions -> p <> playlist_path r) :
  file_get (fs_of (regions_loop E data sort regions s)) p = file_get s p.
Proof.
  revert s. unfold fs_of.
  induction regions as [|r rest IH]; intros s; [reflexivity|].
  rewrite regions_loop_snd, region_body_snd.
  assert (p <> playlist_path r) as Hp by (apply Hother; now left).
  assert (forall s', file_get (fst (snd (regions_loop E data sort rest s'))) p
                     = file_get s' p) as IH'.
  { intros s'. apply IH. intros r' Hr'. apply Hother. now right. }
  destruct (turn_of data sort r) as [|e|content]; cbn [fst snd];
    [apply IH' | reflexivity |].
  destruct (dir_exists s || makedirs_ok E); cbn [fst snd]; [|reflexivity].
  assert (file_get
            (mkfs true
               (if writable E (playlist_path r)
                then file_put (files s) (playlist_path r) content
                else files s)) p
          = file_get s p) as Hstep.
  { unfold file_get. cbn [files].
    destruct (writable E (playlist_path r)); [|reflexivity].
    now apply file_put_get_other. }
  destruct (write_result E (playlist_path r)) as [[]|e]; cbn [fst snd];
    [now rewrite IH' | exact Hstep].
Qed.

Lemma loop_keeps_other_files_witness :
  file_get (fs_of (regions_loop (env_serving []) catalog_news "name"
                     ["us"; "all"] fs_notes)) "playlists/notes.txt"
  = file_get fs_notes "playlists/notes.txt".
Proof.
  apply (@loop_keeps_other_files (env_serving []) catalog_news "name"
           ["us"; "all"] fs_notes "playlists/notes.txt").
  intros r [<-|[<-|[]]]; discriminate.
Defined.

(** ** Running the loop again *)

Lemma str_length_app (a b : string) :
  String.length (a ++ b) = (String.length a + String.length b)%nat.
Proof. induction a as [|x a IH]; cbn; [reflexivity | now rewrite IH]. Qed.

Lemma str_app_inv_tail (c a b : string) : a ++ c = b ++ c -> a = b.
Proof.
  revert b. induction a as [|x a IH]; intros [|y b] H.
  - reflexivity.
  - apply (f_equal String.length) in H. cbn in H.
    rewrite str_length_app in H. lia.
  - apply (f_equal String.length) in H. cbn in H.
    rewrite str_length_app in H. lia.
  - cbn in H. injection H as -> H. f_equal. now apply IH.
Qed.

Lemma playlist_path_inj r r' : playlist_path r = playlist_path r' -> r = r'.
Proof.
  unfold playlist_path. intros H. cbn in H.
  injection H as H. now apply str_app_inv_tail in H.
Qed.

Lemma file_put_noop fl path content :
  dict_get fl path = Some content -> file_put fl path content = fl.
Proof.
  induction fl as [|[p c] fl IH]; cbn; [discriminate|].
  destruct (p =? path)%string eqn:Hp.
  - intros H. injection H as ->. apply String.eqb_eq in Hp. now subst.
  - intros H. now rewrite IH.
Qed.

(* a turn has nothing left to do where it skips, or where the directory
   is there and the playlist, if it can be written, has its content *)
(* a turn has nothing left to do where it skips, or where the directory
   is there, open raises nothing that leaves the turn, and the playlist,
   if it can be written, has its content *)
Lemma settled_iff E data sort t region :
  settled E data sort t region <->
  match turn_of data sort region with
  | Skips => True
  | Fails _ => False
  | Writes content =>
      dir_exists t = true /\
      write_result E (playlist_path region) = Ok tt /\
      (writable E (playlist_path region) = true ->
       file_get t (playlist_path region) = Some content)
  end.
Proof.
  unfold settled. rewrite region_body_snd.
  destruct (turn_of data sort region) as [|e|content].
  - tauto.
  - split; [discriminate | contradiction].
  - destruct t as [d fl]. unfold file_get. cbn [dir_exists files].
    destruct d; cbn [orb].
    + destruct (writable E (playlist_path region)).
      * split.
        -- intros H. injection H as H Hres. split; [reflexivity|].
           split; [exact Hres|]. intros _.
           rewrite <- H. apply file_put_get_same.
        -- intros [_ [Hres H]].
           now rewrite Hres, (file_put_noop _ _ (H eq_refl)).
      * split.
        -- intros H. injection H as Hres.
           split; [reflexivity|]. split; [exact Hres | discriminate].
        -- intros [_ [Hres _]]. now rewrite Hres.
    + split; [|intros [H _]; discriminate H].
      destruct (makedirs_ok E); intros H; discriminate H.
Qed.

(* a turn run again on the files it left does the same and changes
   nothing *)
Lemma turn_repeats E data sort region s s1 x :
  snd (region_body E data sort region s) = (s1, x) ->
  snd (region_body E data sort region s1) = (s1, x).
Proof.
  rewrite !region_body_snd.
  destruct (turn_of data sort region) as [|e|content];
    [intros H; now injection H as <- <- ..|].
  destruct (dir_exists s || makedirs_ok E) eqn:Hd.
  - intros H. injection H as <- <-. cbn [dir_exists files orb].
    destruct (writable E (playlist_path region)); [|reflexivity].
    now rewrite file_put_put.
  - intros H. injection H as <- <-. now rewrite Hd.
Qed.

Lemma turn_settles E data sort region s s1 :
  snd (region_body E data sort region s) = (s1, Ok tt) ->
  settled E data sort s1 region.
Proof. apply turn_repeats. Qed.

(* and the turns of the other regions leave it so *)
Lemma settled_kept E data sort region r s s1 x :
  settled E data sort s region ->
  snd (region_body E data sort r s) = (s1, x) ->
  settled E data sort s1 region.
Proof.
  destruct (String.eqb_spec r region) as [->|Hne].
  { unfold settled. intros H1 H2. rewrite H1 in H2. now injection H2 as <- _. }
  rewrite !settled_iff, region_body_snd.
  destruct (turn_of data sort region) as [|e|content]; [tauto | tauto |].
  intros [Hd [Hres Hf]].
  destruct (turn_of data sort r) as [|e'|content'].
  - intros H. injection H as <- _. tauto.
  - intros H. injection H as <- _. tauto.
  - rewrite Hd. cbn [orb]. intros H. injection H as <- _.
    unfold file_get in *. cbn [dir_exists files].
    split; [reflexivity|]. split; [exact Hres|]. intros Hw.
    destruct (writable E (playlist_path r)); [|now apply Hf].
    rewrite file_put_get_other; [now apply Hf|].
    intros Heq. apply Hne. symmetry. now apply playlist_path_inj.
Qed.

Lemma settled_loop E data sort t regions :
  (forall r, In r regions -> settled E data sort t r) ->
  snd (regions_loop E data sort regions t) = (t, Ok tt).
Proof.
  induction regions as [|r rest IH]; intros H; [reflexivity|].
  rewrite regions_loop_snd. unfold settled in H.
  rewrite (H r (or_introl eq_refl)). apply IH.
  intros r' Hr'. apply H. now right.
Qed.

Lemma regions_loop_settles E data sort regions :
  forall (done : list string) (s : fs),
    (forall r, In r done -> settled E data sort s r) ->
    snd (regions_loop E data sort (done ++ regions)
           (fst (snd (regions_loop E data sort regions s))))
    = snd (regions_loop E data sort regions s).
Proof.
  induction regions as [|r rest IH]; intros done s Hdone.
  - cbn [regions_loop ret fst snd]. rewrite app_nil_r.
    now apply settled_loop.
  - rewrite (@regions_loop_snd E data sort r rest s).
    destruct (snd (region_body E data sort r s)) as [s1 [[]|e]] eqn:Hr.
    + assert (forall r', In r' (done ++ [r]) -> settled E data sort s1 r')
        as Hdone1.
      { intros r' Hin. apply in_app_or in Hin. destruct Hin as [Hin|[<-|[]]].
        - apply (@settled_kept E data sort r' r s s1 (Ok tt) (Hdone r' Hin) Hr).
        - apply (@turn_settles E data sort r s s1 Hr). }
      pose proof (IH (done ++ [r])%list s1 Hdone1) as H.
      rewrite <- app_assoc in H. exact H.
    + cbn [fst snd].
      assert (forall r', In r' done -> settled E data sort s1 r') as Hdone1.
      { intros r' Hin.
        apply (@settled_kept E data sort r' r s s1 (Raise e) (Hdone r' Hin)
                 Hr). }
      pose proof (@turn_repeats E data sort r s s1 (Raise e) Hr) as Hagain.
      clear IH Hdone Hr. revert Hdone1.
      induction done as [|r0 done IHd]; intros Hdone.
      * cbn [app]. rewrite regions_loop_snd, Hagain. reflexivity.
      * cbn [app]. rewrite regions_loop_snd.
        pose proof (Hdone r0 (or_introl eq_refl)) as H0.
        unfold settled in H0. rewrite H0.
        apply IHd. intros r' Hr'. apply Hdone. now right.
Qed.

(** X16.  Running the loop again on the files it left changes nothing:
    the second run ends the same way (it returns, or the same exception
    leaves it) and leaves the same files. *)
Theorem regions_loop_again (E : env) (data : pyval) (sort : string)
    (regions : list string) (s : fs) :
  snd (regions_loop E data sort regions
         (fs_of (regions_loop E data sort regions s)))
  = snd (regions_loop E data sort regions s).
Proof.
  apply (@regions_loop_settles E data sort regions [] s).
  intros r [].
Qed.

(** ** The sort argument *)

Lemma turn_of_other_sort data sort region :
  sort <> "chno" -> turn_of data sort region = turn_of data "name" region.
Proof.
  intros Hs. apply String.eqb_neq in Hs.
  unfold turn_of, ids_used, sort_channel_ids. now rewrite Hs.
Qed.

Lemma sort_log_other_sort sort region ctp :
  sort <> "chno" -> sort_log sort region ctp = sort_log "name" region ctp.
Proof.
  intros Hs. apply String.eqb_neq in Hs.
  unfold sort_log, sort_channel_ids. now rewrite Hs.
Qed.

Lemma ids_used_other_sort sort ctp :
  sort <> "chno" -> ids_used sort ctp = ids_used "name" ctp.
Proof.
  intros Hs. apply String.eqb_neq in Hs.
  unfold ids_used, sort_channel_ids. now rewrite Hs.
Qed.

(** X17.  Every value of the sort argument other than the string chno
    is the sort by name: the same log lines, files and result. *)
Theorem other_sort_is_name (E : env) (data : pyval) (regions : list string)
    (sort : string) (s : fs)
    (Hsort : sort <> "chno") :
  playlists_from E data regions sort s
  = playlists_from E data regions "name" s.
Proof.
  assert (forall s', regions_loop E data sort regions s'
                     = regions_loop E data "name" regions s') as Hloop.
  { induction regions as [|r rest IH]; intros s'; [reflexivity|].
    cbn [regions_loop]. unfold bind.
    rewrite !region_body_eq.
    destruct (select_channels data r (is_all r)) as [[ctp|]|e];
      [| now rewrite IH | reflexivity].
    rewrite (sort_log_other_sort r ctp Hsort),
      (ids_used_other_sort ctp Hsort).
    destruct (build_entries (is_all r) ctp (ids_used "name" ctp));
      [|reflexivity].
    cbv zeta.
    destruct (write_m3u_file E (playlist_filename r) _ s')
      as [lw [s1 [[]|e]]]; cbn [fst snd]; now rewrite ?IH. }
  unfold playlists_from, bind.
  destruct (negb (truthy data)); cbn; [reflexivity|].
  unfold lift. destruct (py_contains data "regions") as [[]|e]; cbn;
    try reflexivity.
  rewrite Hloop. reflexivity.
Qed.

Lemma other_sort_is_name_witness :
  playlists_from (env_serving []) catalog_chno ["us"] "CHNO" fs_empty
  = playlists_from (env_serving []) catalog_chno ["us"] "name" fs_empty.
Proof.
  apply (@other_sort_is_name (env_serving []) catalog_chno ["us"] "CHNO"
           fs_empty).
  discriminate.
Defined.

(** ** Regions without channels *)

(** X18.  A region that the catalog has with an empty or null value (an
    object without members, an empty list or string, zero, false, null)
    is taken as missing: the turn logs the warning for a region that
    was not found, writes no file and raises nothing. *)
Theorem empty_region_skipped (E : env) (data : pyval) (sort region : string)
    (regions : pydict) (v : pyval) (s : fs)
    (Hregions : py_get data "regions" (PDict []) = Ok (PDict regions))
    (Hthere : dict_get regions region = Some v)
    (Hfalsy : truthy v = false)
    (Hnot_all : is_all region = false) :
  region_body E data sort region s
  = ([(INFO, "--- Generating lgchannels playlist for region: " ++ region
             ++ " ---");
      (WARNING, "Region '" ++ region
                ++ "' not found in PlutoTV data. Skipping.")],
     (s, Ok tt)).
Proof.
  rewrite region_body_eq. unfold select_channels.
  rewrite Hnot_all, Hregions. cbn [res_bind py_get].
  unfold dict_get_default. rewrite Hthere, Hfalsy. reflexivity.
Qed.

Lemma empty_region_skipped_witness :
  region_body (env_serving []) catalog_empty_region "name" "us" fs_empty
  = ([(INFO, "--- Generating lgchannels playlist for region: " ++ "us"
             ++ " ---");
      (WARNING, "Region '" ++ "us"
                ++ "' not found in PlutoTV data. Skipping.")],
     (fs_empty, Ok tt)).
Proof.
  apply (@empty_region_skipped (env_serving []) catalog_empty_region "name"
           "us" [("us", PDict [])] (PDict []) fs_empty);
    reflexivity.
Defined.




(** ** The check of the fetched value *)

(** X20.  On a fetched value that is empty or null, or an object
    without the member regions, the function logs the one error line
    and returns: no region is looked at, no file is written and nothing
    is raised. *)
Theorem no_regions_no_playlist (E : env) (data : pyval)
    (regions : list string) (sort : string) (s : fs)
    (Hdata : truthy data = false \/
             exists d, data = PDict d /\ dict_get d "regions" = None) :
  playlists_from E data regions sort s
  = ([(ERROR, "Failed to fetch or parse PlutoTV data.")], (s, Ok tt)).
Proof.
  unfold playlists_from, bind, ret, lift, log.
  destruct (truthy data) eqn:Ht; cbn [negb]; [|reflexivity].
  destruct Hdata as [H|[d [-> Hd]]]; [discriminate H|].
  cbn [py_contains]. rewrite Hd. reflexivity.
Qed.

Lemma no_regions_no_playlist_witness :
  playlists_from (env_serving []) (PDict [("error", PStr "busy")])
    ["us"; "all"] "name" fs_empty
  = ([(ERROR, "Failed to fetch or parse PlutoTV data.")], (fs_empty, Ok tt)).
Proof.
  apply (@no_regions_no_playlist (env_serving [])
           (PDict [("error", PStr "busy")]) ["us"; "all"] "name" fs_empty).
  right. exists [("error", PStr "busy")]. split; reflexivity.
Defined.

Lemma turn_of_not_dict data sort region :
  (forall d, data <> PDict d) ->
  turn_of data sort region = Fails AttributeError.
Proof.
  intros H. unfold turn_of, select_channels.
  destruct data as [| | | |?|d]; try (destruct (is_all region); reflexivity).
  now destruct (H d).
Qed.

Lemma regions_loop_not_dict E data sort regions s :
  (forall d, data <> PDict d) ->
  fst (snd (regions_loop E data sort regions s)) = s.
Proof.
  intros H. destruct regions as [|r rest]; [reflexivity|].
  rewrite regions_loop_snd, region_body_snd, (turn_of_not_dict sort r H).
  reflexivity.
Qed.

(** X21.  On a fetched value that is not a JSON object (a number, a
    string, a list, true, false or null) no file is written and no
    directory made, whatever the regions asked for and however the
    function ends. *)
Theorem not_an_object_no_playlist (E : env) (data : pyval)
    (regions : list string) (sort : string) (s : fs)
    (Hdata : forall d, data <> PDict d) :
  fs_of (playlists_from E data regions sort s) = s.
Proof.
  pose proof (@regions_loop_not_dict E data sort regions s Hdata) as Hloop.
  unfold fs_of, playlists_from, bind, ret, lift, log.
  destruct (negb (truthy data)); [reflexivity|].
  destruct (py_contains data "regions") as [[]|e]; cbn [negb fst snd app];
    [| reflexivity | reflexivity].
  destruct (regions_loop E data sort regions s) as [l [s1 r]].
  exact Hloop.
Qed.

Lemma not_an_object_no_playlist_witness :
  fs_of (playlists_from (env_serving []) (PStr "no regions today")
           ["us"; "all"] "name" fs_empty)
  = fs_empty.
Proof.
  apply (@not_an_object_no_playlist (env_serving [])
           (PStr "no regions today") ["us"; "all"] "name" fs_empty).
  discriminate.
Defined.

(** ** The playlists after the loop *)



